(** * Forecast accuracy reports: reconciliation pipeline, dashboards, trend views

    A shallow embedding of the aggregation core of
    [build_forecast_accuracy_report.py], of the trend aggregator of
    [build_forecast_accuracy_trend_report_db.py] and of the two command-line
    drivers, together with the properties stated about them.

    Conventions of the embedding.
    - A pandas DataFrame is a list of row records, in row order.
    - A cell of an object column is a [cell]: a Python [str], the float NaN,
      [None], or any other Python object, which is represented by the text
      that Python's [str()] gives for it.
    - A numeric cell after [pd.to_numeric(..., errors="coerce")] is an
      [option Q]: [None] stands for NaN (a null or a value that does not
      parse).  Floating-point numbers are abstracted by rationals.
    - Strings are byte strings; [str.upper] and [str.strip] act on the ASCII
      range. *)

From Stdlib Require Import List String Ascii Bool Arith ZArith QArith Qabs Lia Btauto.
From Stdlib Require Import Sorting.Permutation Sorting.Sorted.
Import ListNotations.

Open Scope string_scope.
Open Scope list_scope.

(** ** Python strings *)

Module PyStr.

(** [str.isspace] on the ASCII range: TAB..CR, FS..US and the space. *)
Definition is_space (c : ascii) : bool :=
  let n := nat_of_ascii c in
  ((9 <=? n) && (n <=? 13) || (28 <=? n) && (n <=? 31) || (n =? 32))%nat.

Definition upper_ascii (c : ascii) : ascii :=
  let n := nat_of_ascii c in
  if ((97 <=? n) && (n <=? 122))%nat then ascii_of_nat (n - 32) else c.

Definition lower_ascii (c : ascii) : ascii :=
  let n := nat_of_ascii c in
  if ((65 <=? n) && (n <=? 90))%nat then ascii_of_nat (n + 32) else c.

Fixpoint map_chars (f : ascii -> ascii) (s : string) : string :=
  match s with
  | EmptyString => EmptyString
  | String c r => String (f c) (map_chars f r)
  end.

Definition upper : string -> string := map_chars upper_ascii.
Definition lower : string -> string := map_chars lower_ascii.

Fixpoint lstrip (s : string) : string :=
  match s with
  | EmptyString => EmptyString
  | String c r => if is_space c then lstrip r else s
  end.

Fixpoint rstrip (s : string) : string :=
  match s with
  | EmptyString => EmptyString
  | String c r =>
      let r' := rstrip r in
      if is_space c && (r' =? "") then EmptyString else String c r'
  end.

Definition strip (s : string) : string := rstrip (lstrip s).

(** [s.split(sep)] for a one-character separator: always at least one
    piece, one more than the number of separators. *)
Fixpoint split (sep : ascii) (s : string) : list string :=
  match s with
  | EmptyString => [EmptyString]
  | String c r =>
      if Ascii.eqb c sep then EmptyString :: split sep r
      else match split sep r with
           | [] => [String c EmptyString]
           | t :: ts => String c t :: ts
           end
  end.

Fixpoint count (sep : ascii) (s : string) : nat :=
  match s with
  | EmptyString => 0
  | String c r => (if Ascii.eqb c sep then 1 else 0) + count sep r
  end.

End PyStr.

(** ** Cells, dates and numbers *)

Inductive cell : Type :=
| CStr (s : string)        (* a Python str *)
| CNaN                     (* float('nan'), what read_excel gives for a blank *)
| CNone                    (* None, what read_sql gives for a NULL *)
| CObj (text : string).    (* any other object, known by its str() text *)

(** [str(x)], as [Series.astype(str)] applies it to each element. *)
Definition py_str (c : cell) : string :=
  match c with
  | CStr s => s
  | CNaN => "nan"
  | CNone => "None"
  | CObj t => t
  end.

(** [pd.isna] on one element. *)
Definition isna (c : cell) : bool :=
  match c with
  | CNaN | CNone => true
  | _ => false
  end.

Definition cell_eqb (a b : cell) : bool :=
  match a, b with
  | CStr s, CStr t => (s =? t)
  | CObj s, CObj t => (s =? t)
  | CNaN, CNaN | CNone, CNone => true
  | _, _ => false
  end.

Record date : Type := mkDate { d_year : Z; d_month : Z; d_day : Z }.

Definition date_eqb (a b : date) : bool :=
  (d_year a =? d_year b)%Z && (d_month a =? d_month b)%Z && (d_day a =? d_day b)%Z.

(** [a <= b] on dates. *)
Definition date_leb (a b : date) : bool :=
  if (d_year a =? d_year b)%Z
  then if (d_month a =? d_month b)%Z
       then (d_day a <=? d_day b)%Z
       else (d_month a <=? d_month b)%Z
  else (d_year a <=? d_year b)%Z.

(** [ts.dt.to_period("M") == month_start.to_period("M")]; NaT compares false. *)
Definition same_month (d : option date) (m : date) : bool :=
  match d with
  | Some d => (d_year d =? d_year m)%Z && (d_month d =? d_month m)%Z
  | None => false
  end.

(** [Series.sum()]: NaN is skipped, the empty sum is 0. *)
Definition qsum (l : list Q) : Q := fold_left Qplus l 0%Q.

Definition fillna0 (v : option Q) : Q :=
  match v with Some q => q | None => 0%Q end.

Definition sum_skipna (l : list (option Q)) : Q := qsum (map fillna0 l).

(** ** 4.1 Key normalizer *)

(** [normalize_key(series) = series.astype(str).str.strip().str.upper()] *)
Definition normalize_key1 (c : cell) : string :=
  PyStr.upper (PyStr.strip (py_str c)).

Definition normalize_key (series : list cell) : list string :=
  map PyStr.upper (map PyStr.strip (map py_str series)).

(** ** Tables of the data model *)

Record marketing_row : Type := mkMarketing {
  m_BU : cell;
  m_Location : cell;
  m_Geography : cell;
  m_Product : cell;
  m_Date : option date;
  m_Forecast_Dollars : option Q;
  m_Forecast_Quantity : option Q
}.

Record catalog_row : Type := mkCatalog {
  group_key : cell;
  business_unit_code : cell;
  business_unit_name : cell;
  sku_list : cell;
  product_family : cell;
  marketing_manager : cell;
  salesforce_feature_mode : cell
}.

Record stats_row : Type := mkStats {
  product_id : cell;
  bu_id : cell;
  forecast_month : option date;
  model_type : cell;
  forecast_value : option Q;
  recommended_model : bool
}.

Record actuals_row : Type := mkActuals {
  a_Product : cell;
  a_Division : cell;
  a_Month : option date;
  a_Actuals : option Q
}.

(** ** 4.2 Catalog expander *)

Definition set_sku (e : catalog_row) (code : string) : catalog_row :=
  mkCatalog (group_key e) (business_unit_code e) (business_unit_name e)
            (CStr code) (product_family e) (marketing_manager e)
            (salesforce_feature_mode e).

(** One catalog entry through
    [astype(str).str.split("|")], [explode] and [astype(str).str.strip()]. *)
Definition expand_entry (e : catalog_row) : list catalog_row :=
  map (fun tok => set_sku e (PyStr.strip tok))
      (PyStr.split "|" (py_str (sku_list e))).

Definition expand_catalog (catalog_df : list catalog_row) : list catalog_row :=
  flat_map expand_entry catalog_df.

(** ** Group-by, sorting and joins of the frame algebra *)

(** Keys of a [groupby(..., dropna=False)]: when two keys fall in the same
    group, and the order in which the groups come out. *)
Class GroupKey (K : Type) : Type := {
  same_key : K -> K -> bool;
  key_leb : K -> K -> bool
}.

#[export] Instance string_GroupKey : GroupKey string := {
  same_key := String.eqb;
  key_leb := String.leb
}.

(** All nulls form one group, which sorts last. *)
#[export] Instance cell_GroupKey : GroupKey cell := {
  same_key a b := (isna a && isna b) || cell_eqb a b;
  key_leb a b :=
    if isna b then true
    else if isna a then false
    else String.leb (py_str a) (py_str b)
}.

(** The label of a group: [groupby(dropna=False)] hands the group of the
    nulls back under NaN, whether its keys were NaN or [None]. *)
Definition group_label (c : cell) : cell :=
  if isna c then CNaN else c.

#[export] Instance prod_GroupKey {A B : Type} `{GroupKey A} `{GroupKey B}
  : GroupKey (A * B) := {
  same_key x y := same_key (fst x) (fst y) && same_key (snd x) (snd y);
  key_leb x y :=
    if same_key (fst x) (fst y) then key_leb (snd x) (snd y)
    else key_leb (fst x) (fst y)
}.

Section FrameAlgebra.

Context {R K : Type} `{GroupKey K}.

Fixpoint dedup (l : list K) : list K :=
  match l with
  | [] => []
  | k :: r => k :: filter (fun k' => negb (same_key k k')) (dedup r)
  end.

Fixpoint insert_by {A : Type} (leb : A -> A -> bool) (x : A) (l : list A) : list A :=
  match l with
  | [] => [x]
  | y :: r => if leb x y then x :: l else y :: insert_by leb x r
  end.

Definition sort_by {A : Type} (leb : A -> A -> bool) (l : list A) : list A :=
  fold_right (insert_by leb) [] l.

(** [df.groupby(key, dropna=False)]: the groups in sorted key order, each
    with its rows in frame order. *)
Definition groupby (key : R -> K) (rows : list R) : list (K * list R) :=
  map (fun k => (k, filter (fun r => same_key (key r) k) rows))
      (sort_by key_leb (dedup (map key rows))).

(** [left.merge(right, how="left")] on a key, yielding for each left row
    its matches in [right], or one row with a null when there is none. *)
Definition merge_left {V : Type} (key : R -> K) (left : list R)
    (right : list (K * V)) : list (R * option V) :=
  flat_map
    (fun l =>
       match filter (fun e => same_key (fst e) (key l)) right with
       | [] => [(l, None)]
       | ms => map (fun e => (l, Some (snd e))) ms
       end)
    left.

End FrameAlgebra.

(** The value a rollup holds for a key, if any. *)
Definition rollup_lookup {K V : Type} `{GroupKey K} (k : K) (l : list (K * V))
  : option V :=
  option_map snd (find (fun e => same_key (fst e) k) l).

(** ** 4.3 Reconciliation joiner *)

Record merged_row : Type := mkMerged {
  mr_marketing : marketing_row;
  mr_catalog : catalog_row
}.

Definition m_product_key (m : marketing_row) : string := normalize_key1 (m_Product m).
Definition m_bu_key (m : marketing_row) : string := normalize_key1 (m_BU m).
Definition c_product_key (c : catalog_row) : string := normalize_key1 (sku_list c).
Definition c_bu_key (c : catalog_row) : string := normalize_key1 (business_unit_code c).

Definition join_match (m : marketing_row) (c : catalog_row) : bool :=
  (m_product_key m =? c_product_key c) && (m_bu_key m =? c_bu_key c).

(** The month and geography filters at the head of [build_raw_data]. *)
Definition filter_marketing (marketing_df : list marketing_row) (month_start : date)
  : list marketing_row :=
  filter (fun m => PyStr.upper (py_str (m_Geography m)) =? "AMERICAS")
         (filter (fun m => same_month (m_Date m) month_start) marketing_df).

(** [marketing_df.merge(catalog_map, on=[_product_key, _bu_key], how="inner")] *)
Definition merge_inner (marketing_df : list marketing_row)
    (catalog_map : list catalog_row) : list merged_row :=
  flat_map (fun m => map (mkMerged m) (filter (join_match m) catalog_map))
           marketing_df.

Definition casework_location_map (loc : string) : option string :=
  if loc =? "LOC1020" then Some "ARTISAN CASEWORK"
  else if loc =? "LOC1080" then Some "SYNTHESIS CASEWORK"
  else None.

Definition mr_bu_key (r : merged_row) : string := m_bu_key (mr_marketing r).
Definition mr_product_key (r : merged_row) : string := m_product_key (mr_marketing r).
Definition mr_location_key (r : merged_row) : string :=
  normalize_key1 (m_Location (mr_marketing r)).
Definition mr_group_key_norm (r : merged_row) : string :=
  normalize_key1 (group_key (mr_catalog r)).

Definition casework_mask (r : merged_row) : bool :=
  (mr_bu_key r =? "D200")
  && (mr_product_key r =? "TOTAL CASEWORK")
  && (match casework_location_map (mr_location_key r) with
      | Some _ => true
      | None => false
      end).

(** [merged["_group_key_norm"] == mapped_group]; a location outside the map
    gives NaN, which equals nothing. *)
Definition group_is_mapped (r : merged_row) : bool :=
  match casework_location_map (mr_location_key r) with
  | Some g => mr_group_key_norm r =? g
  | None => false
  end.

Definition casework_split (merged : list merged_row) : list merged_row :=
  if existsb casework_mask merged
  then filter (fun r => negb (casework_mask r) || group_is_mapped r) merged
  else merged.

(** The left-only rows of the indicator merge. *)
Definition skipped_rows (marketing_df : list marketing_row)
    (catalog_map : list catalog_row) : list marketing_row :=
  filter (fun m => negb (existsb (join_match m) catalog_map)) marketing_df.

(** [sort_values(["BU", "Product"])], nulls last, rows with the same
    pair in frame order. *)
Definition skipped_leb (a b : marketing_row) : bool :=
  key_leb (m_BU a, m_Product a) (m_BU b, m_Product b).

(** ** 4.4 Forecast rollup aggregator *)

Definition mr_Units (r : merged_row) : string :=
  PyStr.strip (PyStr.lower (py_str (salesforce_feature_mode (mr_catalog r)))).

(** The forecast column picked by the unit type, coerced, nulls to zero. *)
Definition mr_Marketing_Fcast (r : merged_row) : Q :=
  fillna0 (if mr_Units r =? "quantity"
           then m_Forecast_Quantity (mr_marketing r)
           else m_Forecast_Dollars (mr_marketing r)).

Record agg_row : Type := mkAgg {
  ag_group_key : cell;
  ag_business_unit_code : cell;
  ag_business_unit_name : cell;
  ag_product_family : cell;
  ag_marketing_manager : cell;
  ag_Units : string;
  ag_Marketing_Fcast : Q
}.

Definition agg_group_key (r : merged_row)
  : cell * cell * cell * cell * cell * string :=
  let c := mr_catalog r in
  (group_key c, business_unit_code c, business_unit_name c,
   product_family c, marketing_manager c, mr_Units r).

Definition marketing_rollup (merged : list merged_row) : list agg_row :=
  map (fun kg =>
         match fst kg with
         | (gk, bc, bn, pf, mm, u) =>
             mkAgg (group_label gk) (group_label bc) (group_label bn)
                   (group_label pf) (group_label mm) u
                   (qsum (map mr_Marketing_Fcast (snd kg)))
         end)
      (groupby agg_group_key merged).

Definition key_pair : Type := (string * string)%type.

Definition actuals_key (a : actuals_row) : key_pair :=
  (normalize_key1 (a_Product a), normalize_key1 (a_Division a)).

Definition actuals_rollup (actuals_df : list actuals_row) (month_start : date)
  : list (key_pair * Q) :=
  map (fun kg => (fst kg, sum_skipna (map a_Actuals (snd kg))))
      (groupby actuals_key
               (filter (fun a => same_month (a_Month a) month_start) actuals_df)).

Definition stats_key (s : stats_row) : key_pair :=
  (normalize_key1 (product_id s), normalize_key1 (bu_id s)).

Definition stats_model_type (s : stats_row) : string :=
  PyStr.strip (PyStr.upper (py_str (model_type s))).

Definition stats_in_month (stats_df : list stats_row) (month_start : date)
  : list stats_row :=
  filter (fun s => same_month (forecast_month s) month_start) stats_df.

Definition stats_blend (stats_df : list stats_row) : list stats_row :=
  filter (fun s => stats_model_type s =? "BLEND") stats_df.

Definition stats_fallback (stats_df : list stats_row) : list stats_row :=
  filter recommended_model stats_df.

Definition stats_subset_rollup (rows : list stats_row) : list (key_pair * Q) :=
  map (fun kg => (fst kg, sum_skipna (map forecast_value (snd kg))))
      (groupby stats_key rows).

(** [blend.merge(fallback, how="outer")]: one row per key of either side. *)
Definition merge_outer (bl fb : list (key_pair * Q))
  : list (key_pair * option Q * option Q) :=
  map (fun k => (k, rollup_lookup k bl, rollup_lookup k fb))
      (sort_by key_leb (dedup (map fst bl ++ map fst fb))).

(** [forecast_value_blend.where(forecast_value_blend.notna(),
    forecast_value_fallback)] *)
Definition coalesce_blend (blend fallback : option Q) : option Q :=
  match blend with
  | Some v => Some v
  | None => fallback
  end.

Definition stats_rollup (stats_df : list stats_row) (month_start : date)
  : list (key_pair * option Q) :=
  let stats_df := stats_in_month stats_df month_start in
  let stats_rollup_blend := stats_subset_rollup (stats_blend stats_df) in
  let stats_rollup_fallback := stats_subset_rollup (stats_fallback stats_df) in
  map (fun row =>
         match row with
         | (k, b, f) => (k, coalesce_blend b f)
         end)
      (merge_outer stats_rollup_blend stats_rollup_fallback).

Definition agg_key (a : agg_row) : key_pair :=
  (normalize_key1 (ag_group_key a), normalize_key1 (ag_business_unit_code a)).

(** The reconciled record, one row of the "Raw Data" sheet. *)
Record raw_row : Type := mkRaw {
  r_Product : cell;
  r_Division : cell;
  r_Month : date;
  r_sku : string;
  r_Prod_Fam : cell;
  r_Units : string;
  r_Actuals : Q;
  r_Stats_Model_Fcast : Q;
  r_Marketing_Fcast : Q;
  r_Stats_Abs_Error : Q;
  r_Marketing_Abs_Error : Q;
  r_BU_Name : cell;
  r_Marketing_Manager : cell
}.

Definition join_null {V : Type} (v : option (option V)) : option V :=
  match v with
  | Some x => x
  | None => None
  end.

(** One row of [agg] after both left joins: the [fillna(0)] columns, the
    absolute errors and the projection to the raw frame. *)
Definition reconciled (month_start : date) (a : agg_row)
    (actuals : option Q) (fcast : option Q) : raw_row :=
  let Stats_Model_Fcast := fillna0 fcast in
  let Marketing_Fcast := fillna0 (Some (ag_Marketing_Fcast a)) in
  let Actuals := fillna0 actuals in
  mkRaw (ag_group_key a) (ag_business_unit_code a) month_start ""
        (ag_product_family a) (ag_Units a)
        Actuals Stats_Model_Fcast Marketing_Fcast
        (Qabs (Actuals - Stats_Model_Fcast))
        (Qabs (Actuals - Marketing_Fcast))
        (ag_business_unit_name a) (ag_marketing_manager a).

Definition final_join (month_start : date) (agg : list agg_row)
    (actuals_rollup : list (key_pair * Q))
    (stats_rollup : list (key_pair * option Q)) : list raw_row :=
  map (fun row =>
         match row with
         | (a, act, st) => reconciled month_start a act (join_null st)
         end)
      (merge_left (fun x => agg_key (fst x))
                  (merge_left agg_key agg actuals_rollup)
                  stats_rollup).

Record raw_data : Type := mkRawData {
  rd_raw : list raw_row;
  rd_skipped : list marketing_row;
  rd_marketing_detail : list merged_row;
  rd_stats_rollup : list (key_pair * option Q);
  rd_agg : list agg_row;
  rd_actuals_rollup : list (key_pair * Q)
}.

Definition build_raw_data (marketing_df : list marketing_row)
    (catalog_df : list catalog_row) (stats_df : list stats_row)
    (actuals_df : list actuals_row) (report_month : date) : raw_data :=
  let marketing_df := filter_marketing marketing_df report_month in
  let catalog_map := expand_catalog catalog_df in
  let merged := casework_split (merge_inner marketing_df catalog_map) in
  let skipped := skipped_rows marketing_df catalog_map in
  let agg := marketing_rollup merged in
  let actuals_rollup := actuals_rollup actuals_df report_month in
  let stats_rollup := stats_rollup stats_df report_month in
  let skipped_out := sort_by skipped_leb skipped in
  mkRawData (final_join report_month agg actuals_rollup stats_rollup)
            skipped_out merged stats_rollup agg actuals_rollup.

(** ** 4.5 Metrics dashboard builders *)

Definition safe_ratio (numerator denominator : Q) : option Q :=
  if Qeq_bool denominator 0 then None else Some (numerator / denominator)%Q.

(** The five column sums every builder takes over one group. *)
Record group_sums : Type := mkSums {
  actuals_sum : Q;
  stats_sum : Q;
  mkt_sum : Q;
  stats_abs : Q;
  mkt_abs : Q
}.

Definition sums_of (group : list raw_row) : group_sums :=
  mkSums (qsum (map r_Actuals group))
         (qsum (map r_Stats_Model_Fcast group))
         (qsum (map r_Marketing_Fcast group))
         (qsum (map r_Stats_Abs_Error group))
         (qsum (map r_Marketing_Abs_Error group)).

Definition stats_acc (s : group_sums) : option Q := safe_ratio (stats_sum s) (actuals_sum s).
Definition mkt_acc (s : group_sums) : option Q := safe_ratio (mkt_sum s) (actuals_sum s).
Definition stats_wape (s : group_sums) : option Q := safe_ratio (stats_abs s) (actuals_sum s).
Definition mkt_wape (s : group_sums) : option Q := safe_ratio (mkt_abs s) (actuals_sum s).

(** One record of a dashboard data frame; a column that a view does not
    have is [None]. *)
Record dash_record : Type := mkDash {
  dr_Units : string;
  dr_Scope : option string;
  dr_BU_Code : cell;
  dr_BU_Name : cell;
  dr_Prod_Fam : option cell;
  dr_Product : option cell;
  dr_Marketing_Manager : option cell;
  dr_Metric : string;
  dr_Stats_Model : option Q;
  dr_Marketing : option Q
}.

Definition ACC : string := "Midmark Fcast Acc.".
Definition WAPE : string := "WAPE".

Definition unit_types : list string := ["quantity"; "dollars"].

Definition unit_df (raw : list raw_row) (units : string) : list raw_row :=
  filter (fun r => r_Units r =? units) raw.

Definition is_empty {A : Type} (l : list A) : bool :=
  match l with [] => true | _ => false end.

Definition build_totals_dashboard (raw : list raw_row) : list dash_record :=
  flat_map
    (fun units =>
       let unit_df := unit_df raw units in
       if is_empty unit_df then []
       else
         flat_map
           (fun kg =>
              match fst kg with
              | (bu_code, bu_name) =>
                  let s := sums_of (snd kg) in
                  [ mkDash units (Some "BU") (group_label bu_code) (group_label bu_name)
                           None None None
                           ACC (stats_acc s) (mkt_acc s);
                    mkDash units (Some "BU") (group_label bu_code) (group_label bu_name)
                           None None None
                           WAPE (stats_wape s) (mkt_wape s) ]
              end)
           (groupby (fun r => (r_Division r, r_BU_Name r)) unit_df)
         ++
         (let s := sums_of unit_df in
          [ mkDash units (Some "Total") (CStr "ALL") (CStr "Total") None None None
                   ACC (stats_acc s) (mkt_acc s);
            mkDash units (Some "Total") (CStr "ALL") (CStr "Total") None None None
                   WAPE (stats_wape s) (mkt_wape s) ]))
    unit_types.

Definition build_prod_fam_dashboard (raw : list raw_row) : list dash_record :=
  flat_map
    (fun units =>
       let unit_df := unit_df raw units in
       if is_empty unit_df then []
       else
         map
           (fun kg =>
              match fst kg with
              | (bu_code, bu_name, prod_fam) =>
                  let s := sums_of (snd kg) in
                  mkDash units None (group_label bu_code) (group_label bu_name)
                         (Some (group_label prod_fam)) None None
                         ACC (stats_acc s) (mkt_acc s)
              end)
           (groupby (fun r => (r_Division r, r_BU_Name r, r_Prod_Fam r)) unit_df))
    unit_types.

Definition build_prod_fam_wape_dashboard (raw : list raw_row) : list dash_record :=
  flat_map
    (fun units =>
       let unit_df := unit_df raw units in
       if is_empty unit_df then []
       else
         map
           (fun kg =>
              match fst kg with
              | (bu_code, bu_name, prod_fam) =>
                  let s := sums_of (snd kg) in
                  mkDash units None (group_label bu_code) (group_label bu_name)
                         (Some (group_label prod_fam)) None None
                         WAPE (stats_wape s) (mkt_wape s)
              end)
           (groupby (fun r => (r_Division r, r_BU_Name r, r_Prod_Fam r)) unit_df))
    unit_types.

Definition build_marketing_manager_dashboard (raw : list raw_row) : list dash_record :=
  flat_map
    (fun units =>
       let unit_df := unit_df raw units in
       if is_empty unit_df then []
       else
         flat_map
           (fun kg =>
              match fst kg with
              | (bu_code, bu_name, manager) =>
                  let s := sums_of (snd kg) in
                  [ mkDash units None (group_label bu_code) (group_label bu_name)
                           None None (Some (group_label manager))
                           ACC (stats_acc s) (mkt_acc s);
                    mkDash units None (group_label bu_code) (group_label bu_name)
                           None None (Some (group_label manager))
                           WAPE (stats_wape s) (mkt_wape s) ]
              end)
           (groupby (fun r => (r_Division r, r_BU_Name r, r_Marketing_Manager r))
                    unit_df))
    unit_types.

Definition build_product_dashboard (raw : list raw_row) : list dash_record :=
  flat_map
    (fun units =>
       let unit_df := unit_df raw units in
       if is_empty unit_df then []
       else
         map
           (fun kg =>
              match fst kg with
              | (bu_code, bu_name, product, manager) =>
                  let s := sums_of (snd kg) in
                  mkDash units None (group_label bu_code) (group_label bu_name) None
                         (Some (group_label product)) (Some (group_label manager))
                         ACC (stats_acc s) (mkt_acc s)
              end)
           (groupby (fun r => (r_Division r, r_BU_Name r, r_Product r,
                               r_Marketing_Manager r))
                    unit_df))
    unit_types.

(** ** 4.6 Trend aggregator *)

Module Trend.

(** The trend report's own [safe_ratio], with its [float(...)] casts. *)
Definition safe_ratio (numerator denominator : Q) : option Q :=
  if Qeq_bool denominator 0 then None else Some (numerator / denominator)%Q.

(** One long-form metric row of the trend frame. *)
Record trend_row : Type := mkTrend {
  month_start : date;
  units : string;
  view_level : string;
  bu_code : string;
  bu_name : string;
  prod_fam : string;
  product : string;
  marketing_manager : string;
  metric_name : string;
  actuals_sum : Q;
  model_side : string;
  metric_value : option Q;
  forecast_sum : Q;
  abs_error_sum : Q
}.

Definition _view_rows (frame : list raw_row) (month_start : date)
    (units view_level bu_code bu_name prod_fam product marketing_manager : string)
  : list trend_row :=
  let actuals_sum := qsum (map r_Actuals frame) in
  let stats_forecast_sum := qsum (map r_Stats_Model_Fcast frame) in
  let marketing_forecast_sum := qsum (map r_Marketing_Fcast frame) in
  let stats_abs_error_sum := qsum (map r_Stats_Abs_Error frame) in
  let marketing_abs_error_sum := qsum (map r_Marketing_Abs_Error frame) in
  let stats_acc := safe_ratio actuals_sum stats_forecast_sum in
  let marketing_acc := safe_ratio actuals_sum marketing_forecast_sum in
  let base := fun side value fsum esum =>
    mkTrend month_start units view_level bu_code bu_name prod_fam product
            marketing_manager "midmark_fcast_acc" actuals_sum
            side value fsum esum in
  [ base "stats_model" stats_acc stats_forecast_sum stats_abs_error_sum;
    base "marketing" marketing_acc marketing_forecast_sum marketing_abs_error_sum ].

Definition first_prod_fam (group : list raw_row) : string :=
  match group with
  | r :: _ => py_str (r_Prod_Fam r)
  | [] => ""
  end.

Definition build_month_trend_rows (raw : list raw_row) (month_start : date)
  : list trend_row :=
  flat_map
    (fun units =>
       let unit_df := unit_df raw units in
       if is_empty unit_df then []
       else
         _view_rows unit_df month_start units "total" "ALL" "Total" "" "" ""
         ++ flat_map
              (fun kg =>
                 match fst kg with
                 | (bu_code, bu_name) =>
                     _view_rows (snd kg) month_start units "bu"
                                (py_str (group_label bu_code))
                                (py_str (group_label bu_name)) "" "" ""
                 end)
              (groupby (fun r => (r_Division r, r_BU_Name r)) unit_df)
         ++ flat_map
              (fun kg =>
                 match fst kg with
                 | (bu_code, bu_name, prod_fam) =>
                     _view_rows (snd kg) month_start units "prod_fam"
                                (py_str (group_label bu_code))
                                (py_str (group_label bu_name))
                                (py_str (group_label prod_fam)) "" ""
                 end)
              (groupby (fun r => (r_Division r, r_BU_Name r, r_Prod_Fam r)) unit_df)
         ++ flat_map
              (fun kg =>
                 match fst kg with
                 | (bu_code, bu_name, product, manager) =>
                     _view_rows (snd kg) month_start units "product"
                                (py_str (group_label bu_code))
                                (py_str (group_label bu_name))
                                (first_prod_fam (snd kg))
                                (py_str (group_label product))
                                (py_str (group_label manager))
                 end)
              (groupby (fun r => (r_Division r, r_BU_Name r, r_Product r,
                                  r_Marketing_Manager r))
                       unit_df))
    unit_types.

(** *** The product grain of [build_views]: ranking and top-N selection *)

#[global] Instance Q_GroupKey : GroupKey Q := {
  same_key := Qeq_bool;
  key_leb := Qle_bool
}.

Definition rank_key : Type := (string * string * Q)%type.

Definition rk_units (x : rank_key) : string := fst (fst x).
Definition rk_product (x : rank_key) : string := snd (fst x).
Definition rk_actuals (x : rank_key) : Q := snd x.

Definition product_all (trend_df : list trend_row) : list trend_row :=
  filter (fun t => view_level t =? "product") trend_df.

Definition latest (trend_df : list trend_row) (anchor_month : date)
  : list trend_row :=
  filter (fun t => date_eqb (month_start t) anchor_month) (product_all trend_df).

(** [sort_values(["units", "actuals_sum", "product"],
    ascending=[True, False, True])] *)
Definition rank_leb (x y : rank_key) : bool :=
  if rk_units x =? rk_units y then
    if Qeq_bool (rk_actuals x) (rk_actuals y)
    then String.leb (rk_product x) (rk_product y)
    else Qle_bool (rk_actuals y) (rk_actuals x)
  else String.leb (rk_units x) (rk_units y).

Definition latest_rank (trend_df : list trend_row) (anchor_month : date)
  : list rank_key :=
  sort_by rank_leb
    (dedup (map (fun t => (units t, product t, actuals_sum t))
                (latest trend_df anchor_month))).

(** [groupby("units").cumcount() + 1], walking the frame in row order. *)
Fixpoint cumcount_rank (seen : list string) (l : list rank_key)
  : list (rank_key * nat) :=
  match l with
  | [] => []
  | x :: r =>
      (x, (List.length (filter (String.eqb (rk_units x)) seen) + 1)%nat)
        :: cumcount_rank (rk_units x :: seen) r
  end.

Definition top_keys (trend_df : list trend_row) (anchor_month : date)
    (top_n_products : Z) : list (string * string) :=
  map (fun xr => (rk_units (fst xr), rk_product (fst xr)))
      (filter (fun xr => (Z.of_nat (snd xr) <=? top_n_products)%Z)
              (cumcount_rank [] (latest_rank trend_df anchor_month))).

(** [product_all.merge(top_keys, on=["units", "product"], how="inner")] *)
Definition product_top (trend_df : list trend_row) (anchor_month : date)
    (top_n_products : Z) : list trend_row :=
  flat_map
    (fun t =>
       map (fun _ => t)
           (filter (fun k => (fst k =? units t) && (snd k =? product t))
                   (top_keys trend_df anchor_month top_n_products)))
    (product_all trend_df).

End Trend.

(** ** Command-line drivers: effects, the data-quality gate, the global swap *)

Module Driver.

Local Open Scope string_scope.

Definition path : Type := string.

Inductive exn : Type :=
| SystemExit (msg : string)
| Error (msg : string).

Inductive outcome (A : Type) : Type :=
| Returned (a : A)
| Raised (e : exn).
Arguments Returned {A} a.
Arguments Raised {A} e.

(** Files that outlive a run. *)
Inductive artifact : Type :=
| DQLog (p : path)
| Report (p : path)
| Comparison (p : path).

(** What a run can observe and change: the module global
    [legacy.ACTUALS_FILE] and the files written so far, latest first. *)
Record world : Type := mkWorld {
  ACTUALS_FILE : path;
  artifacts : list artifact
}.

Definition set_ACTUALS_FILE (p : path) (w : world) : world :=
  mkWorld p (artifacts w).

Definition write_artifact (a : artifact) (w : world) : world :=
  mkWorld (ACTUALS_FILE w) (a :: artifacts w).

Definition is_report (a : artifact) : bool :=
  match a with Report _ => true | _ => false end.

Inductive dq_mode : Type := Off | Warn | Fail.

Record check : Type := mkCheck {
  name : string;
  severity : string;
  passed : bool
}.

(** The counts of the summary that both [run_dq_checks] return. *)
Definition checks_failed (checks : list check) : nat :=
  List.length (filter (fun c => negb (passed c)) checks).

Definition critical_failed (checks : list check) : nat :=
  List.length
    (filter (fun c => negb (passed c || negb (severity c =? "critical"))) checks).

Definition warning_failed (checks : list check) : nat :=
  List.length
    (filter (fun c => negb (passed c || negb (severity c =? "warning"))) checks).

Record frames : Type := mkFrames {
  marketing_df : list marketing_row;
  catalog_df : list catalog_row;
  stats_df : list stats_row;
  actuals_df : list actuals_row
}.

Record ReportConfig : Type := mkReportConfig {
  report_month : date;
  marketing_file : path;
  product_catalog_file : path;
  stats_model_file : path;
  output_file : path
}.

Definition path_join (dir name : path) : path := dir ++ "/" ++ name.

Definition month_abbr (m : Z) : string :=
  nth (Z.to_nat (m - 1))
      ["Jan"; "Feb"; "Mar"; "Apr"; "May"; "Jun";
       "Jul"; "Aug"; "Sep"; "Oct"; "Nov"; "Dec"] "".

Definition month_label (d : date) : string := month_abbr (d_month d).

(** *** build_forecast_accuracy_report_db.py *)

Section MonthlyReport.

(** The environment of one run: the report directory, the month
    resolution (which reads the clock), the loaders, the battery of
    checks, the temporary directory, the staging of the four frames as
    spreadsheets, and the wrapped [legacy.write_report], which may do to
    the world whatever it likes. *)
Variable ROOT : path.
Variable resolve_report_month : option string -> outcome date.
Variable load_frames : string -> date -> outcome frames.
Variable run_dq_checks : date -> string -> frames -> list check.
Variable TemporaryDirectory : outcome path.
Variable stage_frames : path -> frames -> outcome unit.
Variable write_report : ReportConfig -> world -> outcome unit * world.

Definition build_report_from_frames (report_month : date) (output_path : path)
    (fr : frames) (w : world) : outcome unit * world :=
  match TemporaryDirectory with
  | Raised e => (Raised e, w)
  | Returned tmp =>
      match stage_frames tmp fr with
      | Raised e => (Raised e, w)
      | Returned _ =>
          let original_actuals := ACTUALS_FILE w in
          (* try *)
          let w := set_ACTUALS_FILE (path_join tmp "actuals.xlsx") w in
          let cfg := mkReportConfig report_month
                                    (path_join tmp "marketing.xlsx")
                                    (path_join tmp "catalog.xlsx")
                                    (path_join tmp "stats.xlsx")
                                    output_path in
          let (r, w) := write_report cfg w in
          (* finally *)
          (r, set_ACTUALS_FILE original_actuals w)
      end
  end.

Record args : Type := mkArgs {
  arg_month : option string;
  arg_output : option string;
  arg_data_source : string;
  arg_compare_baseline : string;
  arg_dq_mode : dq_mode;
  arg_dq_log : option string
}.

Definition default {A : Type} (o : option A) (d : A) : A :=
  match o with Some a => a | None => d end.

Definition is_fail (m : dq_mode) : bool :=
  match m with Fail => true | _ => false end.

Definition main (a : args) (w : world) : outcome unit * world :=
  match resolve_report_month (arg_month a) with
  | Raised e => (Raised e, w)
  | Returned report_month =>
      let month_text := month_label report_month in
      let output_name :=
        default (arg_output a) (month_text ++ " Forecast Accuracy Report.xlsx") in
      let output_path := path_join ROOT output_name in
      match load_frames (arg_data_source a) report_month with
      | Raised e => (Raised e, w)
      | Returned source_frames =>
          let checks := run_dq_checks report_month (arg_data_source a) source_frames in
          let dq_log_name :=
            default (arg_dq_log a)
                    ("outputs/comparisons/" ++ month_text
                     ++ " Forecast Accuracy DQ (" ++ arg_data_source a ++ ").json") in
          let w := write_artifact (DQLog (path_join ROOT dq_log_name)) w in
          if is_fail (arg_dq_mode a) && (0 <? critical_failed checks)%nat
          then (Raised (SystemExit "Critical DQ checks failed. Report generation aborted."), w)
          else
            match build_report_from_frames report_month output_path source_frames w with
            | (Raised e, w) => (Raised e, w)
            | (Returned _, w) =>
                if negb (arg_compare_baseline a =? "none")
                   && negb (arg_compare_baseline a =? arg_data_source a)
                then
                  match load_frames (arg_compare_baseline a) report_month with
                  | Raised e => (Raised e, w)
                  | Returned _ =>
                      (Returned tt,
                       write_artifact
                         (Comparison
                            (path_join ROOT
                               (month_text ++ " Forecast Accuracy Comparison ("
                                ++ arg_data_source a ++ " vs "
                                ++ arg_compare_baseline a ++ ").xlsx")))
                         w)
                  end
                else (Returned tt, w)
            end
      end
  end.

End MonthlyReport.

(** *** build_forecast_accuracy_trend_report_db.py *)

Definition month_index (d : date) : Z := (d_year d * 12 + (d_month d - 1))%Z.

Definition month_of_index (i : Z) : date :=
  mkDate (i / 12)%Z (i mod 12 + 1)%Z 1%Z.

(** The loop of [month_sequence]: the start itself, then every month start
    that [+ MonthBegin(1)] reaches while it is not after the end. *)
Definition month_sequence (start_month end_month : date) : list date :=
  if date_leb start_month end_month
  then start_month
       :: map (fun k => month_of_index (month_index start_month + 1 + Z.of_nat k)%Z)
              (seq 0 (Z.to_nat (month_index end_month - month_index start_month)%Z))
  else [].

(** [anchor_ts - MonthBegin(window_months - 1)]: an anchor past the first
    of its month is rolled back to it for the first step (and forward to
    the next first for no step at all); [start_ts.date()] is refused for a
    year before 1. *)
Definition resolve_window (anchor_month : date) (window_months : Z)
  : outcome (date * date) :=
  if (window_months <=? 0)%Z
  then Raised (SystemExit "--window-months must be >= 1")
  else
    let n := (- (window_months - 1) + (if (1 <? d_day anchor_month)%Z then 1 else 0))%Z in
    let start_ts := month_of_index (month_index anchor_month + n)%Z in
    if (d_year start_ts <? 1)%Z
    then Raised (Error "NotImplementedError")
    else Returned (start_ts, anchor_month).

Record source_count : Type := mkCount {
  sc_month_start : date;
  marketing_rows : nat;
  catalog_rows : nat;
  stats_rows : nat;
  actuals_rows : nat
}.

Section TrendReport.

Variable ROOT : path.
Variable resolve_report_month : option string -> outcome date.
Variable load_from_db : date -> outcome frames.
(** The wide tables of [build_views], kept abstract, and the battery of
    checks run on them. *)
Variable views : Type.
Variable build_views : list Trend.trend_row -> date -> Z -> outcome views.
Variable run_dq_checks :
  list Trend.trend_row -> list date -> list source_count -> views -> Z -> list check.

Record trend_args : Type := mkTrendArgs {
  targ_month : option string;
  targ_window_months : Z;
  targ_top_n_products : Z;
  targ_dq_mode : dq_mode;
  targ_dq_log : option path;
  targ_output : option string
}.

(** The loop over the months of the window: the row counts of every month,
    and the trend rows of the months that have data. *)
Fixpoint load_months (months : list date)
  : outcome (list source_count * list (list Trend.trend_row)) :=
  match months with
  | [] => Returned ([], [])
  | month :: rest =>
      match load_from_db month with
      | Raised e => Raised e
      | Returned fr =>
          match load_months rest with
          | Raised e => Raised e
          | Returned (counts, trend_frames) =>
              let c := mkCount month
                               (List.length (marketing_df fr))
                               (List.length (catalog_df fr))
                               (List.length (stats_df fr))
                               (List.length (actuals_df fr)) in
              if is_empty (marketing_df fr) || is_empty (stats_df fr)
                 || is_empty (actuals_df fr)
              then Returned (c :: counts, trend_frames)
              else
                let raw := rd_raw (build_raw_data (marketing_df fr) (catalog_df fr)
                                                  (stats_df fr) (actuals_df fr) month) in
                if is_empty raw then Returned (c :: counts, trend_frames)
                else Returned (c :: counts,
                               Trend.build_month_trend_rows raw month :: trend_frames)
          end
      end
  end.

Definition trend_main (a : trend_args) (w : world) : outcome unit * world :=
  match resolve_report_month (targ_month a) with
  | Raised e => (Raised e, w)
  | Returned anchor_month =>
      match resolve_window anchor_month (targ_window_months a) with
      | Raised e => (Raised e, w)
      | Returned (start_month, end_month) =>
          let months := month_sequence start_month end_month in
          let output_name :=
            default (targ_output a)
                    ("outputs/reports/" ++ month_label anchor_month
                     ++ " Forecast Accuracy Trend Report.xlsx") in
          let output_path := path_join ROOT output_name in
          let dq_log :=
            default (targ_dq_log a)
                    (path_join ROOT
                       ("outputs/comparisons/" ++ month_label anchor_month
                        ++ " Forecast Accuracy Trend DQ (db).json")) in
          match load_months months with
          | Raised e => (Raised e, w)
          | Returned (source_counts, trend_frames) =>
              if is_empty trend_frames
              then (Raised (SystemExit "No trend data rows were generated for the selected rolling window."), w)
              else
                let trend_df := List.concat trend_frames in
                match build_views trend_df anchor_month (targ_top_n_products a) with
                | Raised e => (Raised e, w)
                | Returned v =>
                    let checks := run_dq_checks trend_df months source_counts v
                                                (targ_top_n_products a) in
                    let w := write_artifact (DQLog dq_log) w in
                    (* write_outputs *)
                    let w := write_artifact (Report output_path) w in
                    if is_fail (targ_dq_mode a) && (0 <? critical_failed checks)%nat
                    then (Raised (SystemExit "[DQ-FAIL] Critical checks failed"), w)
                    else (Returned tt, w)
                end
          end
      end
  end.

End TrendReport.

End Driver.

(** ** Statements: the vocabulary of the properties *)

(** *** Catalog expansion *)

(** *** The casework override, as the rule is worded *)

Definition triggers_casework (m : marketing_row) : bool :=
  (m_bu_key m =? "D200")
  && (m_product_key m =? "TOTAL CASEWORK")
  && ((normalize_key1 (m_Location m) =? "LOC1020")
      || (normalize_key1 (m_Location m) =? "LOC1080")).

Definition casework_family (m : marketing_row) : string :=
  if normalize_key1 (m_Location m) =? "LOC1020"
  then "ARTISAN CASEWORK"
  else "SYNTHESIS CASEWORK".

(** The catalog rows a marketing row is joined to once the rule has been
    applied. *)
Definition surviving_matches (m : marketing_row) (catalog_map : list catalog_row)
  : list catalog_row :=
  if triggers_casework m
  then filter (fun c => normalize_key1 (group_key c) =? casework_family m)
              (filter (join_match m) catalog_map)
  else filter (join_match m) catalog_map.

(** *** The statistical-model rollup *)

(** The blend-model rows, and the recommended-flag rows, of a key in the
    target month. *)
Definition blend_rows_for (stats_df : list stats_row) (month_start : date)
    (k : key_pair) : list stats_row :=
  filter (fun s => same_key (stats_key s) k)
         (stats_blend (stats_in_month stats_df month_start)).

Definition recommended_rows_for (stats_df : list stats_row) (month_start : date)
    (k : key_pair) : list stats_row :=
  filter (fun s => same_key (stats_key s) k)
         (stats_fallback (stats_in_month stats_df month_start)).

(** *** Dashboard grains *)

Definition same_opt (o : option cell) (c : cell) : bool :=
  match o with
  | Some x => same_key c x
  | None => true
  end.

(** The reconciled records a dashboard record aggregates: those of its unit
    type that agree with it on every grain column it has; a record of scope
    "Total" takes all the records of its unit type. *)
Definition grain_rows (raw : list raw_row) (rec : dash_record) : list raw_row :=
  filter
    (fun r =>
       (r_Units r =? dr_Units rec)
       && ((match dr_Scope rec with
            | Some scope => scope =? "Total"
            | None => false
            end
            || (same_key (r_Division r) (dr_BU_Code rec)
                && same_key (r_BU_Name r) (dr_BU_Name rec)))
           && same_opt (dr_Prod_Fam rec) (r_Prod_Fam r)
           && same_opt (dr_Product rec) (r_Product r)
           && same_opt (dr_Marketing_Manager rec) (r_Marketing_Manager r)))
    raw.

(** The five dashboard data frames of one report. *)
Definition dashboards (raw : list raw_row) : list dash_record :=
  build_totals_dashboard raw
  ++ build_prod_fam_dashboard raw
  ++ build_prod_fam_wape_dashboard raw
  ++ build_marketing_manager_dashboard raw
  ++ build_product_dashboard raw.

(** What a record of a dashboard frame holds, given the sums of its group. *)
Definition metric_record (rec : dash_record) (s : group_sums) : Prop :=
  (dr_Metric rec = ACC
   /\ dr_Stats_Model rec = stats_acc s /\ dr_Marketing rec = mkt_acc s)
  \/ (dr_Metric rec = WAPE
      /\ dr_Stats_Model rec = stats_wape s /\ dr_Marketing rec = mkt_wape s).

(** *** The anchor-month ranking of the trend report *)

Definition sorted_by {A : Type} (leb : A -> A -> bool) : list A -> Prop :=
  StronglySorted (fun a b => leb a b = true).

(** The rank each distinct (units, product, actuals) of the anchor month
    gets within its unit type. *)
Definition anchor_ranking (trend_df : list Trend.trend_row) (anchor_month : date)
  : list (Trend.rank_key * nat) :=
  Trend.cumcount_rank [] (Trend.latest_rank trend_df anchor_month).

(** ** Sample data *)

Module Sample.

Definition widget_catalog (skus : cell) : catalog_row :=
  mkCatalog (CStr "FAM1") (CStr "D100") (CStr "Medical") skus
            (CStr "Family 1") (CStr "Pat") (CStr "Quantity").

Definition march : date := mkDate 2024 3 1.

Definition casework_row (loc : string) : marketing_row :=
  mkMarketing (CStr "D200") (CStr loc) (CStr "Americas") (CStr "Total Casework")
              (Some march) (Some 10%Q) (Some 1%Q).

Definition casework_catalog (family : string) : catalog_row :=
  mkCatalog (CStr family) (CStr "D200") (CStr "Casework") (CStr "Total Casework")
            (CStr family) (CStr "Sam") (CStr "Dollars").

Definition casework_catalog_map : list catalog_row :=
  [casework_catalog "Artisan Casework";
   casework_catalog "Synthesis Casework";
   casework_catalog "Other Casework"].

Definition stats (prod model : string) (recommended : bool) (v : Q) : stats_row :=
  mkStats (CStr prod) (CStr "D100") (Some march) (CStr model) (Some v) recommended.

(** Product P1 has two blend rows and a recommended row; P2 has only
    recommended rows. *)
Definition stats_df : list stats_row :=
  [stats "p1" "blend" false 10; stats "P1 " "ETS" true 7;
   stats "P1" "Blend" true 5; stats "P2" "ETS" true 3;
   stats "P2" "ARIMA" true 4; stats "P3" "ETS" false 9].

(** One family sold in units: a marketing forecast of 100, actuals of 120
    booked under the family's group key, and no statistical forecast. *)
Definition marketing_df : list marketing_row :=
  [mkMarketing (CStr "D100") (CStr "LOC1") (CStr "Americas") (CStr "widget-a ")
               (Some march) None (Some 100%Q)].

Definition catalog_df : list catalog_row :=
  [widget_catalog (CStr "WIDGET-A|WIDGET-B")].

Definition actuals_df : list actuals_row :=
  [mkActuals (CStr "FAM1") (CStr "D100") (Some march) (Some 120%Q)].

Definition reconciled_df : list raw_row :=
  rd_raw (build_raw_data marketing_df catalog_df [] actuals_df march).

Definition fam1_row : raw_row :=
  mkRaw (CStr "FAM1") (CStr "D100") march "" (CStr "Family 1") "quantity"
        120%Q 0%Q 100%Q (Qabs (120 - 0)) (Qabs (120 - 100))
        (CStr "Medical") (CStr "Pat").

Definition february : date := mkDate 2024 2 1.

End Sample.

(** ** Statements: the rollups and the grains, as the properties word them *)

(** The key text of a value: its text, trimmed and uppercased. *)
Definition trim_upper (c : cell) : string :=
  PyStr.upper (PyStr.strip (py_str c)).

(** A date of the target month. *)
Definition in_target_month (d : option date) (month_start : date) : bool :=
  match d with
  | Some d =>
      (d_year d =? d_year month_start)%Z && (d_month d =? d_month month_start)%Z
  | None => false
  end.

(** A row of the blended model: its model type reads BLEND, whatever the
    case and the blanks around it. *)
Definition is_blend (s : stats_row) : bool :=
  trim_upper (model_type s) =? "BLEND".

(** The rows of a kind that a key has in the target month. *)
Definition key_rows (kind : stats_row -> bool) (stats_df : list stats_row)
    (month_start : date) (k : key_pair) : list stats_row :=
  filter (fun s => kind s
                   && in_target_month (forecast_month s) month_start
                   && (trim_upper (product_id s) =? fst k)
                   && (trim_upper (bu_id s) =? snd k))
         stats_df.

(** The sum of the forecast values of rows, the nulls left out. *)
Definition forecast_total (rows : list stats_row) : Q :=
  qsum (flat_map (fun s => match forecast_value s with
                           | Some v => [v]
                           | None => []
                           end)
                 rows).

(** *** Grains *)

Inductive grain : Type := GTotal | GBU | GProdFam | GManager | GProduct.

(** Two values of a grain column fall together: nulls with nulls. *)
Definition same_cell (a b : cell) : bool :=
  (isna a && isna b) || cell_eqb a b.

Definition same_grain_columns (g : grain) (r x : raw_row) : bool :=
  match g with
  | GTotal => true
  | GBU =>
      same_cell (r_Division x) (r_Division r)
      && same_cell (r_BU_Name x) (r_BU_Name r)
  | GProdFam =>
      same_cell (r_Division x) (r_Division r)
      && same_cell (r_BU_Name x) (r_BU_Name r)
      && same_cell (r_Prod_Fam x) (r_Prod_Fam r)
  | GManager =>
      same_cell (r_Division x) (r_Division r)
      && same_cell (r_BU_Name x) (r_BU_Name r)
      && same_cell (r_Marketing_Manager x) (r_Marketing_Manager r)
  | GProduct =>
      same_cell (r_Division x) (r_Division r)
      && same_cell (r_BU_Name x) (r_BU_Name r)
      && same_cell (r_Product x) (r_Product r)
      && same_cell (r_Marketing_Manager x) (r_Marketing_Manager r)
  end.

(** The reconciled records of the grain of [r]: those of its unit type
    that agree with it on the columns of the grain. *)
Definition grain_of (g : grain) (raw : list raw_row) (r : raw_row) : list raw_row :=
  filter (fun x => (r_Units x =? r_Units r) && same_grain_columns g r x) raw.

(** A null key is shown as NaN. *)
Definition shown_key (c : cell) : cell :=
  match c with
  | CNone => CNaN
  | _ => c
  end.

Definition known_unit (u : string) : Prop := u = "quantity" \/ u = "dollars".

(** The metrics a grain is reported with: the product grain has no WAPE. *)
Definition reported (g : grain) (metric : string) : Prop :=
  metric = ACC \/ (metric = WAPE /\ g <> GProduct).

(** The label columns of the record of the grain [g] of [r]. *)
Definition labelled (g : grain) (r : raw_row) (rec : dash_record) : Prop :=
  dr_Units rec = r_Units r
  /\ match g with
     | GTotal =>
         dr_Scope rec = Some "Total"
         /\ dr_BU_Code rec = CStr "ALL" /\ dr_BU_Name rec = CStr "Total"
         /\ dr_Prod_Fam rec = None /\ dr_Product rec = None
         /\ dr_Marketing_Manager rec = None
     | GBU =>
         dr_Scope rec = Some "BU"
         /\ dr_BU_Code rec = shown_key (r_Division r)
         /\ dr_BU_Name rec = shown_key (r_BU_Name r)
         /\ dr_Prod_Fam rec = None /\ dr_Product rec = None
         /\ dr_Marketing_Manager rec = None
     | GProdFam =>
         dr_Scope rec = None
         /\ dr_BU_Code rec = shown_key (r_Division r)
         /\ dr_BU_Name rec = shown_key (r_BU_Name r)
         /\ dr_Prod_Fam rec = Some (shown_key (r_Prod_Fam r))
         /\ dr_Product rec = None /\ dr_Marketing_Manager rec = None
     | GManager =>
         dr_Scope rec = None
         /\ dr_BU_Code rec = shown_key (r_Division r)
         /\ dr_BU_Name rec = shown_key (r_BU_Name r)
         /\ dr_Prod_Fam rec = None /\ dr_Product rec = None
         /\ dr_Marketing_Manager rec = Some (shown_key (r_Marketing_Manager r))
     | GProduct =>
         dr_Scope rec = None
         /\ dr_BU_Code rec = shown_key (r_Division r)
         /\ dr_BU_Name rec = shown_key (r_BU_Name r)
         /\ dr_Prod_Fam rec = None
         /\ dr_Product rec = Some (shown_key (r_Product r))
         /\ dr_Marketing_Manager rec = Some (shown_key (r_Marketing_Manager r))
     end.

(** A ratio, null exactly over a zero denominator. *)
Definition ratio_unless_zero (v : option Q) (num den : Q) : Prop :=
  (~ (den == 0)%Q -> v = Some (num / den)%Q)
  /\ ((den == 0)%Q -> v = None).

(** What a dashboard record holds, over the records of its grain: with A
    the sum of their actuals, the accuracy ratio F/A per side, F being the
    side's forecast sum, or the WAPE E/A per side, E being the side's
    absolute-error sum. *)
Definition holds_metric (rec : dash_record) (rows : list raw_row) : Prop :=
  let A := qsum (map r_Actuals rows) in
  (dr_Metric rec = ACC
   /\ ratio_unless_zero (dr_Stats_Model rec) (qsum (map r_Stats_Model_Fcast rows)) A
   /\ ratio_unless_zero (dr_Marketing rec) (qsum (map r_Marketing_Fcast rows)) A)
  \/ (dr_Metric rec = WAPE
      /\ ratio_unless_zero (dr_Stats_Model rec)
                           (qsum (map r_Stats_Abs_Error rows)) A
      /\ ratio_unless_zero (dr_Marketing rec)
                           (qsum (map r_Marketing_Abs_Error rows)) A).

(** *** The rows of the trend aggregator *)

(** The grains the trend aggregator has: it has none by manager. *)
Definition trend_grain (g : grain) : Prop := g <> GManager.

Definition trend_labelled (g : grain) (r : raw_row) (rows : list raw_row)
    (month_start : date) (t : Trend.trend_row) : Prop :=
  Trend.month_start t = month_start
  /\ Trend.units t = r_Units r
  /\ Trend.metric_name t = "midmark_fcast_acc"
  /\ match g with
     | GTotal =>
         Trend.view_level t = "total"
         /\ Trend.bu_code t = "ALL" /\ Trend.bu_name t = "Total"
         /\ Trend.prod_fam t = "" /\ Trend.product t = ""
         /\ Trend.marketing_manager t = ""
     | GBU =>
         Trend.view_level t = "bu"
         /\ Trend.bu_code t = py_str (shown_key (r_Division r))
         /\ Trend.bu_name t = py_str (shown_key (r_BU_Name r))
         /\ Trend.prod_fam t = "" /\ Trend.product t = ""
         /\ Trend.marketing_manager t = ""
     | GProdFam =>
         Trend.view_level t = "prod_fam"
         /\ Trend.bu_code t = py_str (shown_key (r_Division r))
         /\ Trend.bu_name t = py_str (shown_key (r_BU_Name r))
         /\ Trend.prod_fam t = py_str (shown_key (r_Prod_Fam r))
         /\ Trend.product t = "" /\ Trend.marketing_manager t = ""
     | GManager => False
     | GProduct =>
         Trend.view_level t = "product"
         /\ Trend.bu_code t = py_str (shown_key (r_Division r))
         /\ Trend.bu_name t = py_str (shown_key (r_BU_Name r))
         /\ (exists x, In x rows /\ Trend.prod_fam t = py_str (r_Prod_Fam x))
         /\ Trend.product t = py_str (shown_key (r_Product r))
         /\ Trend.marketing_manager t = py_str (shown_key (r_Marketing_Manager r))
     end.

(** What a trend row holds, over the records of its grain: the sum of
    their actuals over the forecast sum of its side, null exactly when the
    forecast sum is zero. *)
Definition holds_trend_metric (t : Trend.trend_row) (rows : list raw_row) : Prop :=
  Trend.actuals_sum t = qsum (map r_Actuals rows)
  /\ ((Trend.model_side t = "stats_model"
       /\ Trend.forecast_sum t = qsum (map r_Stats_Model_Fcast rows)
       /\ Trend.abs_error_sum t = qsum (map r_Stats_Abs_Error rows))
      \/ (Trend.model_side t = "marketing"
          /\ Trend.forecast_sum t = qsum (map r_Marketing_Fcast rows)
          /\ Trend.abs_error_sum t = qsum (map r_Marketing_Abs_Error rows)))
  /\ ratio_unless_zero (Trend.metric_value t)
                       (Trend.actuals_sum t) (Trend.forecast_sum t).

(** *** The anchor-month selection of the product view *)

(** The product rows of the anchor month. *)
Definition anchor_product_rows (trend_df : list Trend.trend_row)
    (anchor_month : date) : list Trend.trend_row :=
  filter (fun t =>
            (Trend.view_level t =? "product")
            && (d_year (Trend.month_start t) =? d_year anchor_month)%Z
            && (d_month (Trend.month_start t) =? d_month anchor_month)%Z
            && (d_day (Trend.month_start t) =? d_day anchor_month)%Z)
         trend_df.

(** The entries that are ranked: the distinct (units, product, actuals) of
    these rows. *)
Definition anchor_entries (trend_df : list Trend.trend_row) (anchor_month : date)
  : list Trend.rank_key :=
  dedup (map (fun t => (Trend.units t, Trend.product t, Trend.actuals_sum t))
             (anchor_product_rows trend_df anchor_month)).

(** [y] comes before [x] in its unit type: more actuals, or the same
    actuals and a smaller product key. *)
Definition comes_before (y x : Trend.rank_key) : bool :=
  (Trend.rk_units y =? Trend.rk_units x)
  && (negb (Qle_bool (Trend.rk_actuals y) (Trend.rk_actuals x))
      || (Qeq_bool (Trend.rk_actuals y) (Trend.rk_actuals x)
          && String.ltb (Trend.rk_product y) (Trend.rk_product x))).

(** The rank of an entry: one more than the number of entries that come
    before it. *)
Definition anchor_rank (trend_df : list Trend.trend_row) (anchor_month : date)
    (x : Trend.rank_key) : nat :=
  S (List.length (filter (fun y => comes_before y x)
                         (anchor_entries trend_df anchor_month))).

(** The selection: the unit types and products with an entry of rank at
    most N. *)
Definition selected (trend_df : list Trend.trend_row) (anchor_month : date)
    (n : Z) (u p : string) : Prop :=
  exists x,
    In x (anchor_entries trend_df anchor_month)
    /\ Trend.rk_units x = u /\ Trend.rk_product x = p
    /\ (Z.of_nat (anchor_rank trend_df anchor_month x) <= n)%Z.

(** *** Null keys in the joins *)

Module NullKeys.

(** A marketing row and a catalog entry without product code, the entry
    being one that the database returned with a NULL group key. *)
Definition marketing : marketing_row :=
  mkMarketing (CStr "D100") (CStr "LOC1") (CStr "Americas") CNone
              (Some Sample.march) None (Some 100%Q).

Definition entry : catalog_row :=
  mkCatalog CNone (CStr "D100") (CStr "Medical") CNone
            (CStr "Family 1") (CStr "Pat") (CStr "Quantity").

Definition merged : list merged_row :=
  merge_inner [marketing] (expand_catalog [entry]).



End NullKeys.

(** *** Two-month windows of product rows *)

Module Window.

Definition row (m : date) (product : string) (actuals stats mkt : Q) : raw_row :=
  mkRaw (CStr product) (CStr "D100") m "" (CStr "Family 1") "quantity"
        actuals stats mkt (Qabs (actuals - stats)) (Qabs (actuals - mkt))
        (CStr "Medical") (CStr "Pat").

(** Product X has the larger actuals in February 2024 and product Y in
    March 2024. *)
Definition trend_df : list Trend.trend_row :=
  Trend.build_month_trend_rows
    [row Sample.february "X" 99 90 95; row Sample.february "Y" 1 2 3]
    Sample.february
  ++ Trend.build_month_trend_rows
       [row Sample.march "X" 5 4 6; row Sample.march "Y" 7 6 8]
       Sample.march.

(** Product X has actuals of 5 and no forecast on either side in February
    2024, and actuals of 10 against forecasts of 8 and 9 in March 2024. *)
Definition dormant_trend_df : list Trend.trend_row :=
  Trend.build_month_trend_rows [row Sample.february "X" 5 0 0] Sample.february
  ++ Trend.build_month_trend_rows [row Sample.march "X" 10 8 9] Sample.march.

End Window.

(** * Further functions of the report modules *)

(** ** Months *)

Definition first_day_of_month (d : date) : date :=
  mkDate (d_year d) (d_month d) 1.

(** [date(d.year - 1, 12, 1)] is refused with [ValueError] for the year
    before year 1. *)
Definition previous_month (d : date) : Driver.outcome date :=
  if (d_month d =? 1)%Z
  then if (d_year d - 1 <? 1)%Z
       then Driver.Raised (Driver.Error "ValueError")
       else Driver.Returned (mkDate (d_year d - 1) 12 1)
  else Driver.Returned (mkDate (d_year d) (d_month d - 1) 1).

(** A calendar month start: what [first_day_of_month] returns on a date. *)
Definition month_start_date (d : date) : Prop :=
  (1 <= d_month d <= 12)%Z /\ d_day d = 1%Z.

(** ** Loading the product catalog *)

(** [Series.replace({"Division": "D200"})] on one cell. *)
Definition replace_division (c : cell) : cell :=
  match c with
  | CStr s => if s =? "Division" then CStr "D200" else c
  | _ => c
  end.

(** [load_product_catalog], from the rows that [read_excel] returns. *)
Definition load_product_catalog (sheet : list catalog_row) : list catalog_row :=
  map (fun e =>
         mkCatalog (group_key e)
                   (replace_division (business_unit_code e))
                   (replace_division (business_unit_name e))
                   (sku_list e) (product_family e) (marketing_manager e)
                   (salesforce_feature_mode e))
      sheet.

(** ** Keys that differ by case or by surrounding blanks *)

(** A string made of blanks only. *)
Fixpoint all_space (s : string) : bool :=
  match s with
  | EmptyString => true
  | String c r => PyStr.is_space c && all_space r
  end.

(** A catalog row as the sheet has it for the casework division. *)
Definition division_entry : catalog_row :=
  mkCatalog (CStr "Artisan Casework") (CStr "Division") (CStr "Division")
            (CStr "Total Casework") (CStr "Casework") (CStr "Sam")
            (CStr "Dollars").

(** The WAPE record of the sample family's business unit. *)
Definition bu_wape_record : dash_record :=
  mkDash "quantity" (Some "BU") (CStr "D100") (CStr "Medical") None None None
         WAPE (Some (120 # 120)%Q) (Some (20 # 120)%Q).

(** The unit types a dashboard reads. *)
Definition known_units (r : raw_row) : bool :=
  (r_Units r =? "quantity") || (r_Units r =? "dollars").

(** ** Winners: the label and the highlight of [write_report] *)

(** A metric value as a dashboard frame or a worksheet cell holds it. *)
Inductive xl_value : Type :=
| XNone               (* None: an empty cell *)
| XNaN                (* float('nan') *)
| XNum (q : Q).

(** A Python float: [None] stands for NaN, which compares false with
    everything, itself included. *)
Definition pyfloat : Type := option Q.

Definition float_eq (a b : pyfloat) : bool :=
  match a, b with
  | Some x, Some y => Qeq_bool x y
  | _, _ => false
  end.

Definition float_lt (a b : pyfloat) : bool :=
  match a, b with
  | Some x, Some y => negb (Qle_bool y x)
  | _, _ => false
  end.

(** [abs(v - 1)] *)
Definition float_dist1 (a : pyfloat) : pyfloat :=
  option_map (fun x => Qabs (x - 1)) a.

Inductive winner_mode : Type := closest_to_one | higher | lower.

(** [pd.isna] and the [is None] test of [winner_label] let numbers only
    through. *)
Definition winner_label (stats_val mkt_val : xl_value) (mode : winner_mode)
  : string :=
  match stats_val, mkt_val with
  | XNum s, XNum m =>
      let stats_val : pyfloat := Some s in
      let mkt_val : pyfloat := Some m in
      if float_eq stats_val mkt_val then "Tie"
      else match mode with
           | higher => if float_lt mkt_val stats_val then "Stats Model" else "Marketing"
           | lower => if float_lt stats_val mkt_val then "Stats Model" else "Marketing"
           | closest_to_one =>
               let stats_diff := float_dist1 stats_val in
               let mkt_diff := float_dist1 mkt_val in
               if float_eq stats_diff mkt_diff then "Tie"
               else if float_lt stats_diff mkt_diff then "Stats Model"
                    else "Marketing"
           end
  | _, _ => ""
  end.

Inductive highlighted : Type := StatsCell | MarketingCell.

(** [float(v)] on a cell that is not [None]. *)
Definition to_float (v : xl_value) : option pyfloat :=
  match v with
  | XNone => None
  | XNaN => Some None
  | XNum q => Some (Some q)
  end.

(** The cell [highlight_winner] fills, if any: only [None] is turned away
    at the door. *)
Definition highlight_winner (stats_cell mkt_cell : xl_value) (mode : winner_mode)
  : option highlighted :=
  match to_float stats_cell, to_float mkt_cell with
  | Some stats_val, Some mkt_val =>
      if float_eq stats_val mkt_val then None
      else match mode with
           | higher =>
               if float_lt mkt_val stats_val then Some StatsCell else Some MarketingCell
           | lower =>
               if float_lt stats_val mkt_val then Some StatsCell else Some MarketingCell
           | closest_to_one =>
               let stats_diff := float_dist1 stats_val in
               let mkt_diff := float_dist1 mkt_val in
               if float_eq stats_diff mkt_diff then None
               else if float_lt stats_diff mkt_diff then Some StatsCell
                    else Some MarketingCell
           end
  | _, _ => None
  end.

(** The cell a label names. *)
Definition cell_of_label (label : string) : option highlighted :=
  if label =? "Stats Model" then Some StatsCell
  else if label =? "Marketing" then Some MarketingCell
  else None.

(** The label with the two sides exchanged. *)
Definition swap_label (label : string) : string :=
  if label =? "Stats Model" then "Marketing"
  else if label =? "Marketing" then "Stats Model"
  else label.

(** ** The trend report's check on denominators *)

Definition notna (v : option Q) : bool :=
  match v with Some _ => true | None => false end.

(** The [denominator_validity] check of the trend report's
    [run_dq_checks]: critical, failed by a row with a forecast sum of zero
    or less and a metric value all the same. *)
Definition denominator_validity (trend_df : list Trend.trend_row) : Driver.check :=
  let invalid_denominator :=
    filter (fun t => Qle_bool (Trend.forecast_sum t) 0
                     && notna (Trend.metric_value t))
           trend_df in
  Driver.mkCheck "denominator_validity" "critical" (is_empty invalid_denominator).

(** * The checks of the monthly report *)

Module MonthlyDQ.

Import Driver.

(** [pd.isna] on a date: NaT. *)
Definition date_isna (d : option date) : bool :=
  match d with Some _ => false | None => true end.

(** Two dates of a key column fall together: NaT with NaT. *)
Definition date_same (a b : option date) : bool :=
  match a, b with
  | Some x, Some y => date_eqb x y
  | None, None => true
  | _, _ => false
  end.

(** [df.duplicated(subset=...).sum()]: the rows whose key an earlier row
    holds already. *)
Fixpoint duplicated {R : Type} (same : R -> R -> bool) (seen rows : list R) : nat :=
  match rows with
  | [] => 0%nat
  | r :: rest =>
      ((if existsb (same r) seen then 1 else 0) + duplicated same (r :: seen) rest)%nat
  end.

(** [df[cols].isna().any(axis=1).sum()] *)
Definition null_key_rows {R : Type} (any_null : R -> bool) (df : list R) : nat :=
  List.length (filter any_null df).

Definition marketing_key_null (m : marketing_row) : bool :=
  isna (m_BU m) || isna (m_Location m) || isna (m_Product m) || date_isna (m_Date m).

Definition marketing_same (a b : marketing_row) : bool :=
  same_key (m_BU a) (m_BU b) && same_key (m_Location a) (m_Location b)
  && same_key (m_Geography a) (m_Geography b)
  && same_key (m_Product a) (m_Product b) && date_same (m_Date a) (m_Date b).

(** The rows the geography check reports. *)
Definition non_americas (marketing_df : list marketing_row) : list marketing_row :=
  filter (fun m =>
            negb (PyStr.strip (PyStr.upper (py_str (m_Geography m))) =? "AMERICAS"))
         marketing_df.

Definition actuals_key_null (r : actuals_row) : bool :=
  isna (a_Product r) || isna (a_Division r) || date_isna (a_Month r).

Definition actuals_same (a b : actuals_row) : bool :=
  same_key (a_Product a) (a_Product b) && same_key (a_Division a) (a_Division b)
  && date_same (a_Month a) (a_Month b).

Definition stats_key_null (r : stats_row) : bool :=
  isna (product_id r) || isna (bu_id r) || date_isna (forecast_month r)
  || isna (model_type r).

(** A stats row with its [run_id]. *)
Definition stats_same (a b : stats_row * cell) : bool :=
  same_key (product_id (fst a)) (product_id (fst b))
  && same_key (bu_id (fst a)) (bu_id (fst b))
  && date_same (forecast_month (fst a)) (forecast_month (fst b))
  && same_key (model_type (fst a)) (model_type (fst b))
  && same_key (snd a) (snd b).

Definition catalog_key_null (r : catalog_row) : bool :=
  isna (group_key r) || isna (business_unit_code r) || isna (sku_list r).

(** [month_num.nunique()] of one group: the distinct months, NaT apart. *)
Definition month_count (group : list marketing_row) : nat :=
  List.length
    (nodup Z.eq_dec
       (flat_map (fun m => match m_Date m with
                           | Some d => [d_month d]
                           | None => []
                           end)
                 group)).

Definition months_per_key (marketing_df : list marketing_row)
  : list ((cell * cell * cell * cell) * nat) :=
  map (fun g => (fst g, month_count (snd g)))
      (groupby (fun m => (m_BU m, m_Location m, m_Geography m, m_Product m))
               marketing_df).

Section Checks.

(** The [run_id] column of the stats frame, by row position: the stats
    records do not carry it. *)
Variable stats_run_id : nat -> cell.

Definition with_run_id (stats_df : list stats_row) : list (stats_row * cell) :=
  combine stats_df (map stats_run_id (seq 0 (List.length stats_df))).

(** [run_dq_checks] of the monthly report: the list of checks of its
    summary, each with its name, severity and verdict. *)
Definition run_dq_checks (report_month : date) (source : string)
    (marketing_df : list marketing_row) (catalog_df : list catalog_row)
    (stats_df : list stats_row) (actuals_df : list actuals_row) : list check :=
  [ mkCheck "marketing_rows_present" "critical" (negb (is_empty marketing_df));
    mkCheck "catalog_rows_present" "critical" (negb (is_empty catalog_df));
    mkCheck "stats_rows_present_for_month" "critical" (negb (is_empty stats_df));
    mkCheck "actuals_rows_present_for_month" "critical" (negb (is_empty actuals_df)) ]
  ++ (if negb (is_empty marketing_df)
      then
        let key_nulls := null_key_rows marketing_key_null marketing_df in
        let dupes := duplicated marketing_same [] marketing_df in
        let non_amer := non_americas marketing_df in
        [ mkCheck "marketing_key_nulls" "critical" (key_nulls =? 0)%nat;
          mkCheck "marketing_duplicate_keys" "warning" (dupes =? 0)%nat;
          mkCheck "marketing_geography_filter_behavior" "warning" (is_empty non_amer) ]
      else [])
  ++ (if negb (is_empty actuals_df)
      then
        let act_nulls := null_key_rows actuals_key_null actuals_df in
        let act_dupes := duplicated actuals_same [] actuals_df in
        [ mkCheck "actuals_key_nulls" "critical" (act_nulls =? 0)%nat;
          mkCheck "actuals_duplicate_keys" "warning" (act_dupes =? 0)%nat ]
      else [])
  ++ (if negb (is_empty stats_df)
      then
        let st_nulls := null_key_rows stats_key_null stats_df in
        let st_dupes := duplicated stats_same [] (with_run_id stats_df) in
        [ mkCheck "stats_key_nulls" "critical" (st_nulls =? 0)%nat;
          mkCheck "stats_duplicate_keys" "warning" (st_dupes =? 0)%nat ]
      else [])
  ++ (if negb (is_empty catalog_df)
      then
        let cat_nulls := null_key_rows catalog_key_null catalog_df in
        [ mkCheck "catalog_key_nulls" "critical" (cat_nulls =? 0)%nat ]
      else [])
  ++ (if source =? "copy2026"
      then
        let incomplete :=
          filter (fun kc => negb (snd kc =? 12)%nat) (months_per_key marketing_df) in
        [ mkCheck "marketing_12_month_completeness_per_key" "warning"
                  (is_empty incomplete) ]
      else []).

(** The call of [main]: the four frames of one load, unpacked. *)
Definition checks_of (report_month : date) (source : string) (fr : frames)
  : list check :=
  run_dq_checks report_month source (marketing_df fr) (catalog_df fr)
                (stats_df fr) (actuals_df fr).

End Checks.

(** Frames with rows in each of the four and no null in a key column. *)
Definition clean_frames (fr : frames) : Prop :=
  (marketing_df fr <> [] /\ catalog_df fr <> [] /\ stats_df fr <> []
   /\ actuals_df fr <> [])
  /\ Forall (fun r => marketing_key_null r = false) (marketing_df fr)
  /\ Forall (fun r => actuals_key_null r = false) (actuals_df fr)
  /\ Forall (fun r => stats_key_null r = false) (stats_df fr)
  /\ Forall (fun r => catalog_key_null r = false) (catalog_df fr).

End MonthlyDQ.

(** A month's load has rows in the three frames the trend report needs. *)
Definition covered (fr : Driver.frames) : Prop :=
  Driver.marketing_df fr <> [] /\ Driver.stats_df fr <> []
  /\ Driver.actuals_df fr <> [].

(** * The parser of the 2026 marketing copy *)

Module Copy2026.

(** The [ValueError]s of the parser and of its validation, each with what
    its message holds. *)
Inductive value_error : Type :=
| NoDataAtRow (sheet : string) (start_row : Z)
| TooFewColumns (sheet : string) (start_row : Z)
| NoMonthRows
| MonthCount (found : nat).

Inductive result (A : Type) : Type :=
| Ok (a : A)
| ValueError (e : value_error).
Arguments Ok {A} a.
Arguments ValueError {A} e.

(** What [read_excel(header=None)] returns: the number of columns and the
    rows, each that wide. *)
Record raw_sheet : Type := mkSheet {
  shape1 : nat;
  sheet_rows : list (list cell)
}.

(** [raw.iloc[start_idx:]]: a negative index counts from the end. *)
Definition iloc_from {A : Type} (start_idx : Z) (l : list A) : list A :=
  if (start_idx <? 0)%Z
  then skipn (Z.to_nat (Z.of_nat (List.length l) + start_idx)) l
  else skipn (Z.to_nat start_idx) l.

(** The ten named columns that are kept of the first eleven. *)
Record data_row : Type := mkData {
  fiscal_year : string;
  BU : string;
  Location : string;
  Geography : string;
  Product : string;
  Period : string;
  Budget_Dollars : option Q;
  Forecast_Dollars : option Q;
  Budget_Quantity : option Q;
  Forecast_Quantity : option Q
}.

Definition month_map (p : string) : option Z :=
  if p =? "JAN" then Some 1%Z
  else if p =? "FEB" then Some 2%Z
  else if p =? "MAR" then Some 3%Z
  else if p =? "APR" then Some 4%Z
  else if p =? "MAY" then Some 5%Z
  else if p =? "JUN" then Some 6%Z
  else if p =? "JUL" then Some 7%Z
  else if p =? "AUG" then Some 8%Z
  else if p =? "SEP" then Some 9%Z
  else if p =? "OCT" then Some 10%Z
  else if p =? "NOV" then Some 11%Z
  else if p =? "DEC" then Some 12%Z
  else None.

(** [isin(month_map.keys())] *)
Definition is_month (p : string) : bool :=
  match month_map p with Some _ => true | None => false end.

Definition is_digit (c : ascii) : bool :=
  (48 <=? nat_of_ascii c)%nat && (nat_of_ascii c <=? 57)%nat.

Definition digit_value (c : ascii) : Z := Z.of_nat (nat_of_ascii c - 48).

(** [str.extract(r"FY(\d{2})")] read as a number: the two digits after the
    first FY that two digits follow. *)
Fixpoint extract_fy (s : string) : option Z :=
  match s with
  | EmptyString => None
  | String c rest =>
      match s with
      | String "F" (String "Y" (String a (String b _))) =>
          if is_digit a && is_digit b
          then Some (digit_value a * 10 + digit_value b)%Z
          else extract_fy rest
      | _ => extract_fy rest
      end
  end.

(** [to_numeric(...).fillna(26).astype(int) + 2000] *)
Definition year_of (fiscal_year : string) : Z :=
  (match extract_fy (PyStr.upper fiscal_year) with
   | Some n => n
   | None => 26
   end + 2000)%Z.

(** [pd.to_datetime({"year": .., "month": .., "day": 1}, errors="coerce")]:
    NaT without a month, for a month that is none, and outside the span of
    a Timestamp. *)
Definition to_datetime (year : Z) (month : option Z) : option date :=
  match month with
  | Some m =>
      if (1 <=? m)%Z && (m <=? 12)%Z
         && (1677 * 12 + 9 <=? year * 12 + (m - 1))%Z
         && (year * 12 + (m - 1) <=? 2262 * 12 + 3)%Z
      then Some (mkDate year m 1)
      else None
  | None => None
  end.

(** The frame returned; no [Date] of it is NaT, the rows with one having
    been dropped. *)
Record parsed_row : Type := mkParsed {
  p_BU : string;
  p_Location : string;
  p_Geography : string;
  p_Product : string;
  p_Date : date;
  p_Forecast_Dollars : option Q;
  p_Forecast_Quantity : option Q;
  p_Budget_Dollars : option Q;
  p_Budget_Quantity : option Q
}.

Section Parser.

(** [pd.to_numeric(errors="coerce")] on one cell. *)
Variable to_numeric : cell -> option Q.

Definition text (row : list cell) (i : nat) : string :=
  PyStr.strip (py_str (nth i row CNaN)).

Definition number (row : list cell) (i : nat) : option Q :=
  to_numeric (nth i row CNaN).

(** One row of the first eleven columns, named, without [_blank], its
    text columns as stripped strings and its amounts as numbers. *)
Definition read_row (row : list cell) : data_row :=
  mkData (text row 0) (text row 1) (text row 2) (text row 3) (text row 4)
         (text row 5) (number row 6) (number row 7) (number row 9)
         (number row 10).

Definition with_date (r : data_row) : data_row * option date :=
  (r, to_datetime (year_of (fiscal_year r)) (month_map (PyStr.upper (Period r)))).

(** [data[data["Date"].notna()]] and the nine columns returned. *)
Definition select (rd : data_row * option date) : list parsed_row :=
  let r := fst rd in
  match snd rd with
  | Some d =>
      [mkParsed (BU r) (Location r) (Geography r) (Product r) d
                (Forecast_Dollars r) (Forecast_Quantity r)
                (Budget_Dollars r) (Budget_Quantity r)]
  | None => []
  end.

Definition parse_marketing_copy_2026 (raw : raw_sheet) (sheet : string)
    (start_row : Z) : result (list parsed_row) :=
  let start_idx := (start_row - 1)%Z in
  if (Z.of_nat (List.length (sheet_rows raw)) <=? start_idx)%Z
  then ValueError (NoDataAtRow sheet start_row)
  else
    let data := iloc_from start_idx (sheet_rows raw) in
    if (shape1 raw <? 11)%nat
    then ValueError (TooFewColumns sheet start_row)
    else
      let data := map read_row data in
      let data := filter (fun r => is_month (PyStr.upper (Period r))) data in
      if is_empty data
      then ValueError NoMonthRows
      else
        let data := map with_date data in
        Ok (flat_map select data).

End Parser.

(** The months of the [Date] column, [dt.month]. *)
Definition date_months (df : list parsed_row) : list Z :=
  map (fun r => d_month (p_Date r)) df.

Record summary : Type := mkSummary {
  rows : nat;
  months : list Z;
  distinct_bu : list string;
  distinct_location : list string
}.

Definition sorted_unique (l : list string) : list string :=
  sort_by String.leb (dedup l).

Definition validate_marketing_copy_2026 (df : list parsed_row) : result summary :=
  let month_counts := List.length (nodup Z.eq_dec (date_months df)) in
  if negb (month_counts =? 12)%nat
  then ValueError (MonthCount month_counts)
  else
    Ok (mkSummary
          (List.length df)
          (sort_by Z.leb (nodup Z.eq_dec (date_months df)))
          (sorted_unique (map (fun r => PyStr.upper (PyStr.strip (p_BU r))) df))
          (sorted_unique (map (fun r => PyStr.upper (PyStr.strip (p_Location r))) df))).

(** The months of a year. *)
Definition all_months : list Z := [1; 2; 3; 4; 5; 6; 7; 8; 9; 10; 11; 12]%Z.

(** The rows from [start_row] on that hold a month name in their sixth
    column. *)
Definition month_rows (raw : raw_sheet) (start_row : Z) : list (list cell) :=
  filter (fun row => is_month (PyStr.upper (text row 5)))
         (iloc_from (start_row - 1) (sheet_rows raw)).

(** How a row of the frame returned reads a row of the sheet. *)
Definition parsed_from (to_numeric : cell -> option Q) (row : list cell)
    (r : parsed_row) : Prop :=
  p_BU r = text row 1 /\ p_Location r = text row 2
  /\ p_Geography r = text row 3 /\ p_Product r = text row 4
  /\ p_Budget_Dollars r = to_numeric (nth 6 row CNaN)
  /\ p_Forecast_Dollars r = to_numeric (nth 7 row CNaN)
  /\ p_Budget_Quantity r = to_numeric (nth 9 row CNaN)
  /\ p_Forecast_Quantity r = to_numeric (nth 10 row CNaN)
  /\ month_map (PyStr.upper (text row 5)) = Some (d_month (p_Date r))
  /\ d_year (p_Date r) = year_of (text row 0)
  /\ d_day (p_Date r) = 1%Z.

(** A sheet of eleven columns with a title row, two month rows without
    amounts and a row of totals. *)
Definition sample_sheet : raw_sheet :=
  mkSheet 11
    [ [CStr "Marketing forecast"; CNaN; CNaN; CNaN; CNaN; CNaN; CNaN; CNaN; CNaN;
       CNaN; CNaN];
      [CStr "FY26"; CStr "D100"; CStr "LOC1000"; CStr "Americas"; CStr " sku-1 ";
       CStr "Jan"; CNaN; CNaN; CNaN; CNaN; CNaN];
      [CStr "FY2027"; CNaN; CStr "LOC1000"; CStr "Americas"; CStr "sku-1";
       CStr "feb "; CNaN; CNaN; CNaN; CNaN; CNaN];
      [CStr "FY26"; CStr "D100"; CStr "LOC1000"; CStr "Americas"; CStr "sku-1";
       CStr "Total"; CNaN; CNaN; CNaN; CNaN; CNaN] ].

Definition sample_parsed : list parsed_row :=
  match parse_marketing_copy_2026 (fun _ => None) sample_sheet "2026 Data" 2 with
  | Ok df => df
  | ValueError _ => []
  end.

End Copy2026.

(** * The views and the checks of the trend report *)

Module TrendViews.

Import Driver.

#[global] Instance date_GroupKey : GroupKey date := {
  same_key := date_eqb;
  key_leb := date_leb
}.

(** [GroupBy.first()]: the first value of the group that is not null. *)
Fixpoint first_notna (l : list (option Q)) : option Q :=
  match l with
  | [] => None
  | Some v :: _ => Some v
  | None :: r => first_notna r
  end.

(** One row of a wide view: the index columns, the two sides and their
    difference, null when a side is. *)
Record wide_row (I : Type) : Type := mkWide {
  w_index : I;
  stats_model_acc : option Q;
  marketing_acc : option Q;
  delta_stats_minus_marketing : option Q
}.
Arguments mkWide {I} _ _ _ _.
Arguments w_index {I} _.
Arguments stats_model_acc {I} _.
Arguments marketing_acc {I} _.
Arguments delta_stats_minus_marketing {I} _.

Definition sub_na (a b : option Q) : option Q :=
  match a, b with
  | Some x, Some y => Some (x - y)%Q
  | _, _ => None
  end.

Section Pivot.

Context {I : Type} `{GroupKey I}.

Variable index : Trend.trend_row -> I.

(** The groups of [pivot_table] by index and side, each with the first
    metric value it has, without the groups that have none
    ([dropna(how="all")]). *)
Definition agged (frame : list Trend.trend_row) : list (I * string * Q) :=
  flat_map
    (fun kg =>
       match first_notna (map Trend.metric_value (snd kg)) with
       | Some v => [(fst kg, v)]
       | None => []
       end)
    (groupby (fun t => (index t, Trend.model_side t)) frame).

(** A side is a column of the unstacked table when a group of it is left. *)
Definition has_column (a : list (I * string * Q)) (side : string) : bool :=
  existsb (fun e => snd (fst e) =? side) a.

(** [frame.pivot_table(index=..., columns="model_side",
    values="metric_value", aggfunc="first").reset_index()], then the
    difference of the two sides, which reads first the column
    ["stats_model"], then ["marketing"], and raises [KeyError] for one
    that the table does not have. *)
Definition pivot_wide (frame : list Trend.trend_row) : outcome (list (wide_row I)) :=
  let a := agged frame in
  if negb (has_column a "stats_model")
  then Raised (Error "KeyError: 'stats_model'")
  else if negb (has_column a "marketing")
  then Raised (Error "KeyError: 'marketing'")
  else
    Returned
      (map (fun i =>
              let s := rollup_lookup (i, "stats_model") a in
              let m := rollup_lookup (i, "marketing") a in
              mkWide i s m (sub_na s m))
           (dedup (map (fun e => fst (fst e)) a))).

End Pivot.

Definition totals_index (t : Trend.trend_row) : date * string :=
  (Trend.month_start t, Trend.units t).

Definition bu_index (t : Trend.trend_row) : date * string * string * string :=
  (Trend.month_start t, Trend.units t, Trend.bu_code t, Trend.bu_name t).

Definition prod_fam_index (t : Trend.trend_row)
  : date * string * string * string * string :=
  (Trend.month_start t, Trend.units t, Trend.bu_code t, Trend.bu_name t,
   Trend.prod_fam t).

Definition product_index_type : Type :=
  (date * string * string * string * string * string * string * Q)%type.

Definition product_index (t : Trend.trend_row) : product_index_type :=
  (Trend.month_start t, Trend.units t, Trend.bu_code t, Trend.bu_name t,
   Trend.prod_fam t, Trend.product t, Trend.marketing_manager t,
   Trend.actuals_sum t).

Definition pi_month_start (i : product_index_type) : date :=
  match i with (m, _, _, _, _, _, _, _) => m end.
Definition pi_units (i : product_index_type) : string :=
  match i with (_, u, _, _, _, _, _, _) => u end.
Definition pi_product (i : product_index_type) : string :=
  match i with (_, _, _, _, _, p, _, _) => p end.

Record views : Type := mkViews {
  totals_wide : list (wide_row (date * string));
  bu_wide : list (wide_row (date * string * string * string));
  prod_fam_wide : list (wide_row (date * string * string * string * string));
  product_top_wide : list (wide_row product_index_type)
}.

Definition view_level_is (level : string) (trend_df : list Trend.trend_row)
  : list Trend.trend_row :=
  filter (fun t => Trend.view_level t =? level) trend_df.

Definition build_views (trend_df : list Trend.trend_row) (anchor_month : date)
    (top_n_products : Z) : outcome views :=
  match pivot_wide totals_index (view_level_is "total" trend_df) with
  | Raised e => Raised e
  | Returned totals_wide =>
      match pivot_wide bu_index (view_level_is "bu" trend_df) with
      | Raised e => Raised e
      | Returned bu_wide =>
          match pivot_wide prod_fam_index (view_level_is "prod_fam" trend_df) with
          | Raised e => Raised e
          | Returned prod_fam_wide =>
              let product_top :=
                Trend.product_top trend_df anchor_month top_n_products in
              match pivot_wide product_index product_top with
              | Raised e => Raised e
              | Returned product_top_wide =>
                  Returned (mkViews totals_wide bu_wide prod_fam_wide
                                    product_top_wide)
              end
          end
      end
  end.

End TrendViews.

Module TrendDQ.

Import Driver.

(** Warning: a month of the window without a trend row. *)
Definition rolling_window_completeness (trend_df : list Trend.trend_row)
    (expected_months : list date) : check :=
  let available_months := map Trend.month_start trend_df in
  let missing_months :=
    filter (fun m => negb (existsb (date_eqb m) available_months))
           expected_months in
  mkCheck "rolling_window_completeness" "warning" (is_empty missing_months).

(** Critical: a month without marketing, stats or actuals rows. *)
Definition source_coverage_by_month (source_row_counts : list source_count) : check :=
  let coverage_issues :=
    filter (fun c => (marketing_rows c =? 0)%nat || (stats_rows c =? 0)%nat
                     || (actuals_rows c =? 0)%nat)
           source_row_counts in
  mkCheck "source_coverage_by_month" "critical" (is_empty coverage_issues).

Definition grain_same (a b : Trend.trend_row) : bool :=
  date_eqb (Trend.month_start a) (Trend.month_start b)
  && (Trend.units a =? Trend.units b)
  && (Trend.view_level a =? Trend.view_level b)
  && (Trend.bu_code a =? Trend.bu_code b)
  && (Trend.bu_name a =? Trend.bu_name b)
  && (Trend.prod_fam a =? Trend.prod_fam b)
  && (Trend.product a =? Trend.product b)
  && (Trend.marketing_manager a =? Trend.marketing_manager b)
  && (Trend.model_side a =? Trend.model_side b).

(** Critical: two trend rows of one grain and side. *)
Definition trend_grain_uniqueness (trend_df : list Trend.trend_row) : check :=
  let dupes := MonthlyDQ.duplicated grain_same [] trend_df in
  mkCheck "trend_grain_uniqueness" "critical" (dupes =? 0)%nat.

(** The distinct products of each unit type in the product view. *)
Definition topn_counts (top_n_df : list (TrendViews.wide_row TrendViews.product_index_type))
  : list (string * nat) :=
  map (fun kg => (fst kg, List.length (dedup (map snd (snd kg)))))
      (groupby fst
               (dedup (map (fun w => (TrendViews.pi_units (TrendViews.w_index w),
                                      TrendViews.pi_product (TrendViews.w_index w)))
                           top_n_df))).

(** Critical: a unit type with more products than the limit. *)
Definition topn_rank_integrity
    (top_n_df : list (TrendViews.wide_row TrendViews.product_index_type))
    (top_n_products : Z) : check :=
  let over_limit :=
    filter (fun c => (top_n_products <? Z.of_nat (snd c))%Z) (topn_counts top_n_df) in
  mkCheck "topn_rank_integrity" "critical" (is_empty over_limit).

(** [run_dq_checks] of the trend report: its five checks, in order. *)
Definition run_dq_checks (trend_df : list Trend.trend_row)
    (expected_months : list date) (source_row_counts : list source_count)
    (v : TrendViews.views) (top_n_products : Z) : list check :=
  [ rolling_window_completeness trend_df expected_months;
    source_coverage_by_month source_row_counts;
    trend_grain_uniqueness trend_df;
    denominator_validity trend_df;
    topn_rank_integrity (TrendViews.product_top_wide v) top_n_products ].

End TrendDQ.

(** ** A sample trend run under [--dq-mode fail] *)

Module SampleRun.

Import Driver.

Local Open Scope string_scope.

Definition source_coverage_by_month : list source_count -> check :=
  TrendDQ.source_coverage_by_month.

(** The statistical model's blend forecast of the sample family. *)
Definition fam1_stats : list stats_row :=
  [mkStats (CStr "FAM1") (CStr "D100") (Some Sample.march) (CStr "BLEND")
           (Some 110%Q) false].

(** The database holds the sample family for March 2024, with its
    marketing forecast, its blend forecast and its actuals, and nothing
    for February 2024. *)
Definition load_from_db (month : date) : outcome frames :=
  if date_eqb month Sample.march
  then Returned (mkFrames Sample.marketing_df Sample.catalog_df
                          fam1_stats Sample.actuals_df)
  else Returned (mkFrames [] Sample.catalog_df [] []).

Definition resolve_report_month (arg : option string) : outcome date :=
  Returned Sample.march.

(** [--month 2024-03 --window-months 2 --dq-mode fail --output trend.xlsx
    --dq-log dq.json] *)
Definition fail_args : trend_args :=
  mkTrendArgs (Some "2024-03") 2 10 Fail (Some "dq.json") (Some "trend.xlsx").

Definition world0 : world := mkWorld "all_products_actuals_and_bookings.xlsx" [].

Definition run (a : trend_args) : outcome unit * world :=
  trend_main "." resolve_report_month load_from_db TrendViews.views
             TrendViews.build_views TrendDQ.run_dq_checks a world0.

(** A wrapped report that writes its workbook, overwrites the global and
    then raises. *)
Definition clobbering_write_report (cfg : ReportConfig) (w : world)
  : outcome unit * world :=
  (Raised (Error "disk full"),
   set_ACTUALS_FILE "clobbered.xlsx" (write_artifact (Report (output_file cfg)) w)).

Definition sample_frames : frames :=
  mkFrames Sample.marketing_df Sample.catalog_df Sample.stats_df Sample.actuals_df.

Definition clobbered_report : outcome unit * world :=
  build_report_from_frames (Returned "tmp") (fun _ _ => Returned tt)
                           clobbering_write_report Sample.march "report.xlsx"
                           sample_frames world0.

End SampleRun.

(** * Properties *)

(** ** Strings and lists *)

Lemma split_nonempty (sep : ascii) (s : string) : PyStr.split sep s <> [].
Proof.
  destruct s as [|c r]; simpl; [discriminate|].
  destruct (Ascii.eqb c sep); [discriminate|].
  destruct (PyStr.split sep r); discriminate.
Qed.

Lemma split_length (sep : ascii) (s : string) :
  List.length (PyStr.split sep s) = S (PyStr.count sep s).
Proof.
  induction s as [|c r IH]; simpl; [reflexivity|].
  destruct (Ascii.eqb c sep); simpl.
  - now rewrite IH.
  - destruct (PyStr.split sep r) eqn:E; simpl in *; [discriminate|exact IH].
Qed.

Lemma split_no_separator (sep : ascii) (s : string) :
  PyStr.count sep s = 0%nat -> PyStr.split sep s = [s].
Proof.
  induction s as [|c r IH]; simpl; [reflexivity|].
  destruct (Ascii.eqb c sep); simpl; [discriminate|].
  intros H. now rewrite (IH H).
Qed.

(** ** 4.1 Key normalizer *)


(** ** 4.2 Catalog expander *)

(** C7 (as stated, refuted): an absent code list does not give a row with
    an empty code; the row carries the text of the null. *)
Lemma expand_absent_list_not_empty_code :
  map sku_list (expand_entry (Sample.widget_catalog CNaN)) = [CStr "nan"]
  /\ map sku_list (expand_entry (Sample.widget_catalog CNaN)) <> [CStr ""].
Proof.
  split; [reflexivity|discriminate].
Qed.

(** C7 (amended): an entry expands to one row per pipe-separated token of
    its code list, that is one more row than the list has pipes; each row
    carries one trimmed token and the other attributes of the entry.  A
    list without a pipe gives one row; the empty list gives one row with an
    empty code; an absent list gives one row whose code is the text of the
    null, "nan" or "None". *)
Theorem catalog_expansion_row_count (e : catalog_row) :
  let s := py_str (sku_list e) in
  expand_entry e
    = map (fun tok => set_sku e (PyStr.strip tok)) (PyStr.split "|" s)
  /\ List.length (expand_entry e) = S (PyStr.count "|" s)
  /\ Forall (fun r =>
               group_key r = group_key e
               /\ business_unit_code r = business_unit_code e
               /\ business_unit_name r = business_unit_name e
               /\ product_family r = product_family e
               /\ marketing_manager r = marketing_manager e
               /\ salesforce_feature_mode r = salesforce_feature_mode e)
            (expand_entry e)
  /\ (PyStr.count "|" s = 0%nat ->
      expand_entry e = [set_sku e (PyStr.strip s)])
  /\ (sku_list e = CStr "" -> map sku_list (expand_entry e) = [CStr ""])
  /\ (sku_list e = CNaN -> map sku_list (expand_entry e) = [CStr "nan"])
  /\ (sku_list e = CNone -> map sku_list (expand_entry e) = [CStr "None"]).
Proof.
  cbv zeta. unfold expand_entry.
  split; [reflexivity|].
  split; [now rewrite length_map, split_length|].
  split.
  { apply Forall_forall. intros r Hr. apply in_map_iff in Hr.
    destruct Hr as [tok [<- _]]. repeat split. }
  split.
  { intros H. now rewrite (split_no_separator _ _ H). }
  repeat split; intros ->; reflexivity.
Qed.

Lemma catalog_expansion_row_count_witness :
  List.length (expand_entry (Sample.widget_catalog (CStr "A-1| B-2 |C-3"))) = 3%nat
  /\ map sku_list (expand_entry (Sample.widget_catalog (CStr "A-1| B-2 |C-3")))
     = [CStr "A-1"; CStr "B-2"; CStr "C-3"]
  /\ expand_entry (Sample.widget_catalog (CStr "WIDGET-A"))
     = [Sample.widget_catalog (CStr "WIDGET-A")].
Proof.
  split; [|split].
  - exact (proj1 (proj2 (catalog_expansion_row_count
                           (Sample.widget_catalog (CStr "A-1| B-2 |C-3"))))).
  - rewrite (proj1 (catalog_expansion_row_count
                      (Sample.widget_catalog (CStr "A-1| B-2 |C-3")))).
    reflexivity.
  - exact (proj1 (proj2 (proj2 (proj2 (catalog_expansion_row_count
                                         (Sample.widget_catalog (CStr "WIDGET-A"))))))
                 eq_refl).
Defined.

(** ** 4.3 Reconciliation joiner *)

Lemma filter_flat_map {A B : Type} (p : B -> bool) (f : A -> list B) (l : list A) :
  filter p (flat_map f l) = flat_map (fun a => filter p (f a)) l.
Proof.
  induction l as [|a l IH]; simpl; [reflexivity|].
  now rewrite filter_app, IH.
Qed.

Lemma filter_map_comm {A B : Type} (p : B -> bool) (f : A -> B) (l : list A) :
  filter p (map f l) = map f (filter (fun a => p (f a)) l).
Proof.
  induction l as [|a l IH]; simpl; [reflexivity|].
  destruct (p (f a)); simpl; now rewrite IH.
Qed.

Lemma filter_all_true {A : Type} (p : A -> bool) (l : list A) :
  (forall a, In a l -> p a = true) -> filter p l = l.
Proof.
  induction l as [|a l IH]; simpl; intros H; [reflexivity|].
  rewrite (H a (or_introl eq_refl)). f_equal. apply IH. auto.
Qed.

Lemma casework_location_map_cases (loc : string) :
  casework_location_map loc
  = if (loc =? "LOC1020") || (loc =? "LOC1080")
    then Some (if loc =? "LOC1020" then "ARTISAN CASEWORK" else "SYNTHESIS CASEWORK")
    else None.
Proof.
  unfold casework_location_map.
  destruct (loc =? "LOC1020"); [reflexivity|].
  destruct (loc =? "LOC1080"); reflexivity.
Qed.

(** On a joined row the mask reads the marketing side only. *)
Lemma casework_mask_marketing (m : marketing_row) (c : catalog_row) :
  casework_mask (mkMerged m c) = triggers_casework m.
Proof.
  unfold casework_mask, triggers_casework, mr_bu_key, mr_product_key,
    mr_location_key. simpl.
  rewrite casework_location_map_cases.
  destruct ((normalize_key1 (m_Location m) =? "LOC1020")
            || (normalize_key1 (m_Location m) =? "LOC1080")); reflexivity.
Qed.

Lemma group_is_mapped_family (m : marketing_row) (c : catalog_row) :
  triggers_casework m = true ->
  group_is_mapped (mkMerged m c)
  = (normalize_key1 (group_key c) =? casework_family m).
Proof.
  unfold triggers_casework, group_is_mapped, casework_family,
    mr_location_key, mr_group_key_norm. simpl.
  rewrite casework_location_map_cases. intros H.
  apply andb_true_iff in H. destruct H as [_ H]. now rewrite H.
Qed.

(** The override, row by row, when the filter runs. *)
Lemma casework_filter_row (m : marketing_row) (catalog_map : list catalog_row) :
  filter (fun r => negb (casework_mask r) || group_is_mapped r)
         (map (mkMerged m) (filter (join_match m) catalog_map))
  = map (mkMerged m) (surviving_matches m catalog_map).
Proof.
  rewrite filter_map_comm. f_equal. unfold surviving_matches.
  destruct (triggers_casework m) eqn:T.
  - apply filter_ext. intros c.
    now rewrite casework_mask_marketing, T, group_is_mapped_family.
  - apply filter_all_true. intros c _.
    now rewrite casework_mask_marketing, T.
Qed.

(** Without a triggering row in the join, a triggering marketing row has
    no match at all. *)
Lemma no_mask_no_match (m : marketing_row) (catalog_map : list catalog_row) :
  existsb casework_mask (map (mkMerged m) (filter (join_match m) catalog_map)) = false ->
  map (mkMerged m) (surviving_matches m catalog_map)
  = map (mkMerged m) (filter (join_match m) catalog_map).
Proof.
  unfold surviving_matches. destruct (triggers_casework m) eqn:T; [|reflexivity].
  destruct (filter (join_match m) catalog_map) as [|c l]; [reflexivity|].
  simpl. now rewrite casework_mask_marketing, T.
Qed.

(** C6: after the casework rule, a marketing row with BU key "D200",
    product key "TOTAL CASEWORK" and location key "LOC1020" or "LOC1080" is
    joined to exactly those of its catalog matches whose normalized group
    key is "ARTISAN CASEWORK", respectively "SYNTHESIS CASEWORK"; every
    other row keeps all its matches; and when no joined row triggers the
    mask the join is returned as it is. *)
Theorem casework_override (marketing_df : list marketing_row)
    (catalog_map : list catalog_row) :
  casework_split (merge_inner marketing_df catalog_map)
  = flat_map (fun m => map (mkMerged m) (surviving_matches m catalog_map))
             marketing_df
  /\ (existsb casework_mask (merge_inner marketing_df catalog_map) = false ->
      casework_split (merge_inner marketing_df catalog_map)
      = merge_inner marketing_df catalog_map).
Proof.
  split.
  - unfold casework_split.
    destruct (existsb casework_mask (merge_inner marketing_df catalog_map)) eqn:E.
    + unfold merge_inner. rewrite filter_flat_map.
      apply flat_map_ext. intros m. apply casework_filter_row.
    + unfold merge_inner in *. symmetry.
      induction marketing_df as [|m l IH]; simpl in *; [reflexivity|].
      rewrite existsb_app in E. apply orb_false_iff in E. destruct E as [E1 E2].
      now rewrite (no_mask_no_match _ _ E1), (IH E2).
  - intros E. unfold casework_split. now rewrite E.
Qed.

Lemma casework_override_witness :
  map (fun r => group_key (mr_catalog r))
      (casework_split
         (merge_inner [Sample.casework_row "LOC1020"; Sample.casework_row " loc1080"]
                      Sample.casework_catalog_map))
  = [CStr "Artisan Casework"; CStr "Synthesis Casework"]
  /\ casework_split (merge_inner [Sample.casework_row "LOC9999"]
                                 Sample.casework_catalog_map)
     = merge_inner [Sample.casework_row "LOC9999"] Sample.casework_catalog_map.
Proof.
  split.
  - rewrite (proj1 (casework_override
                      [Sample.casework_row "LOC1020"; Sample.casework_row " loc1080"]
                      Sample.casework_catalog_map)).
    reflexivity.
  - exact (proj2 (casework_override [Sample.casework_row "LOC9999"]
                                    Sample.casework_catalog_map) eq_refl).
Defined.

(** ** Group-by and rollups *)

Lemma In_insert_by {A : Type} (leb : A -> A -> bool) (a x : A) (l : list A) :
  In x (insert_by leb a l) <-> x = a \/ In x l.
Proof.
  induction l as [|y l IH]; simpl.
  - intuition.
  - destruct (leb a y); simpl; rewrite ?IH; intuition.
Qed.

Lemma In_sort_by {A : Type} (leb : A -> A -> bool) (x : A) (l : list A) :
  In x (sort_by leb l) <-> In x l.
Proof.
  unfold sort_by. induction l as [|a l IH]; simpl; [reflexivity|].
  rewrite In_insert_by, IH. intuition.
Qed.

Lemma existsb_filter_empty {A : Type} (p : A -> bool) (l : list A) :
  existsb p l = negb (is_empty (filter p l)).
Proof.
  induction l as [|a l IH]; simpl; [reflexivity|].
  destruct (p a); simpl; [reflexivity|exact IH].
Qed.

Lemma bool_eq_iff (a b : bool) : (a = true <-> b = true) -> a = b.
Proof. destruct a, b; intuition congruence. Qed.

Section LeibnizKeys.

Context {R K : Type} `{GroupKey K}.
Hypothesis same_key_eq : forall a b : K, same_key a b = true <-> a = b.

Lemma same_key_refl (a : K) : same_key a a = true.
Proof. now apply same_key_eq. Qed.

Lemma In_dedup (x : K) (l : list K) : In x (dedup l) <-> In x l.
Proof.
  induction l as [|k l IH]; simpl; [reflexivity|].
  rewrite filter_In, IH. split.
  - intuition.
  - intros [->|Hx]; [now left|].
    destruct (same_key k x) eqn:E.
    + left. now apply same_key_eq.
    + right. now split.
Qed.

Lemma existsb_same_key (k : K) (ks : list K) :
  existsb (fun k' => same_key k' k) ks = true <-> In k ks.
Proof.
  rewrite existsb_exists. split.
  - intros [k' [Hin E]]. apply same_key_eq in E. now subst.
  - intros Hin. exists k. split; [assumption|apply same_key_refl].
Qed.

Lemma find_keyed {V : Type} (F : K -> V) (k : K) (ks : list K) :
  find (fun e => same_key (fst e) k) (map (fun k' => (k', F k')) ks)
  = if existsb (fun k' => same_key k' k) ks then Some (k, F k) else None.
Proof.
  induction ks as [|k' ks IH]; simpl; [reflexivity|].
  destruct (same_key k' k) eqn:E; simpl; [|exact IH].
  apply same_key_eq in E. now subst.
Qed.

Lemma group_keys_existsb (key : R -> K) (rows : list R) (k : K) :
  existsb (fun k' => same_key k' k) (sort_by key_leb (dedup (map key rows)))
  = existsb (fun r => same_key (key r) k) rows.
Proof.
  apply bool_eq_iff.
  rewrite existsb_same_key, In_sort_by, In_dedup, in_map_iff, existsb_exists.
  split.
  - intros [r [<- Hr]]. exists r. split; [assumption|apply same_key_refl].
  - intros [r [Hr E]]. exists r. apply same_key_eq in E. now split.
Qed.

(** What a group-by rollup holds for a key: the aggregate of the rows of
    that key, when there is such a row. *)
Lemma rollup_lookup_groupby {V : Type} (key : R -> K) (f : list R -> V)
    (rows : list R) (k : K) :
  rollup_lookup k (map (fun kg => (fst kg, f (snd kg))) (groupby key rows))
  = if existsb (fun r => same_key (key r) k) rows
    then Some (f (filter (fun r => same_key (key r) k) rows))
    else None.
Proof.
  unfold rollup_lookup, groupby. rewrite map_map. simpl.
  rewrite (find_keyed (fun k' => f (filter (fun r => same_key (key r) k') rows))).
  rewrite group_keys_existsb.
  destruct (existsb _ rows); reflexivity.
Qed.

Lemma rollup_keys_groupby {V : Type} (key : R -> K) (f : list R -> V)
    (rows : list R) (k : K) :
  In k (map fst (map (fun kg => (fst kg, f (snd kg))) (groupby key rows)))
  <-> existsb (fun r => same_key (key r) k) rows = true.
Proof.
  unfold groupby. rewrite !map_map. simpl. rewrite map_id.
  rewrite <- group_keys_existsb. symmetry. apply existsb_same_key.
Qed.

End LeibnizKeys.

Lemma key_pair_same_key (a b : key_pair) : same_key a b = true <-> a = b.
Proof.
  destruct a as [a1 a2], b as [b1 b2]. simpl.
  rewrite andb_true_iff, !String.eqb_eq. split.
  - intros [-> ->]. reflexivity.
  - intros E. inversion E. auto.
Qed.

(** ** 4.4 Forecast rollup aggregator *)

Lemma rollup_lookup_stats_subset (rows : list stats_row) (k : key_pair) :
  rollup_lookup k (stats_subset_rollup rows)
  = if existsb (fun s => same_key (stats_key s) k) rows
    then Some (sum_skipna
                 (map forecast_value
                      (filter (fun s => same_key (stats_key s) k) rows)))
    else None.
Proof.
  unfold stats_subset_rollup.
  apply (rollup_lookup_groupby key_pair_same_key stats_key
           (fun g => sum_skipna (map forecast_value g))).
Qed.

Lemma rollup_lookup_merge_outer (bl fb : list (key_pair * Q)) (k : key_pair) :
  rollup_lookup k
    (map (fun row : key_pair * option Q * option Q =>
            match row with (k, b, f) => (k, coalesce_blend b f) end)
         (merge_outer bl fb))
  = if existsb (fun k' => same_key k' k) (map fst bl ++ map fst fb)
    then Some (coalesce_blend (rollup_lookup k bl) (rollup_lookup k fb))
    else None.
Proof.
  unfold rollup_lookup at 1. unfold merge_outer. rewrite map_map.
  rewrite (find_keyed key_pair_same_key
             (fun k' => coalesce_blend (rollup_lookup k' bl) (rollup_lookup k' fb))).
  replace (existsb (fun k' => same_key k' k)
             (sort_by key_leb (dedup (map fst bl ++ map fst fb))))
    with (existsb (fun k' => same_key k' k) (map fst bl ++ map fst fb)).
  - destruct (existsb _ _); reflexivity.
  - apply bool_eq_iff.
    rewrite !(existsb_same_key key_pair_same_key), In_sort_by.
    now rewrite (In_dedup key_pair_same_key).
Qed.

Lemma NoDup_insert_by {A : Type} (leb : A -> A -> bool) (a : A) (l : list A) :
  ~ In a l -> NoDup l -> NoDup (insert_by leb a l).
Proof.
  induction l as [|y l IH]; simpl; intros Hn Hd.
  - constructor; [auto|constructor].
  - destruct (leb a y).
    + constructor; simpl; auto.
    + inversion Hd; subst. constructor.
      * rewrite In_insert_by. intuition.
      * apply IH; intuition.
Qed.

Lemma NoDup_sort_by {A : Type} (leb : A -> A -> bool) (l : list A) :
  NoDup l -> NoDup (sort_by leb l).
Proof.
  unfold sort_by. induction 1 as [|a l Hn Hd IH]; simpl; [constructor|].
  apply NoDup_insert_by; [|exact IH].
  fold (sort_by leb l). now rewrite In_sort_by.
Qed.

Lemma NoDup_dedup_keys (l : list key_pair) : NoDup (dedup l).
Proof.
  induction l as [|k l IH]; simpl; constructor.
  - rewrite filter_In. intros [_ E].
    pose proof (proj2 (key_pair_same_key k k) eq_refl) as E'.
    simpl in E'. rewrite E' in E. discriminate.
  - now apply NoDup_filter.
Qed.

Lemma stats_subset_key_present (rows : list stats_row) (k : key_pair) :
  existsb (fun k' => same_key k' k) (map fst (stats_subset_rollup rows))
  = existsb (fun s => same_key (stats_key s) k) rows.
Proof.
  apply bool_eq_iff. rewrite (existsb_same_key key_pair_same_key).
  unfold stats_subset_rollup.
  apply (rollup_keys_groupby key_pair_same_key stats_key
           (fun g => sum_skipna (map forecast_value g))).
Qed.

(** What the statistical-model rollup holds for a key, through the two
    subsets of the month. *)
Lemma stats_rollup_lookup_cases (stats_df : list stats_row)
    (month_start : date) (k : key_pair) :
  rollup_lookup k (stats_rollup stats_df month_start)
  = match blend_rows_for stats_df month_start k,
          recommended_rows_for stats_df month_start k with
    | _ :: _, _ =>
        Some (Some (sum_skipna
                      (map forecast_value (blend_rows_for stats_df month_start k))))
    | [], _ :: _ =>
        Some (Some (sum_skipna
                      (map forecast_value
                           (recommended_rows_for stats_df month_start k))))
    | [], [] => None
    end
  /\ NoDup (map fst (stats_rollup stats_df month_start)).
Proof.
  split.
  - unfold stats_rollup, blend_rows_for, recommended_rows_for.
    rewrite rollup_lookup_merge_outer, existsb_app.
    rewrite !stats_subset_key_present, !rollup_lookup_stats_subset.
    rewrite !existsb_filter_empty.
    destruct (filter _ (stats_blend _)); destruct (filter _ (stats_fallback _));
      reflexivity.
  - unfold stats_rollup, merge_outer. rewrite !map_map.
    erewrite map_ext; [|intros a; reflexivity]. simpl. rewrite map_id.
    apply NoDup_sort_by, NoDup_dedup_keys.
Qed.

Lemma sample_reconciled : Sample.reconciled_df = [Sample.fam1_row].
Proof. vm_compute. reflexivity. Qed.

Lemma rollup_lookup_none {K V : Type} `{GroupKey K} (k : K) (l : list (K * V)) :
  rollup_lookup k l = None ->
  filter (fun e => same_key (fst e) k) l = [].
Proof.
  unfold rollup_lookup. intros E.
  destruct (find _ l) as [e|] eqn:F; [discriminate|].
  induction l as [|e l IH]; simpl in *; [reflexivity|].
  destruct (same_key (fst e) k); [discriminate|auto].
Qed.

Lemma In_merge_left {R K V : Type} `{GroupKey K} (key : R -> K)
    (left : list R) (right : list (K * V)) (l : R) (v : option V) :
  In (l, v) (merge_left key left right) ->
  In l left /\ (rollup_lookup (key l) right = None -> v = None).
Proof.
  unfold merge_left. rewrite in_flat_map. intros [l' [Hl Hin]].
  destruct (filter _ right) as [|e ms] eqn:F.
  - destruct Hin as [E|[]]. inversion E; subst. auto.
  - apply in_map_iff in Hin. destruct Hin as [e' [E He']].
    inversion E; subst. split; [assumption|].
    intros N. apply rollup_lookup_none in N. rewrite N in F. discriminate.
Qed.

Lemma In_final_join (month_start : date) (agg : list agg_row)
    (ar : list (key_pair * Q)) (sr : list (key_pair * option Q)) (r : raw_row) :
  In r (final_join month_start agg ar sr) ->
  exists a act fc,
    In a agg /\ r = reconciled month_start a act fc
    /\ (rollup_lookup (agg_key a) ar = None -> act = None)
    /\ (rollup_lookup (agg_key a) sr = None -> fc = None).
Proof.
  unfold final_join. rewrite in_map_iff. intros [[[a act] st] [<- Hin]].
  apply In_merge_left in Hin. destruct Hin as [Hin Hst].
  apply In_merge_left in Hin. destruct Hin as [Hin Hact].
  exists a, act, (join_null st). repeat split; auto.
  simpl in Hst. intros N. now rewrite (Hst N).
Qed.


Lemma safe_ratio_zero (n d : Q) : (d == 0)%Q -> safe_ratio n d = None.
Proof.
  intros E. unfold safe_ratio. apply Qeq_bool_iff in E. now rewrite E.
Qed.

Lemma safe_ratio_nonzero (n d : Q) : ~ (d == 0)%Q -> safe_ratio n d = Some (n / d)%Q.
Proof.
  intros E. unfold safe_ratio. destruct (Qeq_bool d 0) eqn:B; [|reflexivity].
  apply Qeq_bool_iff in B. contradiction.
Qed.




(** ** 4.5 Metrics dashboard builders *)

Lemma filter_filter_and {A : Type} (p q : A -> bool) (l : list A) :
  filter p (filter q l) = filter (fun a => q a && p a) l.
Proof.
  induction l as [|a l IH]; simpl; [reflexivity|].
  destruct (q a); simpl; [destruct (p a)|]; now rewrite IH.
Qed.

Lemma In_groupby {R K : Type} `{GroupKey K} (key : R -> K) (rows : list R)
    (kg : K * list R) :
  In kg (groupby key rows) ->
  snd kg = filter (fun r => same_key (key r) (fst kg)) rows.
Proof.
  unfold groupby. rewrite in_map_iff. intros [k [<- _]]. reflexivity.
Qed.

Lemma same_cell_group_label (a b : cell) :
  (isna a && isna (group_label b) || cell_eqb a (group_label b))%bool
  = (isna a && isna b || cell_eqb a b)%bool.
Proof. destruct a, b; reflexivity. Qed.

(** A group of a builder is the grain of the record made from it. *)
Ltac grain_of_group :=
  match goal with
  | H : In _ (groupby _ _) |- _ =>
      rewrite (In_groupby _ _ _ H); unfold grain_rows, unit_df;
      rewrite filter_filter_and; apply filter_ext; intros ?; cbn;
      rewrite ?same_cell_group_label; btauto
  end.

Lemma totals_records (raw : list raw_row) (rec : dash_record) :
  In rec (build_totals_dashboard raw) ->
  metric_record rec (sums_of (grain_rows raw rec)).
Proof.
  unfold build_totals_dashboard. rewrite in_flat_map.
  intros [units [_ Hin]].
  destruct (is_empty (unit_df raw units)); [destruct Hin|].
  apply in_app_or in Hin. destruct Hin as [Hin|Hin].
  - apply in_flat_map in Hin. destruct Hin as [[[bu_code bu_name] g] [Hg Hin]].
    assert (G : g = grain_rows raw
                      (mkDash units (Some "BU") (group_label bu_code)
                              (group_label bu_name) None None None
                              ACC None None)).
    { change g with (snd (bu_code, bu_name, g)). grain_of_group. }
    simpl in Hin. destruct Hin as [<-|[<-|[]]]; [left|right];
      (repeat split; simpl; f_equal; f_equal; exact G).
  - assert (G : unit_df raw units
                = grain_rows raw
                    (mkDash units (Some "Total") (CStr "ALL") (CStr "Total")
                            None None None ACC None None)).
    { unfold grain_rows, unit_df. apply filter_ext. intros r. cbn. btauto. }
    simpl in Hin. destruct Hin as [<-|[<-|[]]]; [left|right];
      (repeat split; simpl; f_equal; f_equal; exact G).
Qed.

Lemma prod_fam_records (raw : list raw_row) (rec : dash_record) :
  In rec (build_prod_fam_dashboard raw) ->
  metric_record rec (sums_of (grain_rows raw rec)).
Proof.
  unfold build_prod_fam_dashboard. rewrite in_flat_map.
  intros [units [_ Hin]].
  destruct (is_empty (unit_df raw units)); [destruct Hin|].
  apply in_map_iff in Hin.
  destruct Hin as [[[[bu_code bu_name] prod_fam] g] [<- Hg]].
  assert (G : g = grain_rows raw
                    (mkDash units None (group_label bu_code) (group_label bu_name)
                            (Some (group_label prod_fam)) None None
                            ACC None None)).
  { change g with (snd (bu_code, bu_name, prod_fam, g)). grain_of_group. }
  left. repeat split; simpl; f_equal; f_equal; exact G.
Qed.

Lemma prod_fam_wape_records (raw : list raw_row) (rec : dash_record) :
  In rec (build_prod_fam_wape_dashboard raw) ->
  metric_record rec (sums_of (grain_rows raw rec)).
Proof.
  unfold build_prod_fam_wape_dashboard. rewrite in_flat_map.
  intros [units [_ Hin]].
  destruct (is_empty (unit_df raw units)); [destruct Hin|].
  apply in_map_iff in Hin.
  destruct Hin as [[[[bu_code bu_name] prod_fam] g] [<- Hg]].
  assert (G : g = grain_rows raw
                    (mkDash units None (group_label bu_code) (group_label bu_name)
                            (Some (group_label prod_fam)) None None
                            WAPE None None)).
  { change g with (snd (bu_code, bu_name, prod_fam, g)). grain_of_group. }
  right. repeat split; simpl; f_equal; f_equal; exact G.
Qed.

Lemma marketing_manager_records (raw : list raw_row) (rec : dash_record) :
  In rec (build_marketing_manager_dashboard raw) ->
  metric_record rec (sums_of (grain_rows raw rec)).
Proof.
  unfold build_marketing_manager_dashboard. rewrite in_flat_map.
  intros [units [_ Hin]].
  destruct (is_empty (unit_df raw units)); [destruct Hin|].
  apply in_flat_map in Hin.
  destruct Hin as [[[[bu_code bu_name] manager] g] [Hg Hin]].
  assert (G : g = grain_rows raw
                    (mkDash units None (group_label bu_code) (group_label bu_name)
                            None None (Some (group_label manager))
                            ACC None None)).
  { change g with (snd (bu_code, bu_name, manager, g)). grain_of_group. }
  simpl in Hin. destruct Hin as [<-|[<-|[]]]; [left|right];
    (repeat split; simpl; f_equal; f_equal; exact G).
Qed.

Lemma product_records (raw : list raw_row) (rec : dash_record) :
  In rec (build_product_dashboard raw) ->
  metric_record rec (sums_of (grain_rows raw rec)).
Proof.
  unfold build_product_dashboard. rewrite in_flat_map.
  intros [units [_ Hin]].
  destruct (is_empty (unit_df raw units)); [destruct Hin|].
  apply in_map_iff in Hin.
  destruct Hin as [[[[[bu_code bu_name] product] manager] g] [<- Hg]].
  assert (G : g = grain_rows raw
                    (mkDash units None (group_label bu_code) (group_label bu_name)
                            None (Some (group_label product))
                            (Some (group_label manager)) ACC None None)).
  { change g with (snd (bu_code, bu_name, product, manager, g)). grain_of_group. }
  left. repeat split; simpl; f_equal; f_equal; exact G.
Qed.

(** ** 4.6 Trend aggregator *)

Lemma view_rows_ratio (frame : list raw_row) (m : date)
    (u v bc bn pf p mm : string) (t : Trend.trend_row) :
  In t (Trend._view_rows frame m u v bc bn pf p mm) ->
  Trend.actuals_sum t = qsum (map r_Actuals frame)
  /\ Trend.metric_value t
     = Trend.safe_ratio (Trend.actuals_sum t) (Trend.forecast_sum t)
  /\ ((Trend.model_side t = "stats_model"
       /\ Trend.forecast_sum t = qsum (map r_Stats_Model_Fcast frame))
      \/ (Trend.model_side t = "marketing"
          /\ Trend.forecast_sum t = qsum (map r_Marketing_Fcast frame))).
Proof.
  unfold Trend._view_rows. simpl.
  intros [<-|[<-|[]]]; simpl; auto.
Qed.

Lemma month_trend_rows_frame (raw : list raw_row) (m : date) (t : Trend.trend_row) :
  In t (Trend.build_month_trend_rows raw m) ->
  exists frame u v bc bn pf p mm,
    incl frame raw /\ In t (Trend._view_rows frame m u v bc bn pf p mm).
Proof.
  unfold Trend.build_month_trend_rows. rewrite in_flat_map.
  intros [u [_ Hin]].
  destruct (is_empty (unit_df raw u)); [destruct Hin|].
  assert (U : incl (unit_df raw u) raw) by apply incl_filter.
  assert (G : forall (K : Type) (GK : GroupKey K) (key : raw_row -> K) kg,
             In kg (groupby key (unit_df raw u)) -> incl (snd kg) raw).
  { intros K GK key kg Hkg. rewrite (In_groupby _ _ _ Hkg).
    eapply incl_tran; [apply incl_filter|exact U]. }
  rewrite !in_app_iff, !in_flat_map in Hin.
  destruct Hin as [Hin|[[kg [Hg Hin]]|[[kg [Hg Hin]]|[kg [Hg Hin]]]]].
  - repeat eexists; [exact U|exact Hin].
  - apply G in Hg. destruct kg as [[bc bn] g].
    repeat eexists; [exact Hg|exact Hin].
  - apply G in Hg. destruct kg as [[[bc bn] pf] g].
    repeat eexists; [exact Hg|exact Hin].
  - apply G in Hg. destruct kg as [[[[bc bn] p] mm] g].
    repeat eexists; [exact Hg|exact Hin].
Qed.

(** C4 (as stated, refuted): for the sample family, with actuals 120, a
    marketing forecast of 100 and a statistical forecast of 0, the trend
    rows hold 120/100 for marketing, where the dashboard holds 100/120, and
    null for the statistical model, although the actuals are not zero. *)
Lemma trend_ratio_differs_from_dashboard :
  map (fun t => (Trend.model_side t, Trend.metric_value t))
      (Trend._view_rows [Sample.fam1_row] Sample.march
                        "quantity" "total" "ALL" "Total" "" "" "")
  = [("stats_model", None); ("marketing", Some (120 # 100)%Q)]
  /\ mkt_acc (sums_of [Sample.fam1_row]) = Some (100 # 120)%Q
  /\ stats_acc (sums_of [Sample.fam1_row]) = Some (0 # 120)%Q
  /\ ~ (120 # 100 == 100 # 120)%Q
  /\ ~ (actuals_sum (sums_of [Sample.fam1_row]) == 0)%Q.
Proof.
  repeat split; try (vm_compute; reflexivity); intros E; discriminate E.
Qed.

(** ** Command-line drivers *)

(** C10: whatever the wrapped [legacy.write_report] does, return or raise,
    and whatever it does to the module global itself, after
    [build_report_from_frames] the global [legacy.ACTUALS_FILE] holds the
    value it had before the call; the outcome of the call is that of the
    wrapped report, which ran with the global pointing at the staged
    actuals file. *)
Theorem build_report_from_frames_restores_actuals_file
    (TemporaryDirectory : Driver.outcome Driver.path)
    (stage_frames : Driver.path -> Driver.frames -> Driver.outcome unit)
    (write_report : Driver.ReportConfig -> Driver.world
                    -> Driver.outcome unit * Driver.world)
    (report_month : date) (output_path : Driver.path)
    (fr : Driver.frames) (w : Driver.world) :
  let run := Driver.build_report_from_frames TemporaryDirectory stage_frames
               write_report report_month output_path fr w in
  Driver.ACTUALS_FILE (snd run) = Driver.ACTUALS_FILE w
  /\ forall tmp,
       TemporaryDirectory = Driver.Returned tmp ->
       stage_frames tmp fr = Driver.Returned tt ->
       let cfg := Driver.mkReportConfig report_month
                    (Driver.path_join tmp "marketing.xlsx")
                    (Driver.path_join tmp "catalog.xlsx")
                    (Driver.path_join tmp "stats.xlsx") output_path in
       let inner := write_report cfg
                      (Driver.set_ACTUALS_FILE (Driver.path_join tmp "actuals.xlsx") w) in
       fst run = fst inner
       /\ Driver.artifacts (snd run) = Driver.artifacts (snd inner).
Proof.
  unfold Driver.build_report_from_frames. split.
  - destruct TemporaryDirectory as [tmp|e]; [|reflexivity].
    destruct (stage_frames tmp fr) as [u|e]; [|reflexivity].
    destruct (write_report _ _) as [r w']. reflexivity.
  - intros tmp -> ->. cbv zeta.
    destruct (write_report _ _) as [r w']. split; reflexivity.
Qed.

Lemma build_report_from_frames_restores_actuals_file_witness :
  Driver.ACTUALS_FILE (snd SampleRun.clobbered_report)
  = "all_products_actuals_and_bookings.xlsx"
  /\ fst SampleRun.clobbered_report = Driver.Raised (Driver.Error "disk full")
  /\ Driver.artifacts (snd SampleRun.clobbered_report)
     = [Driver.Report "report.xlsx"].
Proof.
  pose proof (build_report_from_frames_restores_actuals_file
                (Driver.Returned "tmp") (fun _ _ => Driver.Returned tt)
                SampleRun.clobbering_write_report Sample.march "report.xlsx"
                SampleRun.sample_frames SampleRun.world0) as T.
  cbv zeta in T. destruct T as [T1 T2].
  destruct (T2 "tmp" eq_refl eq_refl) as [T3 T4].
  split; [exact T1|]. split; [exact T3|exact T4].
Defined.

(** The monthly report under [--dq-mode fail]: once the frames are loaded
    and a critical check has failed, the run writes the data-quality log,
    raises [SystemExit] and produces no report. *)
Lemma monthly_gate_aborts_before_report
    (ROOT : Driver.path)
    (resolve_report_month : option string -> Driver.outcome date)
    (load_frames : string -> date -> Driver.outcome Driver.frames)
    (run_dq_checks : date -> string -> Driver.frames -> list Driver.check)
    (TemporaryDirectory : Driver.outcome Driver.path)
    (stage_frames : Driver.path -> Driver.frames -> Driver.outcome unit)
    (write_report : Driver.ReportConfig -> Driver.world
                    -> Driver.outcome unit * Driver.world)
    (a : Driver.args) (w : Driver.world) (month : date) (fr : Driver.frames) :
  Driver.arg_dq_mode a = Driver.Fail ->
  resolve_report_month (Driver.arg_month a) = Driver.Returned month ->
  load_frames (Driver.arg_data_source a) month = Driver.Returned fr ->
  (0 < Driver.critical_failed (run_dq_checks month (Driver.arg_data_source a) fr))%nat ->
  let run := Driver.main ROOT resolve_report_month load_frames run_dq_checks
               TemporaryDirectory stage_frames write_report a w in
  fst run
  = Driver.Raised
      (Driver.SystemExit "Critical DQ checks failed. Report generation aborted.")
  /\ exists log, Driver.artifacts (snd run) = Driver.DQLog log :: Driver.artifacts w.
Proof.
  intros Hm Hr Hl Hc. unfold Driver.main. rewrite Hr, Hl, Hm. simpl.
  apply Nat.ltb_lt in Hc. rewrite Hc. simpl.
  split; [reflexivity|eexists; reflexivity].
Qed.

(** The trend report under [--dq-mode fail], when the battery of checks
    has a critical failure: a run that gets as far as the checks writes the
    log, writes the workbook and only then raises [SystemExit]. *)
Lemma trend_gate_raises_after_report
    (ROOT : Driver.path)
    (resolve_report_month : option string -> Driver.outcome date)
    (load_from_db : date -> Driver.outcome Driver.frames)
    (views : Type)
    (build_views : list Trend.trend_row -> date -> Z -> Driver.outcome views)
    (run_dq_checks : list Trend.trend_row -> list date -> list Driver.source_count
                     -> views -> Z -> list Driver.check)
    (a : Driver.trend_args) (w : Driver.world) :
  Driver.targ_dq_mode a = Driver.Fail ->
  (forall td ms cs v n, (0 < Driver.critical_failed (run_dq_checks td ms cs v n))%nat) ->
  let run := Driver.trend_main ROOT resolve_report_month load_from_db views
               build_views run_dq_checks a w in
  (exists e, run = (Driver.Raised e, w))
  \/ (fst run = Driver.Raised (Driver.SystemExit "[DQ-FAIL] Critical checks failed")
      /\ exists out log,
           Driver.artifacts (snd run)
           = Driver.Report out :: Driver.DQLog log :: Driver.artifacts w).
Proof.
  intros Hm Hc. unfold Driver.trend_main.
  destruct (resolve_report_month _) as [anchor|e]; [|left; eexists; reflexivity].
  destruct (Driver.resolve_window _ _) as [[s0 e0]|e]; [|left; eexists; reflexivity].
  destruct (Driver.load_months _ _) as [[counts tf]|e]; [|left; eexists; reflexivity].
  destruct (is_empty tf); [left; eexists; reflexivity|].
  destruct (build_views _ _ _) as [v|e]; [|left; eexists; reflexivity].
  rewrite Hm. simpl.
  rewrite (proj2 (Nat.ltb_lt _ _) (Hc _ _ _ _ _)).
  right. split; [reflexivity|]. do 2 eexists. reflexivity.
Qed.

(** C5 (the code at the failing input): a trend run under [--dq-mode fail]
    over February and March 2024, on a database that holds the sample
    family for March, with its marketing forecast, its blend forecast and
    its actuals, and nothing for February.  The loop gives the row counts
    of both months and the trend rows of March; [build_views] returns, both
    sides having a metric value; of the five checks the critical
    [source_coverage_by_month] fails; and the run ends in [SystemExit], but
    only after the log and the trend workbook have been written. *)
Theorem trend_fail_mode_report_written :
  let months := [Sample.february; Sample.march] in
  let counts := [Driver.mkCount Sample.february 0 1 0 0;
                 Driver.mkCount Sample.march 1 1 1 1] in
  let trend_df :=
    Trend.build_month_trend_rows
      (rd_raw (build_raw_data Sample.marketing_df Sample.catalog_df
                              SampleRun.fam1_stats Sample.actuals_df Sample.march))
      Sample.march in
  Driver.resolve_window Sample.march 2
  = Driver.Returned (Sample.february, Sample.march)
  /\ Driver.month_sequence Sample.february Sample.march = months
  /\ Driver.load_months SampleRun.load_from_db months
     = Driver.Returned (counts, [trend_df])
  /\ (exists v,
        TrendViews.build_views trend_df Sample.march 10 = Driver.Returned v
        /\ map (fun c => (Driver.name c, Driver.passed c))
               (TrendDQ.run_dq_checks trend_df months counts v 10)
           = [("rolling_window_completeness", false);
              ("source_coverage_by_month", false);
              ("trend_grain_uniqueness", true);
              ("denominator_validity", true);
              ("topn_rank_integrity", true)]
        /\ Driver.critical_failed
             (TrendDQ.run_dq_checks trend_df months counts v 10) = 1%nat)
  /\ SampleRun.run SampleRun.fail_args
     = (Driver.Raised (Driver.SystemExit "[DQ-FAIL] Critical checks failed"),
        Driver.mkWorld "all_products_actuals_and_bookings.xlsx"
                       [Driver.Report "./trend.xlsx"; Driver.DQLog "dq.json"]).
Proof.
  cbv zeta. split; [reflexivity|]. split; [reflexivity|].
  split; [vm_compute; reflexivity|]. split.
  - eexists. split; [vm_compute; reflexivity|].
    split; vm_compute; reflexivity.
  - vm_compute. reflexivity.
Qed.

(** ** Sorting *)

Lemma ascii_compare_lt_trans (a b c : ascii) :
  Ascii.compare a b = Lt -> Ascii.compare b c = Lt -> Ascii.compare a c = Lt.
Proof.
  unfold Ascii.compare. rewrite !N.compare_lt_iff. apply N.lt_trans.
Qed.

Lemma string_compare_not_gt_trans (s t u : string) :
  String.compare s t <> Gt -> String.compare t u <> Gt -> String.compare s u <> Gt.
Proof.
  revert t u. induction s as [|a s IH]; intros [|b t] [|c u]; simpl;
    try congruence.
  destruct (Ascii.compare a b) eqn:Eab; try congruence;
    destruct (Ascii.compare b c) eqn:Ebc; try congruence.
  - apply Ascii.compare_eq_iff in Eab, Ebc. subst.
    assert (E : Ascii.compare c c = Eq) by (unfold Ascii.compare; apply N.compare_refl).
    rewrite E. apply IH.
  - apply Ascii.compare_eq_iff in Eab. subst. rewrite Ebc. congruence.
  - apply Ascii.compare_eq_iff in Ebc. subst. rewrite Eab. congruence.
  - rewrite (ascii_compare_lt_trans _ _ _ Eab Ebc). congruence.
Qed.

Lemma string_leb_trans (s t u : string) :
  String.leb s t = true -> String.leb t u = true -> String.leb s u = true.
Proof.
  unfold String.leb. intros H1 H2.
  assert (N : String.compare s u <> Gt).
  { apply (string_compare_not_gt_trans s t u).
    - destruct (String.compare s t); congruence.
    - destruct (String.compare t u); congruence. }
  destruct (String.compare s u); congruence.
Qed.

Section InsertionSort.

Context {A : Type} (leb : A -> A -> bool).
Hypothesis leb_total : forall a b, leb a b = true \/ leb b a = true.
Hypothesis leb_trans : forall a b c, leb a b = true -> leb b c = true -> leb a c = true.

Lemma insert_by_sorted (x : A) (l : list A) :
  sorted_by leb l -> sorted_by leb (insert_by leb x l).
Proof.
  unfold sorted_by. induction 1 as [|y l Hs IH Hy]; simpl.
  - constructor; constructor.
  - destruct (leb x y) eqn:E.
    + constructor; [constructor; assumption|].
      constructor; [exact E|].
      rewrite Forall_forall in *. intros z Hz.
      apply (leb_trans x y z E (Hy z Hz)).
    + constructor; [exact IH|].
      rewrite Forall_forall in *. intros z Hz.
      apply In_insert_by in Hz. destruct Hz as [->|Hz]; [|auto].
      destruct (leb_total x y) as [H|H]; [congruence|exact H].
Qed.

Lemma sort_by_sorted (l : list A) : sorted_by leb (sort_by leb l).
Proof.
  unfold sort_by. induction l as [|a l IH]; simpl.
  - constructor.
  - apply insert_by_sorted, IH.
Qed.

End InsertionSort.

(** ** The product grain of the trend views *)

Lemma rank_leb_total (x y : Trend.rank_key) :
  Trend.rank_leb x y = true \/ Trend.rank_leb y x = true.
Proof.
  unfold Trend.rank_leb.
  destruct (String.eqb_spec (Trend.rk_units x) (Trend.rk_units y)) as [E|N].
  - rewrite E, String.eqb_refl.
    destruct (Qeq_bool (Trend.rk_actuals x) (Trend.rk_actuals y)) eqn:Q.
    + rewrite (Qeq_bool_comm (Trend.rk_actuals y) (Trend.rk_actuals x)), Q.
      apply String.leb_total.
    + rewrite (Qeq_bool_comm (Trend.rk_actuals y) (Trend.rk_actuals x)), Q.
      rewrite !Qle_bool_iff.
      destruct (Qlt_le_dec (Trend.rk_actuals x) (Trend.rk_actuals y)) as [L|L].
      * right. now apply Qlt_le_weak.
      * now left.
  - destruct (String.eqb_spec (Trend.rk_units y) (Trend.rk_units x)) as [E'|_];
      [now symmetry in E'|].
    apply String.leb_total.
Qed.

Lemma rank_leb_trans (x y z : Trend.rank_key) :
  Trend.rank_leb x y = true -> Trend.rank_leb y z = true -> Trend.rank_leb x z = true.
Proof.
  unfold Trend.rank_leb.
  destruct (String.eqb_spec (Trend.rk_units x) (Trend.rk_units y)) as [E1|N1];
    destruct (String.eqb_spec (Trend.rk_units y) (Trend.rk_units z)) as [E2|N2].
  - rewrite E1, E2, String.eqb_refl.
    destruct (Qeq_bool (Trend.rk_actuals x) (Trend.rk_actuals y)) eqn:Q1;
      destruct (Qeq_bool (Trend.rk_actuals y) (Trend.rk_actuals z)) eqn:Q2.
    + rewrite (Qeq_bool_trans _ _ _ Q1 Q2). apply string_leb_trans.
    + apply Qeq_bool_iff in Q1. intros _ L.
      destruct (Qeq_bool (Trend.rk_actuals x) (Trend.rk_actuals z)) eqn:Q3.
      * apply Qeq_bool_iff in Q3.
        assert (C : (Trend.rk_actuals y == Trend.rk_actuals z)%Q)
          by (transitivity (Trend.rk_actuals x); [now symmetry|exact Q3]).
        apply Qeq_bool_iff in C. congruence.
      * apply Qle_bool_iff in L. apply Qle_bool_iff. now rewrite Q1.
    + apply Qeq_bool_iff in Q2. intros L _.
      destruct (Qeq_bool (Trend.rk_actuals x) (Trend.rk_actuals z)) eqn:Q3.
      * apply Qeq_bool_iff in Q3.
        assert (C : (Trend.rk_actuals x == Trend.rk_actuals y)%Q)
          by (transitivity (Trend.rk_actuals z); [exact Q3|now symmetry]).
        apply Qeq_bool_iff in C. congruence.
      * apply Qle_bool_iff in L. apply Qle_bool_iff. now rewrite <- Q2.
    + intros L1 L2. apply Qle_bool_iff in L1, L2.
      pose proof (Qle_trans _ _ _ L2 L1) as L.
      destruct (Qeq_bool (Trend.rk_actuals x) (Trend.rk_actuals z)) eqn:Q3.
      * exfalso. apply Qeq_bool_iff in Q3. rewrite Q3 in L1.
        pose proof (Qle_antisym _ _ L1 L2) as E.
        apply Qeq_bool_iff in E. congruence.
      * now apply Qle_bool_iff.
  - rewrite <- E1 in N2.
    destruct (String.eqb_spec (Trend.rk_units x) (Trend.rk_units z)) as [E|_];
      [contradiction|].
    intros _. now rewrite E1.
  - rewrite E2 in N1.
    destruct (String.eqb_spec (Trend.rk_units x) (Trend.rk_units z)) as [E|_];
      [contradiction|].
    intros L _. now rewrite <- E2.
  - intros L1 L2.
    destruct (String.eqb_spec (Trend.rk_units x) (Trend.rk_units z)) as [E|_].
    + exfalso. rewrite <- E in L2. apply N1.
      now apply String.leb_antisym.
    + now apply (string_leb_trans _ (Trend.rk_units y)).
Qed.

Lemma cumcount_rank_In (seen : list string) (l : list Trend.rank_key)
    (x : Trend.rank_key) (r : nat) :
  In (x, r) (Trend.cumcount_rank seen l) -> In x l.
Proof.
  revert seen. induction l as [|a l IH]; simpl; intros seen; [tauto|].
  intros [E|H]; [inversion E; now left|right; eauto].
Qed.

Lemma In_top_keys (trend_df : list Trend.trend_row) (anchor_month : date)
    (n : Z) (k : string * string) :
  In k (Trend.top_keys trend_df anchor_month n)
  <-> exists x r, In (x, r) (anchor_ranking trend_df anchor_month)
                  /\ (Z.of_nat r <= n)%Z
                  /\ k = (Trend.rk_units x, Trend.rk_product x).
Proof.
  unfold Trend.top_keys, anchor_ranking. rewrite in_map_iff. split.
  - intros [[x r] [<- H]]. apply filter_In in H. destruct H as [H L].
    exists x, r. simpl in *. apply Z.leb_le in L. auto.
  - intros [x [r [H [L ->]]]]. exists (x, r). split; [reflexivity|].
    apply filter_In. split; [exact H|]. now apply Z.leb_le.
Qed.

Lemma In_product_top (trend_df : list Trend.trend_row) (anchor_month : date)
    (n : Z) (t : Trend.trend_row) :
  In t (Trend.product_top trend_df anchor_month n)
  <-> In t (Trend.product_all trend_df)
      /\ In (Trend.units t, Trend.product t)
            (Trend.top_keys trend_df anchor_month n).
Proof.
  unfold Trend.product_top. rewrite in_flat_map. split.
  - intros [t' [Ht Hin]]. apply in_map_iff in Hin.
    destruct Hin as [[u p] [-> Hk]]. apply filter_In in Hk.
    destruct Hk as [Hk E]. simpl in E. apply andb_true_iff in E.
    destruct E as [E1 E2]. apply String.eqb_eq in E1, E2. subst. auto.
  - intros [Ht Hk]. exists t. split; [exact Ht|].
    apply in_map_iff. exists (Trend.units t, Trend.product t).
    split; [reflexivity|]. apply filter_In. split; [exact Hk|].
    simpl. now rewrite !String.eqb_refl.
Qed.

Lemma cumcount_rank_covers (seen : list string) (l : list Trend.rank_key)
    (x : Trend.rank_key) :
  In x l -> exists r, In (x, r) (Trend.cumcount_rank seen l).
Proof.
  revert seen. induction l as [|a l IH]; intros seen; [intros []|].
  intros [->|H]; simpl.
  - eexists. left. reflexivity.
  - destruct (IH (Trend.rk_units a :: seen) H) as [r Hr]. exists r. now right.
Qed.


(** * Further properties *)

(** ** Months *)

Lemma month_of_index_split (y m : Z) :
  (0 <= m < 12)%Z ->
  Driver.month_of_index (y * 12 + m) = mkDate y (m + 1) 1.
Proof.
  intros H. unfold Driver.month_of_index.
  replace (y * 12 + m)%Z with (m + y * 12)%Z by lia.
  rewrite Z.div_add, Z.mod_add by lia.
  rewrite Z.div_small, Z.mod_small by lia.
  reflexivity.
Qed.

Lemma month_of_index_index (d : date) :
  month_start_date d -> Driver.month_of_index (Driver.month_index d) = d.
Proof.
  unfold month_start_date, Driver.month_index.
  destruct d as [y m dd]. cbn [d_year d_month d_day]. intros [Hm ->].
  rewrite month_of_index_split by lia. f_equal. lia.
Qed.

(** X1: on a date later than January of year 1, [previous_month] returns
    the first day of the month before, over the turn of the year as well,
    and the window arithmetic of the trend report agrees with it; on a
    date in January of year 1 it raises [ValueError], there being no year
    before. *)
Theorem previous_month_steps_back (d : date) :
  (1 <= d_year d)%Z -> (1 <= d_month d <= 12)%Z ->
  (d_year d = 1%Z -> d_month d = 1%Z ->
   previous_month d = Driver.Raised (Driver.Error "ValueError"))
  /\ ((1 < d_year d \/ 1 < d_month d)%Z ->
      exists p,
        previous_month d = Driver.Returned p
        /\ month_start_date p /\ (1 <= d_year p)%Z
        /\ Driver.month_index p = (Driver.month_index d - 1)%Z
        /\ Driver.month_of_index (Driver.month_index d - 1) = p).
Proof.
  unfold month_start_date, previous_month, Driver.month_index.
  destruct d as [y m dd]. cbn [d_year d_month d_day]. intros Hy Hm. split.
  - intros -> ->. reflexivity.
  - intros H. destruct (Z.eqb_spec m 1) as [->|N].
    + destruct (Z.ltb_spec (y - 1) 1) as [L|L]; [lia|].
      eexists. split; [reflexivity|]. cbn [d_year d_month d_day].
      repeat split; try lia.
      replace (y * 12 + (1 - 1) - 1)%Z with ((y - 1) * 12 + 11)%Z by lia.
      now rewrite month_of_index_split by lia.
    + eexists. split; [reflexivity|]. cbn [d_year d_month d_day].
      repeat split; try lia.
      replace (y * 12 + (m - 1) - 1)%Z with (y * 12 + (m - 2))%Z by lia.
      rewrite month_of_index_split by lia. f_equal. lia.
Qed.

Lemma previous_month_steps_back_witness :
  previous_month (mkDate 1 1 15) = Driver.Raised (Driver.Error "ValueError")
  /\ exists p,
       previous_month (mkDate 2024 1 15) = Driver.Returned p
       /\ month_start_date p /\ (1 <= d_year p)%Z
       /\ Driver.month_index p = (Driver.month_index (mkDate 2024 1 15) - 1)%Z
       /\ Driver.month_of_index (Driver.month_index (mkDate 2024 1 15) - 1) = p.
Proof.
  split.
  - apply (proj1 (previous_month_steps_back (mkDate 1 1 15) ltac:(simpl; lia)
                    ltac:(simpl; lia))); reflexivity.
  - apply (proj2 (previous_month_steps_back (mkDate 2024 1 15) ltac:(simpl; lia)
                    ltac:(simpl; lia))).
    left. simpl. lia.
Defined.

Lemma month_index_of_index (i : Z) :
  Driver.month_index (Driver.month_of_index i) = i.
Proof.
  unfold Driver.month_index, Driver.month_of_index. simpl.
  pose proof (Z.div_mod i 12). lia.
Qed.

Lemma month_of_index_start (i : Z) : month_start_date (Driver.month_of_index i).
Proof.
  unfold month_start_date, Driver.month_of_index. simpl.
  pose proof (Z.mod_pos_bound i 12). lia.
Qed.

Lemma date_leb_month_starts (a b : date) :
  month_start_date a -> month_start_date b ->
  (Driver.month_index a <= Driver.month_index b)%Z ->
  date_leb a b = true.
Proof.
  unfold month_start_date, Driver.month_index, date_leb.
  destruct a as [y1 m1 d1], b as [y2 m2 d2]. cbn [d_year d_month d_day].
  intros [H1 ->] [H2 ->] L.
  destruct (Z.eqb_spec y1 y2) as [->|Ny].
  - destruct (Z.eqb_spec m1 m2) as [->|Nm]; [reflexivity|].
    apply Z.leb_le. lia.
  - apply Z.leb_le. lia.
Qed.

Lemma month_of_index_year (i : Z) :
  (d_year (Driver.month_of_index i) < 1)%Z <-> (i < 12)%Z.
Proof.
  unfold Driver.month_of_index. cbn [d_year].
  pose proof (Z.div_mod i 12 ltac:(lia)). pose proof (Z.mod_pos_bound i 12 ltac:(lia)).
  lia.
Qed.

(** X2: for an anchor that is a month start and a window of [w >= 1]
    months that does not reach before January of year 1, the trend report
    walks exactly [w] consecutive month starts, the first [w - 1] months
    before the anchor and the last the anchor itself.  A window of zero or
    fewer months is refused with [SystemExit], and one that reaches before
    year 1 with [NotImplementedError]. *)
Theorem rolling_window_months (anchor : date) (w : Z) :
  month_start_date anchor ->
  ((w <= 0)%Z ->
   Driver.resolve_window anchor w
   = Driver.Raised (Driver.SystemExit "--window-months must be >= 1"))
  /\ ((1 <= w)%Z -> (Driver.month_index anchor - (w - 1) < 12)%Z ->
      Driver.resolve_window anchor w
      = Driver.Raised (Driver.Error "NotImplementedError"))
  /\ ((1 <= w)%Z -> (12 <= Driver.month_index anchor - (w - 1))%Z ->
      exists start,
        Driver.resolve_window anchor w = Driver.Returned (start, anchor)
        /\ Z.of_nat (List.length (Driver.month_sequence start anchor)) = w
        /\ Forall month_start_date (Driver.month_sequence start anchor)
        /\ (forall k, (k < Z.to_nat w)%nat ->
              nth_error (Driver.month_sequence start anchor) k
              = Some (Driver.month_of_index
                        (Driver.month_index anchor - (w - 1) + Z.of_nat k)))
        /\ nth_error (Driver.month_sequence start anchor) 0 = Some start
        /\ nth_error (Driver.month_sequence start anchor) (Z.to_nat (w - 1))
           = Some anchor).
Proof.
  intros Ha.
  assert (D : (1 <? d_day anchor)%Z = false).
  { destruct Ha as [_ ->]. reflexivity. }
  split; [|split].
  - intros Hw. unfold Driver.resolve_window.
    now rewrite (proj2 (Z.leb_le w 0) Hw).
  - intros Hw Hb. unfold Driver.resolve_window.
    destruct (Z.leb_spec w 0) as [L|_]; [lia|]. rewrite D. cbv zeta.
    replace (Driver.month_index anchor + (- (w - 1) + 0))%Z
      with (Driver.month_index anchor - (w - 1))%Z by lia.
    destruct (Z.ltb_spec (d_year (Driver.month_of_index
                                    (Driver.month_index anchor - (w - 1)))) 1)
      as [Y|Y]; [reflexivity|].
    exfalso. apply month_of_index_year in Hb. lia.
  - intros Hw Hb. unfold Driver.resolve_window.
    destruct (Z.leb_spec w 0) as [L|_]; [lia|]. rewrite D. cbv zeta.
    replace (Driver.month_index anchor + (- (w - 1) + 0))%Z
      with (Driver.month_index anchor - (w - 1))%Z by lia.
    destruct (Z.ltb_spec (d_year (Driver.month_of_index
                                    (Driver.month_index anchor - (w - 1)))) 1)
      as [Y|Y]; [apply month_of_index_year in Y; lia|].
    eexists. split; [reflexivity|].
    set (start := Driver.month_of_index (Driver.month_index anchor - (w - 1))).
    unfold Driver.month_sequence.
    rewrite (date_leb_month_starts start anchor (month_of_index_start _) Ha)
      by (unfold start; rewrite month_index_of_index; lia).
    assert (Hs : Driver.month_index start
                 = (Driver.month_index anchor - (w - 1))%Z)
      by apply month_index_of_index.
    rewrite Hs.
    replace (Driver.month_index anchor - (Driver.month_index anchor - (w - 1)))%Z
      with (w - 1)%Z by lia.
    assert (N : forall k, (k < Z.to_nat w)%nat ->
              nth_error
                (start
                 :: map (fun k0 => Driver.month_of_index
                                     (Driver.month_index anchor - (w - 1) + 1
                                      + Z.of_nat k0))
                        (seq 0 (Z.to_nat (w - 1)))) k
              = Some (Driver.month_of_index
                        (Driver.month_index anchor - (w - 1) + Z.of_nat k))).
    { intros [|k] Hk.
      - cbn [nth_error]. unfold start. do 2 f_equal. lia.
      - cbn [nth_error]. rewrite nth_error_map, nth_error_seq.
        destruct (Nat.ltb_spec k (Z.to_nat (w - 1))); [|lia].
        cbn [option_map]. do 2 f_equal. lia. }
    split; [cbn [List.length]; rewrite length_map, length_seq; lia|].
    split.
    { constructor; [apply month_of_index_start|].
      apply Forall_forall. intros d Hd. apply in_map_iff in Hd.
      destruct Hd as [k [<- _]]. apply month_of_index_start. }
    split; [exact N|]. split.
    + reflexivity.
    + rewrite N by lia. f_equal.
      replace (Driver.month_index anchor - (w - 1) + Z.of_nat (Z.to_nat (w - 1)))%Z
        with (Driver.month_index anchor) by lia.
      now apply month_of_index_index.
Qed.

Lemma rolling_window_months_witness :
  Driver.resolve_window Sample.march 0
  = Driver.Raised (Driver.SystemExit "--window-months must be >= 1")
  /\ Driver.resolve_window Sample.march 24280
     = Driver.Raised (Driver.Error "NotImplementedError")
  /\ exists start,
       Driver.resolve_window Sample.march 3 = Driver.Returned (start, Sample.march)
       /\ Z.of_nat (List.length (Driver.month_sequence start Sample.march)) = 3%Z
       /\ Forall month_start_date (Driver.month_sequence start Sample.march)
       /\ (forall k, (k < Z.to_nat 3)%nat ->
             nth_error (Driver.month_sequence start Sample.march) k
             = Some (Driver.month_of_index
                       (Driver.month_index Sample.march - (3 - 1) + Z.of_nat k)))
       /\ nth_error (Driver.month_sequence start Sample.march) 0 = Some start
       /\ nth_error (Driver.month_sequence start Sample.march) (Z.to_nat (3 - 1))
          = Some Sample.march.
Proof.
  assert (H : month_start_date Sample.march)
    by (unfold month_start_date; simpl; lia).
  pose proof (rolling_window_months Sample.march 0 H) as T0.
  pose proof (rolling_window_months Sample.march 24280 H) as T1.
  pose proof (rolling_window_months Sample.march 3 H) as T2.
  split; [apply (proj1 T0); lia|].
  split; [apply (proj1 (proj2 T1)); [lia|vm_compute; reflexivity]|].
  apply (proj2 (proj2 T2)); [lia|vm_compute; discriminate].
Defined.

Lemma is_space_upper (c : ascii) : PyStr.is_space (PyStr.upper_ascii c) = PyStr.is_space c.
Proof. destruct c as [[] [] [] [] [] [] [] []]; reflexivity. Qed.

Lemma upper_ascii_idem (c : ascii) :
  PyStr.upper_ascii (PyStr.upper_ascii c) = PyStr.upper_ascii c.
Proof. destruct c as [[] [] [] [] [] [] [] []]; reflexivity. Qed.

Lemma upper_lower_ascii (c : ascii) :
  PyStr.upper_ascii (PyStr.lower_ascii c) = PyStr.upper_ascii c.
Proof. destruct c as [[] [] [] [] [] [] [] []]; reflexivity. Qed.

Lemma is_space_lower (c : ascii) : PyStr.is_space (PyStr.lower_ascii c) = PyStr.is_space c.
Proof. destruct c as [[] [] [] [] [] [] [] []]; reflexivity. Qed.

Lemma upper_idem (s : string) : PyStr.upper (PyStr.upper s) = PyStr.upper s.
Proof.
  unfold PyStr.upper.
  induction s as [|c s IH]; cbn [PyStr.map_chars]; [reflexivity|].
  now rewrite upper_ascii_idem, IH.
Qed.

Lemma upper_lower (s : string) : PyStr.upper (PyStr.lower s) = PyStr.upper s.
Proof.
  unfold PyStr.upper, PyStr.lower.
  induction s as [|c s IH]; cbn [PyStr.map_chars]; [reflexivity|].
  now rewrite upper_lower_ascii, IH.
Qed.

Lemma map_chars_empty (f : ascii -> ascii) (s : string) :
  (PyStr.map_chars f s =? "") = (s =? "").
Proof. destruct s; reflexivity. Qed.

Section StripMap.

Variable f : ascii -> ascii.
Hypothesis f_space : forall c, PyStr.is_space (f c) = PyStr.is_space c.

Lemma lstrip_map_chars (s : string) :
  PyStr.lstrip (PyStr.map_chars f s) = PyStr.map_chars f (PyStr.lstrip s).
Proof.
  induction s as [|c s IH]; cbn [PyStr.map_chars PyStr.lstrip]; [reflexivity|].
  rewrite f_space. destruct (PyStr.is_space c); [exact IH|reflexivity].
Qed.

Lemma rstrip_map_chars (s : string) :
  PyStr.rstrip (PyStr.map_chars f s) = PyStr.map_chars f (PyStr.rstrip s).
Proof.
  induction s as [|c s IH]; cbn [PyStr.map_chars PyStr.rstrip]; [reflexivity|].
  rewrite f_space, IH, map_chars_empty.
  destruct (PyStr.is_space c && (PyStr.rstrip s =? "")); reflexivity.
Qed.

Lemma strip_map_chars (s : string) :
  PyStr.strip (PyStr.map_chars f s) = PyStr.map_chars f (PyStr.strip s).
Proof.
  unfold PyStr.strip. now rewrite lstrip_map_chars, rstrip_map_chars.
Qed.

End StripMap.

Lemma lstrip_idem (s : string) : PyStr.lstrip (PyStr.lstrip s) = PyStr.lstrip s.
Proof.
  induction s as [|c s IH]; simpl; [reflexivity|].
  destruct (PyStr.is_space c) eqn:E; [exact IH|].
  simpl. now rewrite E.
Qed.

Lemma rstrip_idem (s : string) : PyStr.rstrip (PyStr.rstrip s) = PyStr.rstrip s.
Proof.
  induction s as [|c s IH]; simpl; [reflexivity|].
  destruct (PyStr.is_space c && (PyStr.rstrip s =? "")) eqn:E; [reflexivity|].
  simpl. now rewrite IH, E.
Qed.

(** Trimming on the right leaves a string that is trimmed on the left so. *)
Lemma lstrip_rstrip_lstrip (s : string) :
  PyStr.lstrip (PyStr.rstrip (PyStr.lstrip s)) = PyStr.rstrip (PyStr.lstrip s).
Proof.
  induction s as [|c s IH]; simpl; [reflexivity|].
  destruct (PyStr.is_space c) eqn:E; [exact IH|].
  simpl. rewrite E. simpl. now rewrite E.
Qed.

Lemma strip_idem (s : string) : PyStr.strip (PyStr.strip s) = PyStr.strip s.
Proof.
  unfold PyStr.strip. now rewrite lstrip_rstrip_lstrip, rstrip_idem.
Qed.

Lemma lstrip_blank_prefix (w s : string) :
  all_space w = true -> PyStr.lstrip (w ++ s)%string = PyStr.lstrip s.
Proof.
  induction w as [|c w IH]; simpl; [reflexivity|].
  intros H. apply andb_true_iff in H. destruct H as [Hc Hw].
  now rewrite Hc, IH.
Qed.

Lemma rstrip_blank (w : string) : all_space w = true -> PyStr.rstrip w = "".
Proof.
  induction w as [|c w IH]; simpl; [reflexivity|].
  intros H. apply andb_true_iff in H. destruct H as [Hc Hw].
  now rewrite Hc, IH.
Qed.

Lemma rstrip_blank_suffix (s w : string) :
  all_space w = true -> PyStr.rstrip (s ++ w)%string = PyStr.rstrip s.
Proof.
  intros H. induction s as [|c s IH]; simpl.
  - now apply rstrip_blank.
  - now rewrite IH.
Qed.

Lemma lstrip_append_nonblank (s w : string) :
  PyStr.lstrip s <> "" -> PyStr.lstrip (s ++ w)%string = (PyStr.lstrip s ++ w)%string.
Proof.
  induction s as [|c s IH]; simpl; [congruence|].
  destruct (PyStr.is_space c); [exact IH|reflexivity].
Qed.

Lemma lstrip_blank (w : string) : all_space w = true -> PyStr.lstrip w = "".
Proof.
  induction w as [|c w IH]; simpl; [reflexivity|].
  intros H. apply andb_true_iff in H. destruct H as [Hc Hw].
  now rewrite Hc, IH.
Qed.

Lemma lstrip_empty_all_space (s : string) : PyStr.lstrip s = "" -> all_space s = true.
Proof.
  induction s as [|c s IH]; simpl; [reflexivity|].
  destruct (PyStr.is_space c); [exact IH|discriminate].
Qed.

Lemma all_space_app (a b : string) :
  all_space (a ++ b)%string = all_space a && all_space b.
Proof.
  induction a as [|c a IH]; simpl; [reflexivity|].
  now rewrite IH, andb_assoc.
Qed.

Lemma strip_blank_around (w1 s w2 : string) :
  all_space w1 = true -> all_space w2 = true ->
  PyStr.strip (w1 ++ s ++ w2)%string = PyStr.strip s.
Proof.
  intros H1 H2. unfold PyStr.strip. rewrite (lstrip_blank_prefix _ _ H1).
  destruct (PyStr.lstrip s) eqn:E.
  - pose proof (lstrip_empty_all_space _ E) as A.
    rewrite lstrip_blank by (rewrite all_space_app, A, H2; reflexivity).
    reflexivity.
  - rewrite lstrip_append_nonblank by (rewrite E; discriminate).
    rewrite E. now apply rstrip_blank_suffix.
Qed.

(** X3: normalizing a key twice changes nothing, and keys that differ only
    by letter case or by blanks around them normalize to the same key. *)
Theorem normalize_key_idempotent (c : cell) (s w1 w2 : string) :
  normalize_key1 (CStr (normalize_key1 c)) = normalize_key1 c
  /\ normalize_key (map CStr (normalize_key [c])) = normalize_key [c]
  /\ normalize_key1 (CStr (PyStr.lower s)) = normalize_key1 (CStr s)
  /\ normalize_key1 (CStr (PyStr.upper s)) = normalize_key1 (CStr s)
  /\ (all_space w1 = true -> all_space w2 = true ->
      normalize_key1 (CStr (w1 ++ s ++ w2)%string) = normalize_key1 (CStr s)).
Proof.
  assert (I : forall t, PyStr.upper (PyStr.strip (PyStr.upper (PyStr.strip t)))
                        = PyStr.upper (PyStr.strip t)).
  { intros t. unfold PyStr.upper at 2.
    rewrite (strip_map_chars _ is_space_upper). fold (PyStr.upper (PyStr.strip (PyStr.strip t))).
    now rewrite upper_idem, strip_idem. }
  unfold normalize_key, normalize_key1. simpl.
  split; [apply I|]. split; [now rewrite I|]. split.
  - unfold PyStr.lower. rewrite (strip_map_chars _ is_space_lower).
    apply upper_lower.
  - split.
    + unfold PyStr.upper at 2. rewrite (strip_map_chars _ is_space_upper).
      apply upper_idem.
    + intros H1 H2. now rewrite strip_blank_around.
Qed.

Lemma normalize_key_idempotent_witness :
  normalize_key1 (CStr "  total Casework ") = "TOTAL CASEWORK"
  /\ normalize_key1 (CStr ("  " ++ "d200" ++ " ")%string) = normalize_key1 (CStr "d200").
Proof.
  split; [reflexivity|].
  apply (normalize_key_idempotent CNaN "d200" "  " " "); reflexivity.
Defined.

(** ** Product catalog *)

Lemma replace_division_never (c : cell) : replace_division c <> CStr "Division".
Proof.
  destruct c as [s| | |s]; simpl; try discriminate.
  destruct (String.eqb_spec s "Division") as [->|N]; [discriminate|].
  intros E. inversion E. contradiction.
Qed.

Lemma replace_division_idem (c : cell) :
  replace_division (replace_division c) = replace_division c.
Proof.
  destruct c as [s| | |s]; simpl; try reflexivity.
  destruct (String.eqb_spec s "Division") as [->|N]; simpl; [reflexivity|].
  destruct (String.eqb_spec s "Division"); [contradiction|reflexivity].
Qed.

(** X4: the loaded catalog keeps one entry per sheet row, in order, and
    never holds the label "Division" as a business-unit code or name: in
    these two columns the label becomes "D200" and every other value is
    kept; the five other columns are kept as they are; and loading a loaded
    catalog changes nothing. *)
Theorem load_product_catalog_no_division (sheet : list catalog_row) :
  List.length (load_product_catalog sheet) = List.length sheet
  /\ Forall (fun e => business_unit_code e <> CStr "Division"
                      /\ business_unit_name e <> CStr "Division")
            (load_product_catalog sheet)
  /\ Forall2 (fun e e' =>
                group_key e' = group_key e /\ sku_list e' = sku_list e
                /\ product_family e' = product_family e
                /\ marketing_manager e' = marketing_manager e
                /\ salesforce_feature_mode e' = salesforce_feature_mode e
                /\ (business_unit_code e = CStr "Division" ->
                    business_unit_code e' = CStr "D200")
                /\ (business_unit_code e <> CStr "Division" ->
                    business_unit_code e' = business_unit_code e)
                /\ (business_unit_name e = CStr "Division" ->
                    business_unit_name e' = CStr "D200")
                /\ (business_unit_name e <> CStr "Division" ->
                    business_unit_name e' = business_unit_name e))
             sheet (load_product_catalog sheet)
  /\ load_product_catalog (load_product_catalog sheet) = load_product_catalog sheet.
Proof.
  unfold load_product_catalog. split; [apply length_map|]. split.
  { apply Forall_forall. intros e He. apply in_map_iff in He.
    destruct He as [e0 [<- _]]. simpl. split; apply replace_division_never. }
  split.
  { induction sheet as [|e l IH]; simpl; constructor; [|exact IH].
    simpl. repeat split.
    - intros ->. reflexivity.
    - intros N. destruct (business_unit_code e) as [s| | |s]; simpl; try reflexivity.
      destruct (String.eqb_spec s "Division") as [->|_]; [contradiction|reflexivity].
    - intros ->. reflexivity.
    - intros N. destruct (business_unit_name e) as [s| | |s]; simpl; try reflexivity.
      destruct (String.eqb_spec s "Division") as [->|_]; [contradiction|reflexivity]. }
  rewrite map_map. apply map_ext. intros e. simpl.
  now rewrite !replace_division_idem.
Qed.

Lemma load_product_catalog_no_division_witness :
  Forall2 (fun e e' =>
             group_key e' = group_key e /\ sku_list e' = sku_list e
             /\ product_family e' = product_family e
             /\ marketing_manager e' = marketing_manager e
             /\ salesforce_feature_mode e' = salesforce_feature_mode e
             /\ (business_unit_code e = CStr "Division" ->
                 business_unit_code e' = CStr "D200")
             /\ (business_unit_code e <> CStr "Division" ->
                 business_unit_code e' = business_unit_code e)
             /\ (business_unit_name e = CStr "Division" ->
                 business_unit_name e' = CStr "D200")
             /\ (business_unit_name e <> CStr "Division" ->
                 business_unit_name e' = business_unit_name e))
          [division_entry] (load_product_catalog [division_entry])
  /\ map c_bu_key (load_product_catalog [division_entry]) = ["D200"].
Proof.
  split; [|reflexivity].
  exact (proj1 (proj2 (proj2 (load_product_catalog_no_division [division_entry])))).
Defined.

(** ** Reconciliation joiner: joined, skipped and dropped rows *)

Lemma In_merge_inner_marketing (marketing_df : list marketing_row)
    (catalog_map : list catalog_row) (m : marketing_row) :
  In m (map mr_marketing (merge_inner marketing_df catalog_map))
  <-> In m marketing_df /\ existsb (join_match m) catalog_map = true.
Proof.
  unfold merge_inner. rewrite in_map_iff. split.
  - intros [r [<- Hr]]. apply in_flat_map in Hr. destruct Hr as [m' [Hm Hr]].
    apply in_map_iff in Hr. destruct Hr as [c [<- Hc]]. simpl.
    apply filter_In in Hc. destruct Hc as [Hc J].
    split; [exact Hm|]. apply existsb_exists. eauto.
  - intros [Hm E]. apply existsb_exists in E. destruct E as [c [Hc J]].
    exists (mkMerged m c). split; [reflexivity|].
    apply in_flat_map. exists m. split; [exact Hm|].
    apply in_map. apply filter_In. auto.
Qed.

(** X5: the skipped records are exactly the filtered marketing rows without
    any catalog entry on their normalized (product, BU) key; every other
    marketing row is in the inner join, and no row is in both. *)
Theorem skipped_or_joined (marketing_df : list marketing_row)
    (catalog_map : list catalog_row) (m : marketing_row) :
  In m marketing_df ->
  (In m (skipped_rows marketing_df catalog_map)
   <-> forall c, In c catalog_map -> join_match m c = false)
  /\ (In m (skipped_rows marketing_df catalog_map)
      <-> ~ In m (map mr_marketing (merge_inner marketing_df catalog_map)))
  /\ (In m (skipped_rows marketing_df catalog_map)
      \/ In m (map mr_marketing (merge_inner marketing_df catalog_map))).
Proof.
  intros Hm. unfold skipped_rows.
  rewrite filter_In, In_merge_inner_marketing.
  destruct (existsb (join_match m) catalog_map) eqn:E; simpl.
  - apply existsb_exists in E. destruct E as [c [Hc J]].
    split; [|split].
    + split; [intros [_ F]; discriminate|].
      intros A. rewrite (A c Hc) in J. discriminate.
    + split; [intros [_ F]; discriminate|]. intros N. exfalso. apply N. auto.
    + right. auto.
  - split; [|split].
    + split; [|auto]. intros _ c Hc.
      destruct (join_match m c) eqn:J; [|reflexivity].
      assert (X : existsb (join_match m) catalog_map = true)
        by (apply existsb_exists; eauto).
      congruence.
    + split; [|auto]. intros _ [_ F]. discriminate.
    + left. auto.
Qed.

Lemma skipped_or_joined_witness :
  In (Sample.casework_row "LOC1020")
     (map mr_marketing
          (merge_inner [Sample.casework_row "LOC1020"] Sample.casework_catalog_map))
  /\ ~ In (Sample.casework_row "LOC1020")
          (skipped_rows [Sample.casework_row "LOC1020"] Sample.casework_catalog_map).
Proof.
  pose proof (skipped_or_joined [Sample.casework_row "LOC1020"]
                Sample.casework_catalog_map (Sample.casework_row "LOC1020")
                (or_introl eq_refl)) as [_ [T _]].
  assert (J : In (Sample.casework_row "LOC1020")
     (map mr_marketing
          (merge_inner [Sample.casework_row "LOC1020"] Sample.casework_catalog_map))).
  { vm_compute. left. reflexivity. }
  split; [exact J|]. intros S. exact (proj1 T S J).
Defined.

Lemma casework_split_rows (marketing_df : list marketing_row)
    (catalog_map : list catalog_row) :
  casework_split (merge_inner marketing_df catalog_map)
  = flat_map (fun m => map (mkMerged m) (surviving_matches m catalog_map))
             marketing_df.
Proof.
  unfold casework_split.
  destruct (existsb casework_mask (merge_inner marketing_df catalog_map)) eqn:E.
  - unfold merge_inner. rewrite filter_flat_map.
    apply flat_map_ext. intros m. apply casework_filter_row.
  - unfold merge_inner in *. symmetry.
    induction marketing_df as [|m l IH]; simpl in *; [reflexivity|].
    rewrite existsb_app in E. apply orb_false_iff in E. destruct E as [E1 E2].
    now rewrite (no_mask_no_match _ _ E1), (IH E2).
Qed.

(** X6: the casework rule can drop a marketing row without trace.  A row
    that triggers the rule and has catalog entries on its key, none of them
    of the family mapped from its location, is joined to nothing after the
    rule, and yet it is not among the skipped records. *)
Theorem casework_rule_drops_silently (marketing_df : list marketing_row)
    (catalog_map : list catalog_row) (m : marketing_row) :
  In m marketing_df ->
  triggers_casework m = true ->
  existsb (join_match m) catalog_map = true ->
  (forall c, In c catalog_map -> join_match m c = true ->
             normalize_key1 (group_key c) <> casework_family m) ->
  ~ In m (skipped_rows marketing_df catalog_map)
  /\ ~ In m (map mr_marketing
                 (casework_split (merge_inner marketing_df catalog_map))).
Proof.
  intros Hm T E F. split.
  - unfold skipped_rows. rewrite filter_In, E. intros [_ X]. discriminate.
  - rewrite casework_split_rows, in_map_iff.
    intros [r [<- Hr]]. apply in_flat_map in Hr. destruct Hr as [m' [_ Hr]].
    apply in_map_iff in Hr. destruct Hr as [c [<- Hc]]. simpl in T.
    unfold surviving_matches in Hc. rewrite T in Hc.
    apply filter_In in Hc. destruct Hc as [Hc G].
    apply filter_In in Hc. destruct Hc as [Hc J].
    apply String.eqb_eq in G. exact (F c Hc J G).
Qed.

Lemma casework_rule_drops_silently_witness :
  skipped_rows [Sample.casework_row "LOC1020"]
               [Sample.casework_catalog "Other Casework"] = []
  /\ casework_split (merge_inner [Sample.casework_row "LOC1020"]
                                 [Sample.casework_catalog "Other Casework"]) = []
  /\ ~ In (Sample.casework_row "LOC1020")
          (map mr_marketing
               (casework_split (merge_inner [Sample.casework_row "LOC1020"]
                                  [Sample.casework_catalog "Other Casework"]))).
Proof.
  split; [reflexivity|]. split; [reflexivity|].
  apply (casework_rule_drops_silently [Sample.casework_row "LOC1020"]
           [Sample.casework_catalog "Other Casework"]
           (Sample.casework_row "LOC1020")).
  - left. reflexivity.
  - reflexivity.
  - reflexivity.
  - intros c [<-|[]] _. vm_compute. discriminate.
Defined.

(** ** Sums over groups *)

Lemma fold_left_Qplus_acc (l : list Q) (a : Q) :
  (fold_left Qplus l a == a + fold_left Qplus l 0)%Q.
Proof.
  revert a. induction l as [|x l IH]; intros a; simpl.
  - ring.
  - rewrite (IH (a + x)%Q), (IH (0 + x)%Q). ring.
Qed.

Lemma qsum_cons (x : Q) (l : list Q) : (qsum (x :: l) == x + qsum l)%Q.
Proof.
  unfold qsum. simpl. rewrite fold_left_Qplus_acc. ring.
Qed.

Lemma qsum_nil : qsum [] = 0%Q.
Proof. reflexivity. Qed.

Lemma qsum_app (l1 l2 : list Q) : (qsum (l1 ++ l2) == qsum l1 + qsum l2)%Q.
Proof.
  induction l1 as [|x l1 IH]; simpl.
  - rewrite qsum_nil. ring.
  - rewrite !qsum_cons, IH. ring.
Qed.

Lemma qsum_nonneg (l : list Q) : Forall (fun q => 0 <= q)%Q l -> (0 <= qsum l)%Q.
Proof.
  induction 1 as [|x l Hx _ IH].
  - rewrite qsum_nil. apply Qle_refl.
  - rewrite qsum_cons.
    apply (Qle_trans _ (0 + 0)%Q); [discriminate|now apply Qplus_le_compat].
Qed.

Section GroupSums.

Context {R K : Type} `{GroupKey K}.
Hypothesis same_refl : forall a : K, same_key a a = true.
Hypothesis same_sym : forall a b : K, same_key a b = same_key b a.
Hypothesis same_trans :
  forall a b c : K, same_key a b = true -> same_key b c = true -> same_key a c = true.

Variable key : R -> K.
Variable f : R -> Q.

(** How many of the keys [ks] a key falls under. *)
Lemma matches_insert_by (leb : K -> K -> bool) (x a : K) (l : list K) :
  List.length (filter (same_key x) (insert_by leb a l))
  = List.length (filter (same_key x) (a :: l)).
Proof.
  induction l as [|y l IH]; [reflexivity|].
  cbn [insert_by]. destruct (leb a y); [reflexivity|].
  cbn [filter] in *. destruct (same_key x y), (same_key x a);
    cbn [List.length] in *; lia.
Qed.

Lemma matches_sort_by (leb : K -> K -> bool) (x : K) (l : list K) :
  List.length (filter (same_key x) (sort_by leb l))
  = List.length (filter (same_key x) l).
Proof.
  unfold sort_by. induction l as [|a l IH]; [reflexivity|].
  cbn [fold_right]. rewrite matches_insert_by.
  cbn [filter]. destruct (same_key x a); cbn [List.length]; now rewrite IH.
Qed.

Lemma matches_dedup (x : K) (l : list K) :
  List.length (filter (same_key x) (dedup l))
  = if existsb (same_key x) l then 1%nat else 0%nat.
Proof.
  induction l as [|k l IH]; [reflexivity|].
  cbn [dedup filter existsb].
  destruct (same_key x k) eqn:E; cbn [orb List.length].
  - f_equal. rewrite filter_filter_and.
    rewrite (filter_ext _ (fun _ => false)); [now rewrite filter_false|]. (* *)
    intros y. destruct (same_key k y) eqn:Eky; [reflexivity|]. simpl.
    destruct (same_key x y) eqn:Exy; [|reflexivity].
    rewrite same_sym in E. rewrite (same_trans k x y E Exy) in Eky. discriminate.
  - rewrite <- IH. f_equal. rewrite filter_filter_and. apply filter_ext.
    intros y. destruct (same_key x y) eqn:Exy; [|now rewrite andb_false_r].
    rewrite andb_true_r. destruct (same_key k y) eqn:Eky; [|reflexivity].
    rewrite (same_sym k y) in Eky. rewrite (same_trans x y k Exy Eky) in E.
    discriminate.
Qed.

(** Every row falls under exactly one of the group keys of its frame. *)
Lemma one_group_per_row (rows : list R) (r : R) :
  In r rows ->
  List.length (filter (same_key (key r)) (sort_by key_leb (dedup (map key rows))))
  = 1%nat.
Proof.
  intros Hr. rewrite matches_sort_by, matches_dedup.
  assert (E : existsb (same_key (key r)) (map key rows) = true).
  { apply existsb_exists. exists (key r). split; [now apply in_map|apply same_refl]. }
  now rewrite E.
Qed.

Lemma group_sums_cons (ks : list K) (r : R) (rows : list R) :
  (qsum (map (fun k => qsum (map f (filter (fun x => same_key (key x) k) (r :: rows)))) ks)
   == inject_Z (Z.of_nat (List.length (filter (same_key (key r)) ks))) * f r
      + qsum (map (fun k => qsum (map f (filter (fun x => same_key (key x) k) rows))) ks))%Q.
Proof.
  induction ks as [|k ks IH].
  - cbn. ring.
  - cbn [map filter]. rewrite !qsum_cons, IH.
    destruct (same_key (key r) k); cbn [map List.length].
    + rewrite qsum_cons, Nat2Z.inj_succ. unfold Z.succ. rewrite inject_Z_plus. ring.
    + ring.
Qed.

Lemma group_sums_total (ks : list K) (rows : list R) :
  (forall r, In r rows -> List.length (filter (same_key (key r)) ks) = 1%nat) ->
  (qsum (map (fun k => qsum (map f (filter (fun x => same_key (key x) k) rows))) ks)
   == qsum (map f rows))%Q.
Proof.
  induction rows as [|r rows IH]; intros One.
  - clear One. cbn [filter map]. change (qsum []) with 0%Q.
    induction ks as [|k ks IHk]; [reflexivity|].
    cbn [map]. rewrite qsum_cons, IHk. change (qsum []) with 0%Q. ring.
  - rewrite group_sums_cons, (One r (or_introl eq_refl)).
    cbn [map]. rewrite qsum_cons, IH; [ring|].
    intros x Hx. apply One. now right.
Qed.

(** Grouping, summing each group and adding the sums gives the sum over
    the frame. *)
Lemma groupby_sums_total (rows : list R) :
  (qsum (map (fun kg => qsum (map f (snd kg))) (groupby key rows))
   == qsum (map f rows))%Q.
Proof.
  unfold groupby. rewrite map_map. cbn [snd].
  apply group_sums_total. intros r Hr. now apply one_group_per_row.
Qed.

End GroupSums.

Lemma cell_same_refl (a : cell) : same_key a a = true.
Proof. destruct a; simpl; auto using String.eqb_refl. Qed.

Lemma cell_same_sym (a b : cell) : same_key a b = same_key b a.
Proof. destruct a, b; simpl; auto using String.eqb_sym. Qed.

Lemma cell_same_trans (a b c : cell) :
  same_key a b = true -> same_key b c = true -> same_key a c = true.
Proof.
  destruct a, b, c; simpl; try congruence;
    rewrite ?String.eqb_eq; congruence.
Qed.

Lemma string_same_trans (a b c : string) :
  same_key a b = true -> same_key b c = true -> same_key a c = true.
Proof. simpl. rewrite !String.eqb_eq. congruence. Qed.

Section PairKeys.

Context {A B : Type} `{GroupKey A} `{GroupKey B}.
Hypothesis reflA : forall a : A, same_key a a = true.
Hypothesis reflB : forall b : B, same_key b b = true.
Hypothesis symA : forall a b : A, same_key a b = same_key b a.
Hypothesis symB : forall a b : B, same_key a b = same_key b a.
Hypothesis transA :
  forall a b c : A, same_key a b = true -> same_key b c = true -> same_key a c = true.
Hypothesis transB :
  forall a b c : B, same_key a b = true -> same_key b c = true -> same_key a c = true.

Lemma pair_same_refl (x : A * B) : same_key x x = true.
Proof. simpl. now rewrite reflA, reflB. Qed.

Lemma pair_same_sym (x y : A * B) : same_key x y = same_key y x.
Proof. simpl. now rewrite symA, symB. Qed.

Lemma pair_same_trans (x y z : A * B) :
  same_key x y = true -> same_key y z = true -> same_key x z = true.
Proof.
  simpl. rewrite !andb_true_iff. intros [X1 X2] [Y1 Y2].
  split; [eapply transA|eapply transB]; eassumption.
Qed.

End PairKeys.

Lemma agg_key_same_refl (x : cell * cell * cell * cell * cell * string) :
  same_key x x = true.
Proof.
  apply pair_same_refl; [|apply String.eqb_refl].
  apply pair_same_refl; [|apply cell_same_refl].
  apply pair_same_refl; [|apply cell_same_refl].
  apply pair_same_refl; [|apply cell_same_refl].
  apply pair_same_refl; apply cell_same_refl.
Qed.

Lemma agg_key_same_sym (x y : cell * cell * cell * cell * cell * string) :
  same_key x y = same_key y x.
Proof.
  apply pair_same_sym; [|apply String.eqb_sym].
  apply pair_same_sym; [|apply cell_same_sym].
  apply pair_same_sym; [|apply cell_same_sym].
  apply pair_same_sym; [|apply cell_same_sym].
  apply pair_same_sym; apply cell_same_sym.
Qed.

Lemma agg_key_same_trans (x y z : cell * cell * cell * cell * cell * string) :
  same_key x y = true -> same_key y z = true -> same_key x z = true.
Proof.
  apply pair_same_trans; [|apply string_same_trans].
  apply pair_same_trans; [|apply cell_same_trans].
  apply pair_same_trans; [|apply cell_same_trans].
  apply pair_same_trans; [|apply cell_same_trans].
  apply pair_same_trans; apply cell_same_trans.
Qed.

Lemma key_pair_same_refl (x : key_pair) : same_key x x = true.
Proof. apply pair_same_refl; apply String.eqb_refl. Qed.

Lemma key_pair_same_sym (x y : key_pair) : same_key x y = same_key y x.
Proof. apply pair_same_sym; apply String.eqb_sym. Qed.

Lemma key_pair_same_trans (x y z : key_pair) :
  same_key x y = true -> same_key y z = true -> same_key x z = true.
Proof. apply pair_same_trans; apply string_same_trans. Qed.

(** X7: rolling up loses nothing.  The marketing forecasts of the rollup
    rows add up to those of the joined rows; the actuals of the actuals
    rollup add up to those of the month's actuals rows; and the forecasts
    of a statistical subset rollup add up to those of the subset's rows,
    nulls counting as zero. *)
Theorem rollups_preserve_totals (merged : list merged_row)
    (actuals_df : list actuals_row) (stats_rows : list stats_row) (m : date) :
  (qsum (map ag_Marketing_Fcast (marketing_rollup merged))
   == qsum (map mr_Marketing_Fcast merged))%Q
  /\ (qsum (map snd (actuals_rollup actuals_df m))
      == sum_skipna (map a_Actuals
                         (filter (fun a => same_month (a_Month a) m) actuals_df)))%Q
  /\ (qsum (map snd (stats_subset_rollup stats_rows))
      == sum_skipna (map forecast_value stats_rows))%Q.
Proof.
  split; [|split].
  - unfold marketing_rollup. rewrite map_map.
    rewrite (map_ext _ (fun kg => qsum (map mr_Marketing_Fcast (snd kg)))).
    + apply groupby_sums_total;
        [apply agg_key_same_refl|apply agg_key_same_sym|apply agg_key_same_trans].
    + intros [[[[[[gk bc] bn] pf] mm] u] g]. reflexivity.
  - unfold actuals_rollup, sum_skipna. rewrite !map_map. cbn [snd].
    rewrite (map_ext _ (fun kg => qsum (map (fun a => fillna0 (a_Actuals a)) (snd kg))))
      by (intros kg; now rewrite map_map).
    apply groupby_sums_total;
      [apply key_pair_same_refl|apply key_pair_same_sym|apply key_pair_same_trans].
  - unfold stats_subset_rollup, sum_skipna. rewrite !map_map. cbn [snd].
    rewrite (map_ext _ (fun kg => qsum (map (fun a => fillna0 (forecast_value a)) (snd kg))))
      by (intros kg; now rewrite map_map).
    apply groupby_sums_total;
      [apply key_pair_same_refl|apply key_pair_same_sym|apply key_pair_same_trans].
Qed.

(** ** Rollup lookups and the final left joins *)

Lemma groupby_rollup_keys_NoDup {R V : Type} (key : R -> key_pair)
    (f : list R -> V) (rows : list R) :
  NoDup (map fst (map (fun kg => (fst kg, f (snd kg))) (groupby key rows))).
Proof.
  unfold groupby. rewrite !map_map. cbn [fst]. rewrite map_id.
  apply NoDup_sort_by, NoDup_dedup_keys.
Qed.

Lemma actuals_rollup_keys_NoDup (actuals_df : list actuals_row) (m : date) :
  NoDup (map fst (actuals_rollup actuals_df m)).
Proof.
  unfold actuals_rollup.
  apply (groupby_rollup_keys_NoDup actuals_key
           (fun g => sum_skipna (map a_Actuals g))).
Qed.

Lemma stats_rollup_keys_NoDup (stats_df : list stats_row) (m : date) :
  NoDup (map fst (stats_rollup stats_df m)).
Proof.
  unfold stats_rollup, merge_outer. rewrite !map_map.
  erewrite map_ext; [|intros a; reflexivity]. cbn [fst]. rewrite map_id.
  apply NoDup_sort_by, NoDup_dedup_keys.
Qed.

(** X8: the actuals rollup holds, for a normalized (product, division) key,
    the sum of the month's actuals of that key, nulls counting as zero; it
    has a row for the key exactly when the month has an actuals row of that
    key, and one row at most. *)
Theorem actuals_rollup_lookup (actuals_df : list actuals_row) (m : date)
    (k : key_pair) :
  let rows := filter (fun a => same_key (actuals_key a) k)
                     (filter (fun a => same_month (a_Month a) m) actuals_df) in
  rollup_lookup k (actuals_rollup actuals_df m)
  = (if is_empty rows then None else Some (sum_skipna (map a_Actuals rows)))
  /\ NoDup (map fst (actuals_rollup actuals_df m)).
Proof.
  cbv zeta. split; [|apply actuals_rollup_keys_NoDup].
  unfold actuals_rollup.
  rewrite (rollup_lookup_groupby key_pair_same_key actuals_key
             (fun g => sum_skipna (map a_Actuals g))).
  rewrite existsb_filter_empty.
  destruct (is_empty _); reflexivity.
Qed.

Lemma In_stats_rollup_lookup (stats_df : list stats_row) (m : date)
    (k : key_pair) (v : option Q) :
  In (k, v) (stats_rollup stats_df m) ->
  existsb (fun s => same_key (stats_key s) k)
          (stats_blend (stats_in_month stats_df m))
  || existsb (fun s => same_key (stats_key s) k)
             (stats_fallback (stats_in_month stats_df m)) = true
  /\ v = coalesce_blend
           (rollup_lookup k (stats_subset_rollup
                               (stats_blend (stats_in_month stats_df m))))
           (rollup_lookup k (stats_subset_rollup
                               (stats_fallback (stats_in_month stats_df m)))).
Proof.
  unfold stats_rollup, merge_outer. cbv zeta. rewrite map_map, in_map_iff.
  intros [k' [E Hk]]. inversion E; subst. clear E. split; [|reflexivity].
  apply (proj1 (In_sort_by _ _ _)) in Hk.
  apply (proj1 (In_dedup key_pair_same_key _ _)) in Hk.
  apply (proj2 (existsb_same_key key_pair_same_key _ _)) in Hk.
  rewrite existsb_app in Hk. rewrite !stats_subset_key_present in Hk. exact Hk.
Qed.

(** X9: the statistical rollup never holds a null forecast: each of its
    rows carries the sum of a non-empty set of rows, so the zero-fill of
    the final join only ever fills keys that have no row at all. *)
Theorem stats_rollup_never_null (stats_df : list stats_row) (m : date)
    (k : key_pair) (v : option Q) :
  In (k, v) (stats_rollup stats_df m) ->
  exists q, v = Some q.
Proof.
  intros H. apply In_stats_rollup_lookup in H. destruct H as [E ->].
  rewrite !rollup_lookup_stats_subset.
  apply orb_true_iff in E. destruct E as [E|E].
  - rewrite E. eexists; reflexivity.
  - destruct (existsb _ (stats_blend _)); [eexists; reflexivity|].
    rewrite E. eexists; reflexivity.
Qed.

Lemma stats_rollup_never_null_witness :
  In (("P2", "D100"), Some 7%Q) (stats_rollup Sample.stats_df Sample.march)
  /\ exists q, Some 7%Q = Some q.
Proof.
  assert (H : In (("P2", "D100"), Some 7%Q)
                 (stats_rollup Sample.stats_df Sample.march)).
  { vm_compute. right. left. reflexivity. }
  split; [exact H|].
  exact (stats_rollup_never_null _ _ _ _ H).
Defined.

Lemma filter_unique_key {V : Type} (k : key_pair) (l : list (key_pair * V)) :
  NoDup (map fst l) ->
  filter (fun e => same_key (fst e) k) l
  = match find (fun e => same_key (fst e) k) l with
    | Some e => [e]
    | None => []
    end.
Proof.
  induction l as [|e l IH]; [reflexivity|].
  cbn [map filter find]. intros D. inversion D as [|x xs Hn Hd]; subst.
  destruct (same_key (fst e) k) eqn:E.
  - f_equal. apply key_pair_same_key in E.
    rewrite (filter_ext_in _ (fun _ => false)); [now rewrite filter_false|].
    intros e' He. destruct (same_key (fst e') k) eqn:E'; [|reflexivity].
    exfalso. apply key_pair_same_key in E'.
    apply Hn. rewrite E, <- E'. now apply in_map.
  - now apply IH.
Qed.

Lemma merge_left_unique {R V : Type} (key : R -> key_pair) (left : list R)
    (right : list (key_pair * V)) :
  NoDup (map fst right) ->
  merge_left key left right
  = map (fun l => (l, rollup_lookup (key l) right)) left.
Proof.
  intros D. unfold merge_left.
  rewrite (flat_map_ext _ (fun l => [(l, rollup_lookup (key l) right)])).
  - induction left as [|l left IH]; simpl; congruence.
  - intros l. rewrite (filter_unique_key _ _ D). unfold rollup_lookup.
    destruct (find _ right); reflexivity.
Qed.

Lemma final_join_rows (m : date) (agg : list agg_row)
    (ar : list (key_pair * Q)) (sr : list (key_pair * option Q)) :
  NoDup (map fst ar) -> NoDup (map fst sr) ->
  final_join m agg ar sr
  = map (fun a => reconciled m a (rollup_lookup (agg_key a) ar)
                             (join_null (rollup_lookup (agg_key a) sr)))
        agg.
Proof.
  intros Da Ds. unfold final_join.
  rewrite (merge_left_unique agg_key agg ar Da).
  rewrite (merge_left_unique (fun x => agg_key (fst x)) _ sr Ds).
  rewrite !map_map. reflexivity.
Qed.

(** X10: the reconciled records are the marketing rollup rows, one for one
    and in the same order: the two left joins neither drop nor repeat a
    row, each record takes its actuals and its statistical forecast from
    the one rollup row of its key, and so the raw frame adds up to the
    whole joined marketing forecast. *)
Theorem reconciled_one_per_rollup_row (marketing_df : list marketing_row)
    (catalog_df : list catalog_row) (stats_df : list stats_row)
    (actuals_df : list actuals_row) (m : date) :
  let d := build_raw_data marketing_df catalog_df stats_df actuals_df m in
  rd_raw d
  = map (fun a => reconciled m a (rollup_lookup (agg_key a) (rd_actuals_rollup d))
                             (join_null (rollup_lookup (agg_key a) (rd_stats_rollup d))))
        (rd_agg d)
  /\ List.length (rd_raw d) = List.length (rd_agg d)
  /\ map r_Product (rd_raw d) = map ag_group_key (rd_agg d)
  /\ map r_Division (rd_raw d) = map ag_business_unit_code (rd_agg d)
  /\ (qsum (map r_Marketing_Fcast (rd_raw d))
      == qsum (map mr_Marketing_Fcast (rd_marketing_detail d)))%Q.
Proof.
  cbv zeta. unfold build_raw_data. cbn [rd_raw rd_agg rd_actuals_rollup
    rd_stats_rollup rd_marketing_detail].
  rewrite (final_join_rows m _ _ _ (actuals_rollup_keys_NoDup actuals_df m)
             (stats_rollup_keys_NoDup stats_df m)).
  split; [reflexivity|]. split; [apply length_map|].
  split; [now rewrite map_map|]. split; [now rewrite map_map|].
  rewrite map_map. cbn [reconciled r_Marketing_Fcast fillna0].
  unfold marketing_rollup. rewrite map_map.
  rewrite (map_ext _ (fun kg => qsum (map mr_Marketing_Fcast (snd kg)))).
  - apply groupby_sums_total;
      [apply agg_key_same_refl|apply agg_key_same_sym|apply agg_key_same_trans].
  - intros [[[[[[gk bc] bn] pf] mm] u] g]. reflexivity.
Qed.

(** ** Signs of the errors *)

Lemma dashboards_records (raw : list raw_row) (rec : dash_record) :
  In rec (dashboards raw) ->
  metric_record rec (sums_of (grain_rows raw rec)).
Proof.
  unfold dashboards. rewrite !in_app_iff.
  intros [H|[H|[H|[H|H]]]].
  - now apply totals_records.
  - now apply prod_fam_records.
  - now apply prod_fam_wape_records.
  - now apply marketing_manager_records.
  - now apply product_records.
Qed.

Lemma reconciled_abs_errors (m : date) (a : agg_row) (act fc : option Q) :
  (0 <= r_Stats_Abs_Error (reconciled m a act fc))%Q
  /\ (0 <= r_Marketing_Abs_Error (reconciled m a act fc))%Q.
Proof. split; apply Qabs_nonneg. Qed.

Lemma final_join_abs_errors (m : date) (agg : list agg_row)
    (ar : list (key_pair * Q)) (sr : list (key_pair * option Q)) (r : raw_row) :
  In r (final_join m agg ar sr) ->
  r_Month r = m /\ r_sku r = ""
  /\ (0 <= r_Stats_Abs_Error r)%Q /\ (0 <= r_Marketing_Abs_Error r)%Q.
Proof.
  intros H. apply In_final_join in H.
  destruct H as [a [act [fc [_ [-> _]]]]].
  split; [reflexivity|]. split; [reflexivity|]. apply reconciled_abs_errors.
Qed.

Lemma ratio_nonneg (e a : Q) : (0 <= e)%Q -> (0 < a)%Q -> (0 <= e / a)%Q.
Proof.
  intros He Ha. apply Qle_shift_div_l; [exact Ha|].
  now rewrite Qmult_0_l.
Qed.

(** X11: every reconciled record is dated with the report month, has an
    empty sku and nonnegative absolute errors; hence the WAPE of any
    dashboard grain with positive actuals is a nonnegative number, on both
    sides. *)
Theorem wape_nonnegative (marketing_df : list marketing_row)
    (catalog_df : list catalog_row) (stats_df : list stats_row)
    (actuals_df : list actuals_row) (m : date) (rec : dash_record) :
  let raw := rd_raw (build_raw_data marketing_df catalog_df stats_df actuals_df m) in
  Forall (fun r => r_Month r = m /\ r_sku r = ""
                   /\ (0 <= r_Stats_Abs_Error r)%Q
                   /\ (0 <= r_Marketing_Abs_Error r)%Q) raw
  /\ (In rec (dashboards raw) ->
      dr_Metric rec = WAPE ->
      (0 < actuals_sum (sums_of (grain_rows raw rec)))%Q ->
      exists vs vm,
        dr_Stats_Model rec = Some vs /\ dr_Marketing rec = Some vm
        /\ (0 <= vs)%Q /\ (0 <= vm)%Q).
Proof.
  cbv zeta.
  assert (F : Forall (fun r => r_Month r = m /\ r_sku r = ""
                   /\ (0 <= r_Stats_Abs_Error r)%Q
                   /\ (0 <= r_Marketing_Abs_Error r)%Q)
                (rd_raw (build_raw_data marketing_df catalog_df stats_df actuals_df m))).
  { apply Forall_forall. intros r Hr. unfold build_raw_data in Hr.
    cbn [rd_raw] in Hr. now apply final_join_abs_errors in Hr. }
  split; [exact F|].
  intros Hin Hm Ha. apply dashboards_records in Hin.
  destruct Hin as [[E _]|[_ [Hs Hk]]]; [rewrite Hm in E; discriminate E|].
  assert (N : ~ (actuals_sum (sums_of (grain_rows
                   (rd_raw (build_raw_data marketing_df catalog_df stats_df actuals_df m))
                   rec)) == 0)%Q).
  { intros Z. rewrite Z in Ha. discriminate Ha. }
  unfold stats_wape, mkt_wape in *.
  rewrite (safe_ratio_nonzero _ _ N) in Hs. rewrite (safe_ratio_nonzero _ _ N) in Hk.
  do 2 eexists. split; [exact Hs|]. split; [exact Hk|].
  assert (G : Forall (fun r => (0 <= r_Stats_Abs_Error r)%Q
                               /\ (0 <= r_Marketing_Abs_Error r)%Q)
                (grain_rows
                   (rd_raw (build_raw_data marketing_df catalog_df stats_df actuals_df m))
                   rec)).
  { apply Forall_forall. intros r Hr. unfold grain_rows in Hr.
    apply filter_In in Hr. destruct Hr as [Hr _].
    rewrite Forall_forall in F. destruct (F r Hr) as [_ [_ P]]. exact P. }
  split; (apply ratio_nonneg; [|exact Ha]); apply qsum_nonneg;
    apply Forall_forall; intros q Hq; apply in_map_iff in Hq;
    destruct Hq as [r [<- Hr]]; rewrite Forall_forall in G;
    destruct (G r Hr); assumption.
Qed.

Lemma wape_nonnegative_witness :
  In bu_wape_record (dashboards Sample.reconciled_df)
  /\ exists vs vm,
       dr_Stats_Model bu_wape_record = Some vs
       /\ dr_Marketing bu_wape_record = Some vm
       /\ (0 <= vs)%Q /\ (0 <= vm)%Q.
Proof.
  assert (H : In bu_wape_record (dashboards Sample.reconciled_df)).
  { vm_compute. right. left. reflexivity. }
  split; [exact H|].
  apply (proj2 (wape_nonnegative Sample.marketing_df Sample.catalog_df []
                  Sample.actuals_df Sample.march bu_wape_record) H);
    reflexivity.
Defined.

(** ** Unit types *)

Lemma flat_map_ext_In {A B : Type} (f g : A -> list B) (l : list A) :
  (forall a, In a l -> f a = g a) -> flat_map f l = flat_map g l.
Proof.
  induction l as [|a l IH]; intros E; simpl; [reflexivity|].
  rewrite (E a (or_introl eq_refl)), IH; [reflexivity|].
  intros b Hb. apply E. now right.
Qed.

Lemma unit_df_known (raw : list raw_row) (u : string) :
  In u unit_types -> unit_df (filter known_units raw) u = unit_df raw u.
Proof.
  intros Hu. unfold unit_df. rewrite filter_filter_and. apply filter_ext.
  intros r. unfold known_units.
  destruct Hu as [<-|[<-|[]]];
    destruct (r_Units r =? "quantity"), (r_Units r =? "dollars"); reflexivity.
Qed.

Lemma unit_df_unknown (raw : list raw_row) (u : string) :
  In u unit_types -> filter known_units raw = [] -> unit_df raw u = [].
Proof.
  intros Hu E. rewrite <- (unit_df_known raw u Hu), E. reflexivity.
Qed.


Ltac by_unit_types :=
  apply flat_map_ext_In; intros u Hu; cbv zeta;
  rewrite (unit_df_known _ u Hu); reflexivity.

Lemma totals_known_units (raw : list raw_row) :
  build_totals_dashboard (filter known_units raw) = build_totals_dashboard raw.
Proof. unfold build_totals_dashboard. by_unit_types. Qed.

Lemma prod_fam_known_units (raw : list raw_row) :
  build_prod_fam_dashboard (filter known_units raw) = build_prod_fam_dashboard raw.
Proof. unfold build_prod_fam_dashboard. by_unit_types. Qed.

Lemma prod_fam_wape_known_units (raw : list raw_row) :
  build_prod_fam_wape_dashboard (filter known_units raw)
  = build_prod_fam_wape_dashboard raw.
Proof. unfold build_prod_fam_wape_dashboard. by_unit_types. Qed.

Lemma marketing_manager_known_units (raw : list raw_row) :
  build_marketing_manager_dashboard (filter known_units raw)
  = build_marketing_manager_dashboard raw.
Proof. unfold build_marketing_manager_dashboard. by_unit_types. Qed.

Lemma product_known_units (raw : list raw_row) :
  build_product_dashboard (filter known_units raw) = build_product_dashboard raw.
Proof. unfold build_product_dashboard. by_unit_types. Qed.

(** X12: a reconciled record whose unit type is neither "quantity" nor
    "dollars" (for instance one whose catalog entry has no feature mode)
    reaches no dashboard and no trend row: the five dashboard frames and
    the month's trend rows are those of the frame without such records. *)
Theorem only_known_units_are_reported (raw : list raw_row) (m : date) :
  dashboards (filter known_units raw) = dashboards raw
  /\ Trend.build_month_trend_rows (filter known_units raw) m
     = Trend.build_month_trend_rows raw m
  /\ (filter known_units raw = [] ->
      dashboards raw = [] /\ Trend.build_month_trend_rows raw m = []).
Proof.
  assert (D : dashboards (filter known_units raw) = dashboards raw).
  { unfold dashboards.
    now rewrite totals_known_units, prod_fam_known_units,
      prod_fam_wape_known_units, marketing_manager_known_units,
      product_known_units. }
  assert (T : Trend.build_month_trend_rows (filter known_units raw) m
              = Trend.build_month_trend_rows raw m).
  { unfold Trend.build_month_trend_rows. by_unit_types. }
  split; [exact D|]. split; [exact T|].
  intros E. rewrite <- D, <- T, E. split; reflexivity.
Qed.

Lemma only_known_units_are_reported_witness :
  dashboards [mkRaw (CStr "FAM9") (CStr "D100") Sample.march "" (CStr "Family 9")
                    "nan" 5%Q 5%Q 5%Q 0%Q 0%Q (CStr "Medical") (CStr "Pat")] = [].
Proof.
  apply (proj2 (proj2 (only_known_units_are_reported
           [mkRaw (CStr "FAM9") (CStr "D100") Sample.march "" (CStr "Family 9")
                  "nan" 5%Q 5%Q 5%Q 0%Q 0%Q (CStr "Medical") (CStr "Pat")]
           Sample.march))).
  reflexivity.
Defined.

(** ** Winners *)

Lemma float_lt_swap (x y : Q) :
  Qeq_bool x y = false ->
  negb (Qle_bool x y) = negb (negb (Qle_bool y x)).
Proof.
  intros N. rewrite negb_involutive.
  destruct (Qle_bool x y) eqn:A, (Qle_bool y x) eqn:B; try reflexivity.
  - apply Qle_bool_iff in A, B.
    pose proof (Qle_antisym _ _ A B) as E. apply Qeq_bool_iff in E. congruence.
  - exfalso.
    destruct (Qlt_le_dec x y) as [L|L].
    + apply Qlt_le_weak in L. apply Qle_bool_iff in L. congruence.
    + apply Qle_bool_iff in L. congruence.
Qed.

(** X13: on two numbers the highlighted cell is the cell of the labelled
    winner, in every mode, and nothing is highlighted on a tie; a [None] on
    either side gives no label and no highlight; and exchanging the two
    sides exchanges the winner. *)
Theorem highlight_follows_label (s m : Q) (v : xl_value) (mode : winner_mode) :
  highlight_winner (XNum s) (XNum m) mode
  = cell_of_label (winner_label (XNum s) (XNum m) mode)
  /\ winner_label (XNum m) (XNum s) mode
     = swap_label (winner_label (XNum s) (XNum m) mode)
  /\ (winner_label XNone v mode = "" /\ winner_label v XNone mode = ""
      /\ highlight_winner XNone v mode = None
      /\ highlight_winner v XNone mode = None).
Proof.
  split; [|split].
  - unfold highlight_winner, winner_label. cbn [to_float].
    destruct (float_eq (Some s) (Some m)); [reflexivity|].
    destruct mode.
    + cbv zeta. destruct (float_eq _ _); [reflexivity|].
      destruct (float_lt _ _); reflexivity.
    + destruct (float_lt _ _); reflexivity.
    + destruct (float_lt _ _); reflexivity.
  - unfold winner_label. cbn [float_eq float_lt float_dist1 option_map].
    rewrite (Qeq_bool_comm m s).
    destruct (Qeq_bool s m) eqn:E; [reflexivity|].
    destruct mode.
    + cbv zeta. rewrite (Qeq_bool_comm (Qabs (m - 1)) (Qabs (s - 1))).
      destruct (Qeq_bool (Qabs (s - 1)) (Qabs (m - 1))) eqn:D; [reflexivity|].
      rewrite (float_lt_swap _ _ D).
      destruct (Qle_bool (Qabs (m - 1)) (Qabs (s - 1))); reflexivity.
    + rewrite (float_lt_swap _ _ E).
      destruct (Qle_bool m s); reflexivity.
    + rewrite (Qeq_bool_comm s m) in E. rewrite (float_lt_swap _ _ E).
      destruct (Qle_bool s m); reflexivity.
  - repeat split; try reflexivity; destruct v; reflexivity.
Qed.

(** X14: [highlight_winner] does not turn a NaN away.  When one cell holds
    NaN and the other is not empty, it fills the marketing cell, in every
    mode and whichever side the NaN is on, although [winner_label] names no
    winner there. *)
Theorem highlight_on_nan (v : xl_value) (mode : winner_mode) :
  v <> XNone ->
  highlight_winner XNaN v mode = Some MarketingCell
  /\ highlight_winner v XNaN mode = Some MarketingCell
  /\ winner_label XNaN v mode = ""
  /\ winner_label v XNaN mode = "".
Proof.
  intros N. destruct v as [| |q]; [contradiction| |];
    destruct mode; repeat split; reflexivity.
Qed.

Lemma highlight_on_nan_witness :
  highlight_winner (XNum (5 # 6)) XNaN closest_to_one = Some MarketingCell
  /\ winner_label (XNum (5 # 6)) XNaN closest_to_one = "".
Proof.
  destruct (highlight_on_nan (XNum (5 # 6)) closest_to_one) as [_ [H [_ L]]];
    [discriminate|].
  split; [exact H|exact L].
Defined.

(** ** The data-quality gate *)

Lemma failed_counts_split (checks : list Driver.check) :
  (Driver.critical_failed checks + Driver.warning_failed checks
   <= Driver.checks_failed checks <= List.length checks)%nat
  /\ (Forall (fun c => Driver.severity c = "critical"
                       \/ Driver.severity c = "warning") checks ->
      (Driver.critical_failed checks + Driver.warning_failed checks
       = Driver.checks_failed checks)%nat).
Proof.
  unfold Driver.critical_failed, Driver.warning_failed, Driver.checks_failed.
  split.
  - induction checks as [|c l IH]; [simpl; lia|].
    cbn [filter List.length].
    destruct (Driver.passed c); cbn [negb orb List.length]; [lia|].
    destruct (String.eqb_spec (Driver.severity c) "critical") as [E|N];
      cbn [negb List.length].
    + rewrite E. cbn [String.eqb negb List.length]. simpl. lia.
    + destruct (Driver.severity c =? "warning"); cbn [negb List.length]; lia.
  - induction 1 as [|c l Hc _ IH]; [reflexivity|].
    cbn [filter List.length].
    destruct (Driver.passed c); cbn [negb orb List.length]; [exact IH|].
    destruct Hc as [E|E]; rewrite E; simpl; lia.
Qed.

(** X15: of the failed checks, those of severity critical and those of
    severity warning are counted apart and never twice, so their counts add
    up to at most the number of failed checks, and to exactly that number
    when every check is critical or warning, as all the checks of the two
    reports are. *)
Theorem dq_summary_counts (checks : list Driver.check) :
  (Driver.critical_failed checks + Driver.warning_failed checks
   <= Driver.checks_failed checks <= List.length checks)%nat
  /\ (Forall (fun c => Driver.severity c = "critical"
                       \/ Driver.severity c = "warning") checks ->
      (Driver.critical_failed checks + Driver.warning_failed checks
       = Driver.checks_failed checks)%nat)
  /\ (Driver.critical_failed checks = 0%nat <->
      Forall (fun c => Driver.passed c = true \/ Driver.severity c <> "critical")
             checks).
Proof.
  split; [apply failed_counts_split|]. split; [apply failed_counts_split|].
  unfold Driver.critical_failed. split.
  - induction checks as [|c l IH]; [constructor|].
    cbn [filter]. destruct (Driver.passed c) eqn:P; cbn [negb orb].
    + intros H. constructor; [now left|auto].
    + destruct (String.eqb_spec (Driver.severity c) "critical") as [E|N];
        cbn [negb List.length].
      * discriminate.
      * intros H. constructor; [now right|auto].
  - induction 1 as [|c l Hc _ IH]; [reflexivity|].
    cbn [filter]. destruct Hc as [P|N].
    + rewrite P. exact IH.
    + destruct (Driver.passed c); [exact IH|].
      destruct (String.eqb_spec (Driver.severity c) "critical");
        [contradiction|exact IH].
Qed.

Section GateIndependence.

Variable ROOT : Driver.path.
Variable resolve_report_month : option string -> Driver.outcome date.
Variable load_frames : string -> date -> Driver.outcome Driver.frames.
Variable TemporaryDirectory : Driver.outcome Driver.path.
Variable stage_frames : Driver.path -> Driver.frames -> Driver.outcome unit.
Variable write_report :
  Driver.ReportConfig -> Driver.world -> Driver.outcome unit * Driver.world.

(** X16: in the monthly driver only a critical failure under
    [--dq-mode fail] can stop a run.  Under [off] or [warn], and under
    [fail] when the checks of the run (those made on the frames loaded for
    the month resolved) report no critical failure, the outcome and the
    files written are the same as with any other checks that report none:
    failed warnings never block. *)
Theorem monthly_gate_only_critical_in_fail_mode
    (checks1 checks2 : date -> string -> Driver.frames -> list Driver.check)
    (a : Driver.args) (w : Driver.world) :
  (Driver.arg_dq_mode a <> Driver.Fail
   \/ (forall mth fr,
         resolve_report_month (Driver.arg_month a) = Driver.Returned mth ->
         load_frames (Driver.arg_data_source a) mth = Driver.Returned fr ->
         Driver.critical_failed (checks1 mth (Driver.arg_data_source a) fr) = 0%nat
         /\ Driver.critical_failed (checks2 mth (Driver.arg_data_source a) fr)
            = 0%nat)) ->
  Driver.main ROOT resolve_report_month load_frames checks1
              TemporaryDirectory stage_frames write_report a w
  = Driver.main ROOT resolve_report_month load_frames checks2
                TemporaryDirectory stage_frames write_report a w.
Proof.
  intros H. unfold Driver.main.
  destruct (resolve_report_month _) as [mth|e] eqn:Er; [|reflexivity].
  destruct (load_frames _ mth) as [fr|e] eqn:El; [|reflexivity].
  assert (G : forall checks,
             (checks = checks1 \/ checks = checks2) ->
             Driver.is_fail (Driver.arg_dq_mode a)
             && (0 <? Driver.critical_failed
                        (checks mth (Driver.arg_data_source a) fr))%nat = false).
  { intros checks Hc. destruct H as [N|Z].
    - destruct (Driver.arg_dq_mode a); try reflexivity. contradiction.
    - destruct (Z mth fr eq_refl El) as [Z1 Z2].
      destruct Hc as [->| ->]; rewrite ?Z1, ?Z2; apply andb_false_r. }
  rewrite (G checks1 (or_introl eq_refl)), (G checks2 (or_intror eq_refl)).
  reflexivity.
Qed.

End GateIndependence.

(** The driver's own checks on frames with rows and keys everywhere (the
    sample's marketing row is padded, which fails no critical check),
    against no checks at all. *)
Lemma monthly_gate_only_critical_in_fail_mode_witness :
  Driver.main "." (fun _ => Driver.Returned Sample.march)
    (fun _ _ => Driver.Returned SampleRun.sample_frames)
    (MonthlyDQ.checks_of (fun _ => CStr "run-1"))
    (Driver.Returned "tmp") (fun _ _ => Driver.Returned tt)
    (fun cfg w => (Driver.Returned tt,
                   Driver.write_artifact (Driver.Report (Driver.output_file cfg)) w))
    (Driver.mkArgs None (Some "r.xlsx") "db" "none" Driver.Fail (Some "dq.json"))
    SampleRun.world0
  = Driver.main "." (fun _ => Driver.Returned Sample.march)
      (fun _ _ => Driver.Returned SampleRun.sample_frames)
      (fun _ _ _ => [])
      (Driver.Returned "tmp") (fun _ _ => Driver.Returned tt)
      (fun cfg w => (Driver.Returned tt,
                     Driver.write_artifact (Driver.Report (Driver.output_file cfg)) w))
      (Driver.mkArgs None (Some "r.xlsx") "db" "none" Driver.Fail (Some "dq.json"))
      SampleRun.world0.
Proof.
  apply (monthly_gate_only_critical_in_fail_mode "."
           (fun _ => Driver.Returned Sample.march)
           (fun _ _ => Driver.Returned SampleRun.sample_frames)
           (Driver.Returned "tmp") (fun _ _ => Driver.Returned tt)
           (fun cfg w => (Driver.Returned tt,
                          Driver.write_artifact
                            (Driver.Report (Driver.output_file cfg)) w))).
  right. intros mth fr Hm Hf.
  injection Hm as <-. injection Hf as <-.
  split; vm_compute; reflexivity.
Defined.

(** X17: in the trend driver the checks never decide what is written: for
    every mode and whatever the checks find, the run leaves the same files
    behind; a run that reaches the checks always writes the log and the
    workbook, and the gate only turns its outcome into [SystemExit]. *)
Theorem trend_gate_never_withholds_output
    (ROOT : Driver.path)
    (resolve_report_month : option string -> Driver.outcome date)
    (load_from_db : date -> Driver.outcome Driver.frames)
    (views : Type)
    (build_views : list Trend.trend_row -> date -> Z -> Driver.outcome views)
    (checks1 checks2 : list Trend.trend_row -> list date -> list Driver.source_count
                       -> views -> Z -> list Driver.check)
    (a : Driver.trend_args) (w : Driver.world) :
  snd (Driver.trend_main ROOT resolve_report_month load_from_db views build_views
                         checks1 a w)
  = snd (Driver.trend_main ROOT resolve_report_month load_from_db views build_views
                           checks2 a w).
Proof.
  unfold Driver.trend_main.
  destruct (resolve_report_month _) as [anchor|e]; [|reflexivity].
  destruct (Driver.resolve_window _ _) as [[s0 e0]|e]; [|reflexivity].
  destruct (Driver.load_months _ _) as [[counts tf]|e]; [|reflexivity].
  destruct (is_empty tf); [reflexivity|].
  destruct (build_views _ _ _) as [v|e]; [|reflexivity].
  destruct (_ && _); destruct (_ && _); reflexivity.
Qed.

(** ** How many products the trend report selects *)

Lemma selected_per_unit_bound (u : string) (n : Z) (l : list Trend.rank_key)
    (seen : list string) :
  (List.length
     (filter (fun xr : Trend.rank_key * nat =>
                (Trend.rk_units (fst xr) =? u)%string && (Z.of_nat (snd xr) <=? n)%Z)
             (Trend.cumcount_rank seen l))
   <= Z.to_nat n - List.length (filter (String.eqb u) seen))%nat.
Proof.
  revert seen. induction l as [|x l IH]; intros seen; [simpl; lia|].
  cbn [Trend.cumcount_rank filter fst snd].
  specialize (IH (Trend.rk_units x :: seen)). cbn [filter] in IH.
  destruct (String.eqb_spec (Trend.rk_units x) u) as [E|N].
  - rewrite E in *. rewrite String.eqb_refl in IH. cbn [List.length andb] in *.
    destruct (Z.leb_spec (Z.of_nat (List.length (filter (String.eqb u) seen) + 1)) n);
      cbn [List.length]; lia.
  - destruct (String.eqb_spec u (Trend.rk_units x)) as [E'|_];
      [symmetry in E'; contradiction|].
    cbn [andb]. exact IH.
Qed.

(** X18: within one unit type the selection holds at most [N] keys, the
    ranks of a unit type being 1, 2, 3, ... without repetition and only
    ranks up to [N] being selected.  When [N] is zero or negative nothing is
    selected, no product row is left, the pivot of the product view has no
    column for a side, and [build_views] raises instead of returning an
    empty view. *)
Theorem top_keys_at_most_n (trend_df : list Trend.trend_row) (anchor_month : date)
    (n : Z) (u : string) :
  (List.length (filter (fun k => (fst k =? u)%string)
                       (Trend.top_keys trend_df anchor_month n))
   <= Z.to_nat n)%nat
  /\ ((n <= 0)%Z ->
      Trend.top_keys trend_df anchor_month n = []
      /\ Trend.product_top trend_df anchor_month n = []
      /\ TrendViews.pivot_wide TrendViews.product_index
                               (Trend.product_top trend_df anchor_month n)
         = Driver.Raised (Driver.Error "KeyError: 'stats_model'")
      /\ exists e,
           TrendViews.build_views trend_df anchor_month n = Driver.Raised e).
Proof.
  assert (B : forall v,
             (List.length (filter (fun k : string * string => (fst k =? v)%string)
                                  (Trend.top_keys trend_df anchor_month n))
              <= Z.to_nat n)%nat).
  { intros v. unfold Trend.top_keys.
    rewrite filter_map_comm, length_map, filter_filter_and. cbn [fst].
    pose proof (selected_per_unit_bound v n
                  (Trend.latest_rank trend_df anchor_month) []) as P.
    cbn [filter List.length] in P. rewrite Nat.sub_0_r in P.
    erewrite filter_ext; [exact P|].
    intros xr. cbn. apply andb_comm. }
  split; [apply B|].
  intros Hn.
  assert (T : Trend.top_keys trend_df anchor_month n = []).
  { destruct (Trend.top_keys trend_df anchor_month n) as [|[v p] l] eqn:E;
      [reflexivity|].
    pose proof (B v) as Bv. cbn [filter fst] in Bv.
    rewrite String.eqb_refl in Bv. cbn [List.length] in Bv. lia. }
  assert (PT : Trend.product_top trend_df anchor_month n = []).
  { unfold Trend.product_top. rewrite T. cbn [filter map].
    induction (Trend.product_all trend_df) as [|t l IH]; [reflexivity|exact IH]. }
  split; [exact T|]. split; [exact PT|]. rewrite PT. split; [reflexivity|].
  unfold TrendViews.build_views.
  destruct (TrendViews.pivot_wide TrendViews.totals_index _); [|eauto].
  destruct (TrendViews.pivot_wide TrendViews.bu_index _); [|eauto].
  destruct (TrendViews.pivot_wide TrendViews.prod_fam_index _); [|eauto].
  rewrite PT. eexists. reflexivity.
Qed.

Lemma top_keys_at_most_n_witness :
  Trend.top_keys Window.trend_df Sample.march 0 = []
  /\ (exists e, TrendViews.build_views Window.trend_df Sample.march 0 = Driver.Raised e)
  /\ (List.length (filter (fun k => (fst k =? "quantity")%string)
                          (Trend.top_keys Window.trend_df Sample.march 1))
      <= 1)%nat.
Proof.
  destruct (proj2 (top_keys_at_most_n Window.trend_df Sample.march 0 "quantity"))
    as [T [_ [_ R]]]; [lia|].
  split; [exact T|]. split; [exact R|].
  exact (proj1 (top_keys_at_most_n Window.trend_df Sample.march 1 "quantity")).
Defined.

(** ** The denominators of the trend rows *)

Lemma month_trend_row_metric (raw : list raw_row) (m : date) (t : Trend.trend_row) :
  In t (Trend.build_month_trend_rows raw m) ->
  Trend.metric_value t
  = Trend.safe_ratio (Trend.actuals_sum t) (Trend.forecast_sum t).
Proof.
  intros H. apply month_trend_rows_frame in H.
  destruct H as [frame [u [v [bc [bn [pf [p [mm [_ H]]]]]]]]].
  now apply view_rows_ratio in H.
Qed.

(** X20: on the rows the trend aggregator makes, the critical check
    [denominator_validity] passes exactly when no forecast sum is negative.
    A zero forecast sum never fails it, the metric being null there. *)
Theorem denominator_validity_only_negative (raw : list raw_row) (m : date) :
  Driver.passed (denominator_validity (Trend.build_month_trend_rows raw m)) = true
  <-> Forall (fun t => 0 <= Trend.forecast_sum t)%Q
             (Trend.build_month_trend_rows raw m).
Proof.
  unfold denominator_validity. cbn [Driver.passed].
  generalize (month_trend_row_metric raw m).
  induction (Trend.build_month_trend_rows raw m) as [|t l IH]; intros M.
  - split; [constructor|reflexivity].
  - cbn [filter]. rewrite (M t (or_introl eq_refl)).
    assert (IH' := IH (fun x Hx => M x (or_intror Hx))). clear IH.
    unfold Trend.safe_ratio.
    destruct (Qle_bool (Trend.forecast_sum t) 0) eqn:L;
      destruct (Qeq_bool (Trend.forecast_sum t) 0) eqn:E; cbn [notna andb is_empty].
    + apply Qeq_bool_iff in E. rewrite IH'. split.
      * intros F. constructor; [rewrite E; apply Qle_refl|exact F].
      * intros F. now inversion F.
    + split; [discriminate|]. intros F. inversion F as [|x xs P _]; subst.
      apply Qle_bool_iff in L. pose proof (Qle_antisym _ _ L P) as Z.
      apply Qeq_bool_iff in Z. congruence.
    + rewrite IH'. split.
      * intros F. constructor; [|exact F]. apply Qeq_bool_iff in E. rewrite E.
        apply Qle_refl.
      * intros F. now inversion F.
    + rewrite IH'. split.
      * intros F. constructor; [|exact F].
        destruct (Qlt_le_dec (Trend.forecast_sum t) 0) as [N|P]; [|exact P].
        apply Qlt_le_weak in N. apply Qle_bool_iff in N. congruence.
      * intros F. now inversion F.
Qed.

(** ** The casework rule and the expanded catalog *)

Lemma filter_idem {A : Type} (p : A -> bool) (l : list A) :
  filter p (filter p l) = filter p l.
Proof.
  rewrite filter_filter_and. apply filter_ext. intros a. now destruct (p a).
Qed.

(** X21: the casework rule only ever removes joined rows.  Whatever the
    join, what is left is part of it, in the same order; every row left
    that triggers the mask has the family mapped from its location; and
    applying the rule a second time changes nothing. *)
Theorem casework_split_invariants (merged : list merged_row) :
  incl (casework_split merged) merged
  /\ (List.length (casework_split merged) <= List.length merged)%nat
  /\ Forall (fun r => casework_mask r = true -> group_is_mapped r = true)
            (casework_split merged)
  /\ casework_split (casework_split merged) = casework_split merged.
Proof.
  unfold casework_split.
  destruct (existsb casework_mask merged) eqn:E.
  - split; [apply incl_filter|]. split; [apply filter_length_le|]. split.
    + apply Forall_forall. intros r Hr. apply filter_In in Hr.
      destruct Hr as [_ K]. intros M. now rewrite M in K.
    + destruct (existsb casework_mask (filter _ merged)); [|reflexivity].
      apply filter_idem.
  - split; [apply incl_refl|]. split; [lia|]. split.
    + apply Forall_forall. intros r Hr M.
      assert (X : existsb casework_mask merged = true)
        by (apply existsb_exists; eauto).
      congruence.
    + now rewrite E.
Qed.

Lemma casework_split_invariants_witness :
  casework_split
    (casework_split
       (merge_inner [Sample.casework_row "LOC1020"] Sample.casework_catalog_map))
  = casework_split
      (merge_inner [Sample.casework_row "LOC1020"] Sample.casework_catalog_map).
Proof.
  exact (proj2 (proj2 (proj2 (casework_split_invariants
           (merge_inner [Sample.casework_row "LOC1020"]
                        Sample.casework_catalog_map))))).
Defined.

Lemma c_bu_key_set_sku (e : catalog_row) (code : string) :
  c_bu_key (set_sku e code) = c_bu_key e.
Proof. reflexivity. Qed.

Lemma c_product_key_expanded (e : catalog_row) (tok : string) :
  c_product_key (set_sku e (PyStr.strip tok)) = normalize_key1 (CStr tok).
Proof.
  unfold c_product_key, normalize_key1. cbn [set_sku sku_list py_str].
  now rewrite strip_idem.
Qed.

(** X22: through the expansion, a marketing row matches a catalog entry
    exactly when its normalized BU key is the entry's and its normalized
    product key is the normalized form of one of the pipe-separated tokens
    of the entry's code list; blanks around a token and its letter case do
    not matter. *)
Theorem join_matches_a_token (m : marketing_row) (e : catalog_row) :
  existsb (join_match m) (expand_entry e) = true
  <-> m_bu_key m = c_bu_key e
      /\ exists tok,
           In tok (PyStr.split "|" (py_str (sku_list e)))
           /\ m_product_key m = normalize_key1 (CStr tok).
Proof.
  rewrite existsb_exists. unfold expand_entry. split.
  - intros [c [Hc J]]. apply in_map_iff in Hc. destruct Hc as [tok [<- Ht]].
    unfold join_match in J. apply andb_true_iff in J. destruct J as [P B].
    apply String.eqb_eq in P, B.
    rewrite c_bu_key_set_sku in B. rewrite c_product_key_expanded in P.
    split; [exact B|]. exists tok. auto.
  - intros [B [tok [Ht P]]]. exists (set_sku e (PyStr.strip tok)).
    split; [apply in_map_iff; eauto|].
    unfold join_match. rewrite c_bu_key_set_sku, c_product_key_expanded.
    rewrite P, B, !String.eqb_refl. reflexivity.
Qed.

(** ** What the monthly checks count as critical *)

Lemma critical_failed_cons (n s : string) (p : bool) (l : list Driver.check) :
  Driver.critical_failed (Driver.mkCheck n s p :: l)
  = ((if p then 0 else if (s =? "critical")%string then 1 else 0)
     + Driver.critical_failed l)%nat.
Proof.
  unfold Driver.critical_failed. cbn [filter Driver.passed Driver.severity].
  destruct p; cbn [orb negb]; [reflexivity|].
  destruct (s =? "critical")%string; reflexivity.
Qed.

Lemma critical_failed_app (a b : list Driver.check) :
  Driver.critical_failed (a ++ b)
  = (Driver.critical_failed a + Driver.critical_failed b)%nat.
Proof.
  unfold Driver.critical_failed. now rewrite filter_app, length_app.
Qed.

Lemma null_key_rows_zero {R : Type} (p : R -> bool) (df : list R) :
  (MonthlyDQ.null_key_rows p df =? 0)%nat = true
  <-> Forall (fun r => p r = false) df.
Proof.
  unfold MonthlyDQ.null_key_rows. rewrite Nat.eqb_eq.
  induction df as [|r l IH]; cbn [filter].
  - split; [constructor|reflexivity].
  - destruct (p r) eqn:E; cbn [List.length].
    + split; [discriminate|]. intros F. inversion F; congruence.
    + rewrite IH. split; [now constructor|]. intros F. now inversion F.
Qed.

Lemma critical_one_zero (n : string) (p : bool) :
  Driver.critical_failed [Driver.mkCheck n "critical" p] = 0%nat <-> p = true.
Proof.
  rewrite critical_failed_cons. cbn. destruct p; split; auto; discriminate.
Qed.

Lemma critical_failed_critical (n : string) (p : bool) (l : list Driver.check) :
  Driver.critical_failed (Driver.mkCheck n "critical" p :: l)
  = ((if p then 0 else 1) + Driver.critical_failed l)%nat.
Proof. now rewrite critical_failed_cons. Qed.

Lemma critical_failed_warning (n : string) (p : bool) (l : list Driver.check) :
  Driver.critical_failed (Driver.mkCheck n "warning" p :: l)
  = Driver.critical_failed l.
Proof. rewrite critical_failed_cons. now destruct p. Qed.

Lemma monthly_critical_zero_iff (run_id : nat -> cell) (month : date)
    (source : string) (m : list marketing_row) (c : list catalog_row)
    (s : list stats_row) (a : list actuals_row) :
  Driver.critical_failed (MonthlyDQ.run_dq_checks run_id month source m c s a) = 0%nat
  <-> (m <> [] /\ c <> [] /\ s <> [] /\ a <> [])
      /\ Forall (fun r => MonthlyDQ.marketing_key_null r = false) m
      /\ Forall (fun r => MonthlyDQ.actuals_key_null r = false) a
      /\ Forall (fun r => MonthlyDQ.stats_key_null r = false) s
      /\ Forall (fun r => MonthlyDQ.catalog_key_null r = false) c.
Proof.
  unfold MonthlyDQ.run_dq_checks.
  rewrite !critical_failed_app.
  rewrite <- (null_key_rows_zero MonthlyDQ.marketing_key_null m).
  rewrite <- (null_key_rows_zero MonthlyDQ.actuals_key_null a).
  rewrite <- (null_key_rows_zero MonthlyDQ.stats_key_null s).
  rewrite <- (null_key_rows_zero MonthlyDQ.catalog_key_null c).
  destruct (source =? "copy2026")%string;
  destruct m as [|m0 m]; destruct c as [|c0 c]; destruct s as [|s0 s];
    destruct a as [|a0 a];
    cbn [is_empty negb]; cbv zeta;
    rewrite ?critical_failed_critical, ?critical_failed_warning;
    change (Driver.critical_failed []) with 0%nat;
    try (split; [intros H; exfalso; cbn in H; lia
                | intros [[Hm [Hc [Hs Ha]]] _]; congruence]).
  all: destruct (MonthlyDQ.null_key_rows MonthlyDQ.marketing_key_null (m0 :: m) =? 0)%nat;
    destruct (MonthlyDQ.null_key_rows MonthlyDQ.actuals_key_null (a0 :: a) =? 0)%nat;
    destruct (MonthlyDQ.null_key_rows MonthlyDQ.stats_key_null (s0 :: s) =? 0)%nat;
    destruct (MonthlyDQ.null_key_rows MonthlyDQ.catalog_key_null (c0 :: c) =? 0)%nat;
    cbn; split; intros H;
    solve [ discriminate H
          | repeat split; discriminate
          | reflexivity
          | destruct H as [_ [H1 [H2 [H3 H4]]]]; discriminate ].
Qed.

(** X23: the monthly checks report no critical failure exactly when the
    four source frames all have rows and no row has a null in a key column
    (marketing: BU, Location, Product, Date; actuals: Product, Division,
    Month; stats: product_id, bu_id, forecast_month, model_type; catalog:
    group_key, business_unit_code, sku_list).  Duplicate keys, geography and
    the twelve-month completeness never count. *)
Theorem monthly_critical_checks (run_id : nat -> cell) (month : date)
    (source : string) (m : list marketing_row) (c : list catalog_row)
    (s : list stats_row) (a : list actuals_row) :
  Driver.critical_failed (MonthlyDQ.run_dq_checks run_id month source m c s a) = 0%nat
  <-> (m <> [] /\ c <> [] /\ s <> [] /\ a <> [])
      /\ Forall (fun r => MonthlyDQ.marketing_key_null r = false) m
      /\ Forall (fun r => MonthlyDQ.actuals_key_null r = false) a
      /\ Forall (fun r => MonthlyDQ.stats_key_null r = false) s
      /\ Forall (fun r => MonthlyDQ.catalog_key_null r = false) c.
Proof. apply monthly_critical_zero_iff. Qed.

(** X24: under [--dq-mode fail] the monthly driver, run with its own
    checks, never reaches the report on frames that are not clean: an empty
    source frame or a null key makes it write the data-quality log, raise
    [SystemExit] and leave everything else as it was. *)
Theorem fail_mode_needs_clean_frames
    (ROOT : Driver.path)
    (resolve_report_month : option string -> Driver.outcome date)
    (load_frames : string -> date -> Driver.outcome Driver.frames)
    (run_id : nat -> cell)
    (TemporaryDirectory : Driver.outcome Driver.path)
    (stage_frames : Driver.path -> Driver.frames -> Driver.outcome unit)
    (write_report : Driver.ReportConfig -> Driver.world
                    -> Driver.outcome unit * Driver.world)
    (a : Driver.args) (w : Driver.world) (month : date) (fr : Driver.frames) :
  Driver.arg_dq_mode a = Driver.Fail ->
  resolve_report_month (Driver.arg_month a) = Driver.Returned month ->
  load_frames (Driver.arg_data_source a) month = Driver.Returned fr ->
  ~ MonthlyDQ.clean_frames fr ->
  let run := Driver.main ROOT resolve_report_month load_frames
               (MonthlyDQ.checks_of run_id)
               TemporaryDirectory stage_frames write_report a w in
  fst run
  = Driver.Raised
      (Driver.SystemExit "Critical DQ checks failed. Report generation aborted.")
  /\ exists log, snd run = Driver.write_artifact (Driver.DQLog log) w.
Proof.
  intros Hm Hr Hl Hc. unfold Driver.main. rewrite Hr, Hl, Hm.
  cbn [Driver.is_fail andb].
  destruct (Driver.critical_failed
              (MonthlyDQ.checks_of run_id month (Driver.arg_data_source a) fr))
    as [|n] eqn:E.
  - exfalso. apply Hc. unfold MonthlyDQ.checks_of in E.
    apply monthly_critical_zero_iff in E. exact E.
  - cbn [Nat.ltb Nat.leb fst snd]. split; [reflexivity|eexists; reflexivity].
Qed.

Lemma fail_mode_needs_clean_frames_witness :
  let run :=
    Driver.main "." (fun _ => Driver.Returned Sample.march)
      (fun _ _ => Driver.Returned
                    (Driver.mkFrames Sample.marketing_df Sample.catalog_df
                                     Sample.stats_df []))
      (MonthlyDQ.checks_of (fun _ => CStr "run-1"))
      (Driver.Returned "tmp") (fun _ _ => Driver.Returned tt)
      (fun cfg w => (Driver.Returned tt,
                     Driver.write_artifact (Driver.Report (Driver.output_file cfg)) w))
      (Driver.mkArgs None (Some "r.xlsx") "db" "none" Driver.Fail (Some "dq.json"))
      SampleRun.world0 in
  fst run
  = Driver.Raised
      (Driver.SystemExit "Critical DQ checks failed. Report generation aborted.")
  /\ exists log, snd run = Driver.write_artifact (Driver.DQLog log) SampleRun.world0.
Proof.
  apply (fail_mode_needs_clean_frames "." (fun _ => Driver.Returned Sample.march)
           (fun _ _ => Driver.Returned
                         (Driver.mkFrames Sample.marketing_df Sample.catalog_df
                                          Sample.stats_df []))
           (fun _ => CStr "run-1")
           (Driver.Returned "tmp") (fun _ _ => Driver.Returned tt)
           (fun cfg w => (Driver.Returned tt,
                          Driver.write_artifact (Driver.Report (Driver.output_file cfg)) w))
           (Driver.mkArgs None (Some "r.xlsx") "db" "none" Driver.Fail (Some "dq.json"))
           SampleRun.world0 Sample.march
           (Driver.mkFrames Sample.marketing_df Sample.catalog_df Sample.stats_df [])).
  - reflexivity.
  - reflexivity.
  - reflexivity.
  - intros [[_ [_ [_ H]]] _]. now apply H.
Defined.

(** ** The months of the trend window *)

Lemma merge_inner_no_catalog (df : list marketing_row) : merge_inner df [] = [].
Proof. unfold merge_inner. induction df as [|m l IH]; [reflexivity|exact IH]. Qed.

Lemma build_raw_data_no_catalog (m : list marketing_row) (s : list stats_row)
    (a : list actuals_row) (month : date) :
  rd_raw (build_raw_data m [] s a month) = [].
Proof.
  unfold build_raw_data. cbv zeta. cbn [rd_raw].
  change (expand_catalog []) with (@nil catalog_row).
  rewrite merge_inner_no_catalog. reflexivity.
Qed.

Section TrendWindow.

Variable load_from_db : date -> Driver.outcome Driver.frames.

(** X25: when every load of the window returns, the loop over the months
    returns one row count per month, in the order of the window, and at
    most one trend frame per month; and the critical check
    [source_coverage_by_month] passes on these counts exactly when every
    month has marketing, stats and actuals rows. *)
Theorem window_counts_and_coverage (months : list date) :
  (forall month, In month months ->
     exists fr, load_from_db month = Driver.Returned fr) ->
  exists counts trend_frames,
    Driver.load_months load_from_db months = Driver.Returned (counts, trend_frames)
    /\ map Driver.sc_month_start counts = months
    /\ (List.length trend_frames <= List.length months)%nat
    /\ (Driver.passed (SampleRun.source_coverage_by_month counts) = true
        <-> forall month fr, In month months ->
              load_from_db month = Driver.Returned fr -> covered fr).
Proof.
  induction months as [|mth rest IH]; intros H.
  - exists [], []. split; [reflexivity|]. split; [reflexivity|].
    split; [cbn; lia|]. split; [intros _ month fr []|reflexivity].
  - destruct (H mth (or_introl eq_refl)) as [fr Hfr].
    destruct (IH (fun x Hx => H x (or_intror Hx)))
      as [counts [frames [E [Hc [Hl Hp]]]]].
    cbn [Driver.load_months]. rewrite Hfr, E.
    set (c := Driver.mkCount mth _ _ _ _).
    assert (P : Driver.passed (SampleRun.source_coverage_by_month (c :: counts)) = true
                <-> forall month fr0, In month (mth :: rest) ->
                      load_from_db month = Driver.Returned fr0 -> covered fr0).
    { unfold SampleRun.source_coverage_by_month in *. cbn [Driver.passed] in *.
      cbn [filter]. subst c.
      cbn [Driver.marketing_rows Driver.stats_rows Driver.actuals_rows].
      unfold covered.
      destruct (Driver.marketing_df fr) as [|m0 ml] eqn:Em;
        [|destruct (Driver.stats_df fr) as [|s0 sl] eqn:Es;
          [|destruct (Driver.actuals_df fr) as [|a0 al] eqn:Ea]];
        cbn [List.length Nat.eqb orb is_empty].
      1-3: split; [discriminate|]; intros K;
        destruct (K mth fr (or_introl eq_refl) Hfr) as [K1 [K2 K3]];
        rewrite ?Em, ?Es, ?Ea in *; congruence.
      rewrite Hp. split.
      - intros K month fr0 [<-|Hin] L.
        + rewrite Hfr in L. injection L as <-. rewrite Em, Es, Ea.
          repeat split; discriminate.
        + eapply K; eauto.
      - intros K month fr0 Hin L. eapply K; eauto. now right. }
    destruct (is_empty (Driver.marketing_df fr) || is_empty (Driver.stats_df fr)
              || is_empty (Driver.actuals_df fr)).
    + exists (c :: counts), frames. split; [reflexivity|].
      split; [cbn; now rewrite Hc|]. split; [cbn; lia|exact P].
    + destruct (is_empty (rd_raw _)).
      * exists (c :: counts), frames. split; [reflexivity|].
        split; [cbn; now rewrite Hc|]. split; [cbn; lia|exact P].
      * eexists (c :: counts), (_ :: frames). split; [reflexivity|].
        split; [cbn; now rewrite Hc|]. split; [cbn; lia|exact P].
Qed.

Lemma load_months_no_frames (months : list date) :
  (forall month, In month months ->
     exists fr,
       load_from_db month = Driver.Returned fr
       /\ (~ covered fr \/ Driver.catalog_df fr = [])) ->
  exists counts,
    Driver.load_months load_from_db months = Driver.Returned (counts, []).
Proof.
  induction months as [|mth rest IH]; intros H; [now exists []|].
  destruct (IH (fun x Hx => H x (or_intror Hx))) as [counts E].
  destruct (H mth (or_introl eq_refl)) as [fr [Hfr Hn]].
  cbn [Driver.load_months]. rewrite Hfr, E.
  destruct (is_empty (Driver.marketing_df fr) || is_empty (Driver.stats_df fr)
            || is_empty (Driver.actuals_df fr)) eqn:B; [eexists; reflexivity|].
  destruct Hn as [Hn|Hn].
  - exfalso. apply Hn. unfold covered.
    destruct (Driver.marketing_df fr); [discriminate|].
    destruct (Driver.stats_df fr); [discriminate|].
    destruct (Driver.actuals_df fr); [discriminate|].
    repeat split; discriminate.
  - rewrite Hn, build_raw_data_no_catalog. eexists; reflexivity.
Qed.

End TrendWindow.

Lemma window_counts_and_coverage_witness :
  exists counts trend_frames,
    Driver.load_months SampleRun.load_from_db [Sample.february; Sample.march]
    = Driver.Returned (counts, trend_frames)
    /\ map Driver.sc_month_start counts = [Sample.february; Sample.march]
    /\ (List.length trend_frames <= 2)%nat
    /\ (Driver.passed (SampleRun.source_coverage_by_month counts) = true
        <-> forall month fr, In month [Sample.february; Sample.march] ->
              SampleRun.load_from_db month = Driver.Returned fr -> covered fr).
Proof.
  apply (window_counts_and_coverage SampleRun.load_from_db
           [Sample.february; Sample.march]).
  intros month _. unfold SampleRun.load_from_db.
  destruct (date_eqb month Sample.march); eexists; reflexivity.
Defined.

(** X26: when no month of the window can give a row (each of its months
    lacks marketing, stats or actuals rows, or has an empty catalog), the
    trend driver raises [SystemExit] before any check is run: nothing is
    written, not even the data-quality log. *)
Theorem trend_exits_without_rows
    (ROOT : Driver.path)
    (resolve_report_month : option string -> Driver.outcome date)
    (load_from_db : date -> Driver.outcome Driver.frames)
    (views : Type)
    (build_views : list Trend.trend_row -> date -> Z -> Driver.outcome views)
    (run_dq_checks : list Trend.trend_row -> list date -> list Driver.source_count
                     -> views -> Z -> list Driver.check)
    (a : Driver.trend_args) (w : Driver.world) (anchor start : date) :
  resolve_report_month (Driver.targ_month a) = Driver.Returned anchor ->
  Driver.resolve_window anchor (Driver.targ_window_months a)
  = Driver.Returned (start, anchor) ->
  (forall month, In month (Driver.month_sequence start anchor) ->
     exists fr,
       load_from_db month = Driver.Returned fr
       /\ (~ covered fr \/ Driver.catalog_df fr = [])) ->
  Driver.trend_main ROOT resolve_report_month load_from_db views build_views
                    run_dq_checks a w
  = (Driver.Raised
       (Driver.SystemExit
          "No trend data rows were generated for the selected rolling window."),
     w).
Proof.
  intros Hr Hw Hl. unfold Driver.trend_main. rewrite Hr, Hw. cbv zeta.
  destruct (load_months_no_frames load_from_db
              (Driver.month_sequence start anchor) Hl) as [counts E].
  rewrite E. reflexivity.
Qed.

(** The database of the sample run, which has rows for March 2024 only,
    read over January and February. *)
Lemma trend_exits_without_rows_witness :
  Driver.trend_main "." (fun _ => Driver.Returned Sample.february)
    SampleRun.load_from_db
    TrendViews.views TrendViews.build_views TrendDQ.run_dq_checks
    SampleRun.fail_args SampleRun.world0
  = (Driver.Raised
       (Driver.SystemExit
          "No trend data rows were generated for the selected rolling window."),
     SampleRun.world0).
Proof.
  apply (trend_exits_without_rows "." (fun _ => Driver.Returned Sample.february)
           SampleRun.load_from_db
           TrendViews.views TrendViews.build_views TrendDQ.run_dq_checks
           SampleRun.fail_args SampleRun.world0 Sample.february (mkDate 2024 1 1)).
  - reflexivity.
  - reflexivity.
  - intros month Hin. simpl in Hin.
    destruct Hin as [<-|[<-|[]]]; eexists; (split; [reflexivity|]);
      left; intros [C _]; now apply C.
Defined.

(** ** The parser of the 2026 marketing copy *)

Lemma is_digit_value (c : ascii) :
  Copy2026.is_digit c = true -> (0 <= Copy2026.digit_value c <= 9)%Z.
Proof.
  unfold Copy2026.is_digit, Copy2026.digit_value. intros H.
  apply andb_true_iff in H. destruct H as [L U].
  apply Nat.leb_le in L, U. lia.
Qed.

Lemma extract_fy_range (s : string) (n : Z) :
  Copy2026.extract_fy s = Some n -> (0 <= n <= 99)%Z.
Proof.
  induction s as [|c rest IH]; [discriminate|].
  cbn [Copy2026.extract_fy].
  repeat match goal with
         | |- context [match ?x with _ => _ end] => destruct x eqn:?; try exact IH
         end.
  intros H. injection H as <-.
  match goal with
  | E : (_ && _)%bool = true |- _ =>
      apply andb_true_iff in E; destruct E as [Da Db]
  end.
  apply is_digit_value in Da, Db. lia.
Qed.

Lemma year_of_range (s : string) : (2000 <= Copy2026.year_of s <= 2099)%Z.
Proof.
  unfold Copy2026.year_of.
  destruct (Copy2026.extract_fy (PyStr.upper s)) as [n|] eqn:E; [|lia].
  apply extract_fy_range in E. lia.
Qed.

Lemma month_map_range (p : string) (m : Z) :
  Copy2026.month_map p = Some m -> (1 <= m <= 12)%Z.
Proof.
  unfold Copy2026.month_map.
  repeat match goal with
         | |- context [if ?b then _ else _] => destruct b
         end;
    intros H; try discriminate H; injection H as <-; lia.
Qed.

Lemma to_datetime_month (y m : Z) :
  (2000 <= y <= 2099)%Z -> (1 <= m <= 12)%Z ->
  Copy2026.to_datetime y (Some m) = Some (mkDate y m 1).
Proof.
  intros Hy Hm. unfold Copy2026.to_datetime.
  destruct (Z.leb_spec 1 m); [|lia].
  destruct (Z.leb_spec m 12); [|lia].
  destruct (Z.leb_spec (1677 * 12 + 9) (y * 12 + (m - 1))); [|lia].
  destruct (Z.leb_spec (y * 12 + (m - 1)) (2262 * 12 + 3)); [|lia].
  reflexivity.
Qed.

Lemma parse_month_rows (to_numeric : cell -> option Q) (rows : list (list cell)) :
  Forall (fun row => Copy2026.is_month (PyStr.upper (Copy2026.text row 5)) = true)
         rows ->
  Forall2 (Copy2026.parsed_from to_numeric) rows
          (flat_map Copy2026.select
                    (map Copy2026.with_date (map (Copy2026.read_row to_numeric) rows))).
Proof.
  induction 1 as [|row rest Hrow _ IH]; [constructor|].
  cbn [map flat_map]. unfold Copy2026.is_month in Hrow.
  destruct (Copy2026.month_map (PyStr.upper (Copy2026.text row 5))) as [m|] eqn:M;
    [|discriminate].
  unfold Copy2026.select at 1, Copy2026.with_date at 1.
  cbn [fst snd Copy2026.read_row Copy2026.fiscal_year Copy2026.Period].
  rewrite M, (to_datetime_month _ m (year_of_range _) (month_map_range _ _ M)).
  cbn [app]. constructor; [|exact IH].
  unfold Copy2026.parsed_from. cbn. rewrite M. repeat split; reflexivity.
Qed.

Lemma parsed_dates_in_range (to_numeric : cell -> option Q)
    (rows : list (list cell)) (df : list Copy2026.parsed_row) :
  Forall2 (Copy2026.parsed_from to_numeric) rows df ->
  Forall (fun r => (2000 <= d_year (Copy2026.p_Date r) <= 2099)%Z
                   /\ (1 <= d_month (Copy2026.p_Date r) <= 12)%Z) df.
Proof.
  induction 1 as [|x r l l' Hx _ IH]; constructor; [|exact IH].
  destruct Hx as [_ [_ [_ [_ [_ [_ [_ [_ [Hm [Hy _]]]]]]]]]].
  rewrite Hy. split; [apply year_of_range|].
  now apply month_map_range in Hm.
Qed.

Lemma parse_outcome_cases (to_numeric : cell -> option Q)
    (raw : Copy2026.raw_sheet) (sheet : string) (start_row : Z) :
  match Copy2026.parse_marketing_copy_2026 to_numeric raw sheet start_row with
  | Copy2026.ValueError e =>
      (Z.of_nat (List.length (Copy2026.sheet_rows raw)) <= start_row - 1)%Z
      \/ (Copy2026.shape1 raw < 11)%nat
      \/ Copy2026.month_rows raw start_row = []
  | Copy2026.Ok df =>
      (start_row - 1 < Z.of_nat (List.length (Copy2026.sheet_rows raw)))%Z
      /\ (11 <= Copy2026.shape1 raw)%nat
      /\ df <> []
      /\ Forall2 (Copy2026.parsed_from to_numeric)
                 (Copy2026.month_rows raw start_row) df
      /\ Forall (fun r => (2000 <= d_year (Copy2026.p_Date r) <= 2099)%Z
                          /\ (1 <= d_month (Copy2026.p_Date r) <= 12)%Z) df
  end.
Proof.
  unfold Copy2026.parse_marketing_copy_2026. cbv zeta.
  destruct (Z.leb_spec (Z.of_nat (List.length (Copy2026.sheet_rows raw)))
                       (start_row - 1)) as [L|L]; [now left|].
  destruct (Nat.ltb_spec (Copy2026.shape1 raw) 11) as [C|C]; [right; now left|].
  rewrite (filter_map_comm
             (fun r => Copy2026.is_month (PyStr.upper (Copy2026.Period r)))
             (Copy2026.read_row to_numeric)).
  change (filter _ (Copy2026.iloc_from (start_row - 1) (Copy2026.sheet_rows raw)))
    with (Copy2026.month_rows raw start_row).
  assert (F : Forall (fun row => Copy2026.is_month
                                   (PyStr.upper (Copy2026.text row 5)) = true)
                     (Copy2026.month_rows raw start_row)).
  { apply Forall_forall. intros row Hr. unfold Copy2026.month_rows in Hr.
    apply filter_In in Hr. apply Hr. }
  pose proof (parse_month_rows to_numeric _ F) as P.
  destruct (Copy2026.month_rows raw start_row) as [|row rest] eqn:E.
  - right; right; reflexivity.
  - cbn [map is_empty]. split; [exact L|]. split; [exact C|].
    cbn [map] in P. split.
    + intros Z. rewrite Z in P. inversion P.
    + split; [exact P|]. exact (parsed_dates_in_range _ _ _ P).
Qed.

(** X27: the parser of the 2026 copy raises [ValueError] exactly when the
    sheet ends before [start_row], has fewer than eleven columns, or holds
    no month name in the sixth column from [start_row] on.  Otherwise it
    returns a frame that is not empty, with one row per month row of the
    sheet, in the order of the sheet: the keys are the stripped texts of
    columns 2 to 5, the amounts come from columns 7, 8, 10 and 11, and the
    date is the first day of the month named, in a year from 2000 to
    2099. *)
Theorem parse_marketing_copy_2026_outcome (to_numeric : cell -> option Q)
    (raw : Copy2026.raw_sheet) (sheet : string) (start_row : Z) :
  match Copy2026.parse_marketing_copy_2026 to_numeric raw sheet start_row with
  | Copy2026.ValueError e =>
      (Z.of_nat (List.length (Copy2026.sheet_rows raw)) <= start_row - 1)%Z
      \/ (Copy2026.shape1 raw < 11)%nat
      \/ Copy2026.month_rows raw start_row = []
  | Copy2026.Ok df =>
      (start_row - 1 < Z.of_nat (List.length (Copy2026.sheet_rows raw)))%Z
      /\ (11 <= Copy2026.shape1 raw)%nat
      /\ df <> []
      /\ Forall2 (Copy2026.parsed_from to_numeric)
                 (Copy2026.month_rows raw start_row) df
      /\ Forall (fun r => (2000 <= d_year (Copy2026.p_Date r) <= 2099)%Z
                          /\ (1 <= d_month (Copy2026.p_Date r) <= 12)%Z) df
  end.
Proof. apply parse_outcome_cases. Qed.

(** ** Its validation *)

Lemma sorted_nodup_unique (l1 l2 : list Z) :
  sorted_by Z.leb l1 -> sorted_by Z.leb l2 -> NoDup l1 -> NoDup l2 ->
  (forall x, In x l1 <-> In x l2) -> l1 = l2.
Proof.
  unfold sorted_by. intros S1. revert l2.
  induction S1 as [|a l1 S1 IH Ha]; intros l2 S2 N1 N2 E.
  - destruct l2 as [|b l2]; [reflexivity|].
    destruct (proj2 (E b) (or_introl eq_refl)).
  - destruct S2 as [|b l2 S2 Hb].
    + destruct (proj1 (E a) (or_introl eq_refl)).
    + inversion N1 as [|? ? Na N1']; subst. inversion N2 as [|? ? Nb N2']; subst.
      rewrite Forall_forall in Ha, Hb.
      assert (a = b).
      { destruct (proj1 (E a) (or_introl eq_refl)) as [->|I1]; [reflexivity|].
        destruct (proj2 (E b) (or_introl eq_refl)) as [->|I2]; [reflexivity|].
        apply Hb in I1. apply Ha in I2. apply Z.leb_le in I1, I2. lia. }
      subst b. f_equal. apply IH; auto.
      intros x. split; intros I.
      * destruct (proj1 (E x) (or_intror I)) as [->|K]; [contradiction|exact K].
      * destruct (proj2 (E x) (or_intror I)) as [->|K]; [contradiction|exact K].
Qed.

Lemma all_months_range (m : Z) : (1 <= m <= 12)%Z <-> In m Copy2026.all_months.
Proof.
  unfold Copy2026.all_months. cbn [In]. lia.
Qed.

Lemma all_months_sorted :
  sorted_by Z.leb Copy2026.all_months /\ NoDup Copy2026.all_months.
Proof.
  unfold sorted_by, Copy2026.all_months. split.
  - repeat (constructor; [|repeat (constructor; [reflexivity|]); constructor]).
    constructor.
  - repeat (constructor; [cbn [In]; lia|]). constructor.
Qed.

(** X28: on a frame the parser returned, the validation returns exactly
    when every month of the year occurs among the dates: its summary then
    counts all the rows and lists the months 1 to 12; otherwise some month
    is missing and it raises [ValueError]. *)
Theorem validate_needs_twelve_months (to_numeric : cell -> option Q)
    (raw : Copy2026.raw_sheet) (sheet : string) (start_row : Z)
    (df : list Copy2026.parsed_row) :
  Copy2026.parse_marketing_copy_2026 to_numeric raw sheet start_row = Copy2026.Ok df ->
  match Copy2026.validate_marketing_copy_2026 df with
  | Copy2026.Ok s =>
      Copy2026.rows s = List.length df
      /\ Copy2026.months s = Copy2026.all_months
      /\ forall k, In k Copy2026.all_months ->
           exists r, In r df /\ d_month (Copy2026.p_Date r) = k
  | Copy2026.ValueError e =>
      exists k, In k Copy2026.all_months
                /\ forall r, In r df -> d_month (Copy2026.p_Date r) <> k
  end.
Proof.
  intros Hp. pose proof (parse_outcome_cases to_numeric raw sheet start_row) as O.
  rewrite Hp in O. destruct O as [_ [_ [_ [_ R]]]].
  set (M := nodup Z.eq_dec (Copy2026.date_months df)).
  assert (NM : NoDup M) by apply NoDup_nodup.
  assert (IM : incl M Copy2026.all_months).
  { intros m Hm. apply nodup_In in Hm. unfold Copy2026.date_months in Hm.
    apply in_map_iff in Hm. destruct Hm as [r [<- Hr]].
    rewrite Forall_forall in R. apply all_months_range. apply (R r Hr). }
  assert (In_M : forall k, In k M <->
                   exists r, In r df /\ d_month (Copy2026.p_Date r) = k).
  { intros k. unfold M. rewrite nodup_In. unfold Copy2026.date_months.
    rewrite in_map_iff. split; intros [r [A B]]; exists r; auto. }
  unfold Copy2026.validate_marketing_copy_2026. cbv zeta. fold M.
  destruct (Nat.eqb_spec (List.length M) 12) as [E|N]; cbn [negb].
  - assert (I : incl Copy2026.all_months M).
    { apply NoDup_length_incl; [exact NM| |exact IM].
      rewrite E. unfold Copy2026.all_months. cbn. lia. }
    cbn [Copy2026.rows Copy2026.months]. split; [reflexivity|]. split.
    + apply sorted_nodup_unique.
      * apply sort_by_sorted.
        -- intros a b. rewrite !Z.leb_le. lia.
        -- intros a b c. rewrite !Z.leb_le. lia.
      * apply all_months_sorted.
      * now apply NoDup_sort_by.
      * apply all_months_sorted.
      * intros x. rewrite In_sort_by. split; [apply IM|apply I].
    + intros k Hk. apply In_M. now apply I.
  - destruct (Forall_Exists_dec (fun k => In k M) (fun k => in_dec Z.eq_dec k M)
                                Copy2026.all_months) as [F|X].
    + exfalso. apply N. rewrite Forall_forall in F.
      apply Nat.le_antisymm.
      * change 12%nat with (List.length Copy2026.all_months).
        now apply NoDup_incl_length.
      * change 12%nat with (List.length Copy2026.all_months).
        apply NoDup_incl_length; [apply all_months_sorted|exact F].
    + apply Exists_exists in X. destruct X as [k [Hk Nk]].
      exists k. split; [exact Hk|]. intros r Hr Ek. apply Nk, In_M. eauto.
Qed.

Lemma validate_needs_twelve_months_witness :
  match Copy2026.validate_marketing_copy_2026 Copy2026.sample_parsed with
  | Copy2026.Ok s =>
      Copy2026.rows s = List.length Copy2026.sample_parsed
      /\ Copy2026.months s = Copy2026.all_months
      /\ forall k, In k Copy2026.all_months ->
           exists r, In r Copy2026.sample_parsed /\ d_month (Copy2026.p_Date r) = k
  | Copy2026.ValueError e =>
      exists k, In k Copy2026.all_months
                /\ forall r, In r Copy2026.sample_parsed ->
                     d_month (Copy2026.p_Date r) <> k
  end.
Proof.
  apply (validate_needs_twelve_months (fun _ => None) Copy2026.sample_sheet
           "2026 Data" 2 Copy2026.sample_parsed).
  vm_compute. reflexivity.
Defined.

Lemma upper_digit (c : ascii) :
  Copy2026.is_digit c = true -> PyStr.upper_ascii c = c.
Proof.
  destruct c as [[] [] [] [] [] [] [] []]; vm_compute; intros H;
    try reflexivity; discriminate H.
Qed.

(** X29: the year of a row is read from the two characters after FY, in
    either case, when both are digits, whatever follows them: of a fiscal
    year written with four digits only the century part is read. *)
Theorem fiscal_year_two_digits (f y a b : ascii) (rest : string) :
  PyStr.upper_ascii f = "F"%char -> PyStr.upper_ascii y = "Y"%char ->
  Copy2026.is_digit a = true -> Copy2026.is_digit b = true ->
  Copy2026.year_of (String f (String y (String a (String b rest))))
  = (2000 + 10 * Copy2026.digit_value a + Copy2026.digit_value b)%Z.
Proof.
  intros Hf Hy Ha Hb. unfold Copy2026.year_of, PyStr.upper.
  cbn [PyStr.map_chars]. rewrite Hf, Hy, (upper_digit a Ha), (upper_digit b Hb).
  cbn [Copy2026.extract_fy]. rewrite Ha, Hb. cbn [andb]. lia.
Qed.

Lemma fiscal_year_two_digits_witness :
  Copy2026.year_of "fy2027" = 2020%Z.
Proof.
  exact (fiscal_year_two_digits "f" "y" "2" "0" "27"
           eq_refl eq_refl eq_refl eq_refl).
Defined.

(** * The properties of the specification, on the code *)

(** ** The statistical-model rollup *)

Lemma Qplus_zero_r (q : Q) : (q + 0)%Q = q.
Proof.
  destruct q as [n d]. unfold Qplus. cbn [Qnum Qden].
  rewrite Z.mul_1_r, Z.mul_0_l, Z.add_0_r, Pos.mul_1_r. reflexivity.
Qed.

Lemma sum_skipna_forecast_total (rows : list stats_row) :
  sum_skipna (map forecast_value rows) = forecast_total rows.
Proof.
  unfold sum_skipna, forecast_total, qsum. generalize 0%Q.
  induction rows as [|s rows IH]; intros acc; [reflexivity|].
  cbn [map flat_map fold_left]. destruct (forecast_value s) as [v|].
  - cbn [app fillna0 fold_left]. apply IH.
  - cbn [app fillna0]. rewrite Qplus_zero_r. apply IH.
Qed.

Lemma stats_model_type_trim_upper (s : stats_row) :
  stats_model_type s = trim_upper (model_type s).
Proof.
  unfold stats_model_type, trim_upper, PyStr.upper.
  apply strip_map_chars. apply is_space_upper.
Qed.

Lemma key_rows_blend (stats_df : list stats_row) (m : date) (k : key_pair) :
  blend_rows_for stats_df m k = key_rows is_blend stats_df m k.
Proof.
  unfold blend_rows_for, key_rows, stats_blend, stats_in_month.
  rewrite !filter_filter_and. apply filter_ext. intros s.
  unfold is_blend. rewrite <- stats_model_type_trim_upper.
  destruct k as [kp kb]. cbn. unfold normalize_key1, trim_upper.
  change (same_month (forecast_month s) m)
    with (in_target_month (forecast_month s) m).
  btauto.
Qed.

Lemma key_rows_recommended (stats_df : list stats_row) (m : date) (k : key_pair) :
  recommended_rows_for stats_df m k = key_rows recommended_model stats_df m k.
Proof.
  unfold recommended_rows_for, key_rows, stats_fallback, stats_in_month.
  rewrite !filter_filter_and. apply filter_ext. intros s.
  destruct k as [kp kb]. cbn. unfold normalize_key1, trim_upper.
  change (same_month (forecast_month s) m)
    with (in_target_month (forecast_month s) m).
  btauto.
Qed.

Lemma In_rollup_lookup {V : Type} (k : key_pair) (v : V) (l : list (key_pair * V)) :
  NoDup (map fst l) ->
  (In (k, v) l <-> rollup_lookup k l = Some v).
Proof.
  unfold rollup_lookup. induction l as [|[k' v'] l IH]; cbn [map fst]; intros N.
  - split; [intros []|discriminate].
  - inversion N as [|? ? Nk Nl]; subst. cbn [find fst In].
    destruct (same_key k' k) eqn:E.
    + apply key_pair_same_key in E. subst k'. cbn [option_map snd]. split.
      * intros [H|H]; [now inversion H|].
        exfalso. apply Nk. apply in_map_iff. now exists (k, v).
      * intros H. left. now inversion H.
    + rewrite <- (IH Nl). split; [|now right].
      intros [H|H]; [|exact H]. inversion H; subst.
      rewrite (proj2 (key_pair_same_key k k) eq_refl) in E. discriminate.
Qed.

(** C2: the statistical-model rollup of the target month has a row for a
    key exactly when the key has a blend-model row or a recommended-flag
    row in that month.  Its value is the sum of the key's blend-model
    forecast values when the key has a blend-model row, and otherwise the
    sum of its recommended-flag forecast values: the choice is made once
    for the key, the two sums are never added, and the rollup has one row
    per key. *)
Theorem stats_rollup_prefers_blend (stats_df : list stats_row)
    (month_start : date) (k : key_pair) (v : option Q) :
  (In (k, v) (stats_rollup stats_df month_start)
   <-> match key_rows is_blend stats_df month_start k with
       | _ :: _ =>
           v = Some (forecast_total (key_rows is_blend stats_df month_start k))
       | [] =>
           key_rows recommended_model stats_df month_start k <> []
           /\ v = Some (forecast_total
                          (key_rows recommended_model stats_df month_start k))
       end)
  /\ NoDup (map fst (stats_rollup stats_df month_start)).
Proof.
  destruct (stats_rollup_lookup_cases stats_df month_start k) as [L N].
  split; [|exact N].
  rewrite (In_rollup_lookup k v _ N), L.
  rewrite key_rows_blend, key_rows_recommended, !sum_skipna_forecast_total.
  destruct (key_rows is_blend stats_df month_start k) as [|b bl].
  - destruct (key_rows recommended_model stats_df month_start k) as [|r rl].
    + split; [discriminate|]. intros [H _]. now elim H.
    + split.
      * intros H. split; [discriminate|]. now inversion H.
      * intros [_ ->]. reflexivity.
  - split; [intros H; now inversion H|intros ->; reflexivity].
Qed.

(** In the sample frame product P1 has two blend rows (10 and 5) and a
    recommended row (7): the rollup holds 15.  P2 has recommended rows
    only (3 and 4): the rollup holds 7.  P3 has neither: no row. *)
Lemma stats_rollup_prefers_blend_sample :
  In (("P1", "D100"), Some 15%Q) (stats_rollup Sample.stats_df Sample.march)
  /\ In (("P2", "D100"), Some 7%Q) (stats_rollup Sample.stats_df Sample.march)
  /\ forall v, ~ In (("P3", "D100"), v) (stats_rollup Sample.stats_df Sample.march).
Proof.
  split; [|split].
  - apply (proj1 (stats_rollup_prefers_blend Sample.stats_df Sample.march
                    ("P1", "D100") (Some 15%Q))).
    vm_compute. reflexivity.
  - apply (proj1 (stats_rollup_prefers_blend Sample.stats_df Sample.march
                    ("P2", "D100") (Some 7%Q))).
    vm_compute. split; [discriminate|reflexivity].
  - intros v H.
    apply (proj1 (stats_rollup_prefers_blend Sample.stats_df Sample.march
                    ("P3", "D100") v)) in H.
    vm_compute in H. destruct H as [H _]. now apply H.
Defined.

(** ** Key normalization and null keys *)

Lemma In_dedup_incl {K : Type} `{GroupKey K} (x : K) (l : list K) :
  In x (dedup l) -> In x l.
Proof.
  induction l as [|k l IH]; [intros []|].
  cbn [dedup]. intros [->|Hx]; [now left|].
  apply filter_In in Hx. right. apply IH, Hx.
Qed.

(** The key of a group is the key of one of the rows grouped. *)
Lemma groupby_key_of_row {R K : Type} `{GroupKey K} (key : R -> K)
    (rows : list R) (kg : K * list R) :
  In kg (groupby key rows) -> exists r0, In r0 rows /\ fst kg = key r0.
Proof.
  unfold groupby. rewrite in_map_iff. intros [k [<- Hk]].
  apply In_sort_by, In_dedup_incl, in_map_iff in Hk.
  destruct Hk as [r0 [<- Hr]]. now exists r0.
Qed.

Section GroupOfRow.

Context {R K : Type} `{GroupKey K}.
Hypothesis same_refl : forall a : K, same_key a a = true.
Hypothesis same_sym : forall a b : K, same_key a b = same_key b a.
Hypothesis same_trans :
  forall a b c : K, same_key a b = true -> same_key b c = true -> same_key a c = true.

Variable key : R -> K.

(** Every row has its group, which holds the rows of its key. *)
Lemma groupby_group_of_row (rows : list R) (r : R) :
  In r rows ->
  exists kg,
    In kg (groupby key rows)
    /\ same_key (key r) (fst kg) = true
    /\ snd kg = filter (fun x => same_key (key x) (key r)) rows.
Proof.
  intros Hr.
  pose proof (one_group_per_row same_refl same_sym same_trans key rows r Hr) as One.
  destruct (filter (same_key (key r)) (sort_by key_leb (dedup (map key rows))))
    as [|k ks] eqn:F; [discriminate|].
  assert (Hk : In k (filter (same_key (key r))
                            (sort_by key_leb (dedup (map key rows)))))
    by (rewrite F; now left).
  apply filter_In in Hk. destruct Hk as [Hk S].
  exists (k, filter (fun x => same_key (key x) k) rows). split; [|split].
  - unfold groupby. apply in_map_iff. now exists k.
  - exact S.
  - cbn [snd]. apply filter_ext. intros x.
    destruct (same_key (key x) (key r)) eqn:E.
    + now apply (same_trans _ _ _ E).
    + destruct (same_key (key x) k) eqn:E'; [|reflexivity].
      rewrite same_sym in S. rewrite (same_trans _ _ _ E' S) in E. discriminate.
Qed.

End GroupOfRow.

Lemma shown_key_group_label (c : cell) : group_label c = shown_key c.
Proof. now destruct c. Qed.

Lemma same_cell_shown (a b : cell) :
  same_cell a b = true -> shown_key a = shown_key b.
Proof.
  destruct a as [s| | |s], b as [t| | |t]; cbn; try discriminate; try reflexivity;
    intros E; apply String.eqb_eq in E; now subst.
Qed.





(** ** The dashboards, grain by grain *)

Lemma safe_ratio_unless_zero (num den : Q) :
  ratio_unless_zero (safe_ratio num den) num den.
Proof.
  split; intros H; [now apply safe_ratio_nonzero|now apply safe_ratio_zero].
Qed.

Lemma in_unit_types (u : string) : In u unit_types <-> known_unit u.
Proof.
  unfold unit_types, known_unit. cbn [In]. intuition congruence.
Qed.

Lemma grain_of_total (raw : list raw_row) (r : raw_row) :
  grain_of GTotal raw r = unit_df raw (r_Units r).
Proof.
  unfold grain_of, unit_df. apply filter_ext. intros x. cbn. apply andb_true_r.
Qed.

Section GrainGroups.

Context {K : Type} `{GroupKey K}.
Hypothesis same_refl : forall a : K, same_key a a = true.
Hypothesis same_sym : forall a b : K, same_key a b = same_key b a.
Hypothesis same_trans :
  forall a b c : K, same_key a b = true -> same_key b c = true -> same_key a c = true.

Variable key : raw_row -> K.
Variable g : grain.
Hypothesis key_grain :
  forall r x, same_key (key x) (key r) = same_grain_columns g r x.

(** A group of the rows of a unit type is the grain of one of its rows. *)
Lemma unit_group_is_grain (raw : list raw_row) (u : string) (kg : K * list raw_row) :
  In kg (groupby key (unit_df raw u)) ->
  exists r0,
    In r0 raw /\ r_Units r0 = u /\ fst kg = key r0 /\ snd kg = grain_of g raw r0.
Proof.
  intros Hkg. destruct (groupby_key_of_row _ _ _ Hkg) as [r0 [Hr E]].
  unfold unit_df in Hr. apply filter_In in Hr. destruct Hr as [Hr U].
  apply String.eqb_eq in U.
  exists r0. split; [exact Hr|]. split; [exact U|]. split; [exact E|].
  rewrite (In_groupby _ _ _ Hkg), E. unfold unit_df, grain_of.
  rewrite filter_filter_and. apply filter_ext. intros x.
  now rewrite key_grain, U.
Qed.

(** Every row of a known unit type has the group of its grain. *)
Lemma grain_has_unit_group (raw : list raw_row) (r : raw_row) :
  In r raw ->
  exists kg,
    In kg (groupby key (unit_df raw (r_Units r)))
    /\ same_key (key r) (fst kg) = true
    /\ snd kg = grain_of g raw r.
Proof.
  intros Hr.
  assert (Hu : In r (unit_df raw (r_Units r))).
  { apply filter_In. split; [exact Hr|apply String.eqb_refl]. }
  destruct (groupby_group_of_row same_refl same_sym same_trans key _ r Hu)
    as [kg [Hkg [S G]]].
  exists kg. split; [exact Hkg|]. split; [exact S|].
  rewrite G. unfold unit_df, grain_of.
  rewrite filter_filter_and. apply filter_ext. intros x.
  now rewrite key_grain.
Qed.

End GrainGroups.

Lemma cells2_refl (a : cell * cell) : same_key a a = true.
Proof. apply pair_same_refl; apply cell_same_refl. Qed.

Lemma cells2_sym (a b : cell * cell) : same_key a b = same_key b a.
Proof. apply pair_same_sym; apply cell_same_sym. Qed.

Lemma cells2_trans (a b c : cell * cell) :
  same_key a b = true -> same_key b c = true -> same_key a c = true.
Proof. apply pair_same_trans; apply cell_same_trans. Qed.

Lemma cells3_refl (a : cell * cell * cell) : same_key a a = true.
Proof. apply pair_same_refl; [apply cells2_refl|apply cell_same_refl]. Qed.

Lemma cells3_sym (a b : cell * cell * cell) : same_key a b = same_key b a.
Proof. apply pair_same_sym; [apply cells2_sym|apply cell_same_sym]. Qed.

Lemma cells3_trans (a b c : cell * cell * cell) :
  same_key a b = true -> same_key b c = true -> same_key a c = true.
Proof. apply pair_same_trans; [apply cells2_trans|apply cell_same_trans]. Qed.

Lemma cells4_refl (a : cell * cell * cell * cell) : same_key a a = true.
Proof. apply pair_same_refl; [apply cells3_refl|apply cell_same_refl]. Qed.

Lemma cells4_sym (a b : cell * cell * cell * cell) : same_key a b = same_key b a.
Proof. apply pair_same_sym; [apply cells3_sym|apply cell_same_sym]. Qed.

Lemma cells4_trans (a b c : cell * cell * cell * cell) :
  same_key a b = true -> same_key b c = true -> same_key a c = true.
Proof. apply pair_same_trans; [apply cells3_trans|apply cell_same_trans]. Qed.

Lemma bu_key_grain (r x : raw_row) :
  same_key (r_Division x, r_BU_Name x) (r_Division r, r_BU_Name r)
  = same_grain_columns GBU r x.
Proof. reflexivity. Qed.

Lemma prod_fam_key_grain (r x : raw_row) :
  same_key (r_Division x, r_BU_Name x, r_Prod_Fam x)
           (r_Division r, r_BU_Name r, r_Prod_Fam r)
  = same_grain_columns GProdFam r x.
Proof. reflexivity. Qed.

Lemma manager_key_grain (r x : raw_row) :
  same_key (r_Division x, r_BU_Name x, r_Marketing_Manager x)
           (r_Division r, r_BU_Name r, r_Marketing_Manager r)
  = same_grain_columns GManager r x.
Proof. reflexivity. Qed.

Lemma product_key_grain (r x : raw_row) :
  same_key (r_Division x, r_BU_Name x, r_Product x, r_Marketing_Manager x)
           (r_Division r, r_BU_Name r, r_Product r, r_Marketing_Manager r)
  = same_grain_columns GProduct r x.
Proof. reflexivity. Qed.

Lemma unit_df_has_row (raw : list raw_row) (r : raw_row) :
  In r raw -> is_empty (unit_df raw (r_Units r)) = false.
Proof.
  intros Hr.
  assert (Hu : In r (unit_df raw (r_Units r))).
  { apply filter_In. split; [exact Hr|apply String.eqb_refl]. }
  destruct (unit_df raw (r_Units r)); [destruct Hu|reflexivity].
Qed.

Lemma unit_df_row (raw : list raw_row) (u : string) :
  is_empty (unit_df raw u) = false ->
  exists r0, In r0 raw /\ r_Units r0 = u.
Proof.
  destruct (unit_df raw u) as [|r0 l] eqn:E; [discriminate|]. intros _.
  assert (H : In r0 (unit_df raw u)) by (rewrite E; now left).
  apply filter_In in H. destruct H as [H U]. apply String.eqb_eq in U. eauto.
Qed.

(** The records of a group, read as those of the grain of a row. *)
Ltac metric_of_group :=
  unfold holds_metric, stats_acc, mkt_acc, stats_wape, mkt_wape, sums_of;
  cbn [fst snd dr_Metric dr_Stats_Model dr_Marketing actuals_sum stats_sum
       mkt_sum stats_abs mkt_abs];
  first [ left; split; [reflexivity|]; split; apply safe_ratio_unless_zero
        | right; split; [reflexivity|]; split; apply safe_ratio_unless_zero ].

Ltac labels_of_group :=
  unfold labelled;
  cbn [fst snd dr_Units dr_Scope dr_BU_Code dr_BU_Name dr_Prod_Fam dr_Product
       dr_Marketing_Manager];
  rewrite ?shown_key_group_label; repeat split; reflexivity.

Lemma dashboard_records_are_grains (raw : list raw_row) (rec : dash_record) :
  In rec (dashboards raw) ->
  exists g r,
    In r raw /\ known_unit (r_Units r) /\ reported g (dr_Metric rec)
    /\ labelled g r rec /\ holds_metric rec (grain_of g raw r).
Proof.
  unfold dashboards. rewrite !in_app_iff.
  intros [Hin|[Hin|[Hin|[Hin|Hin]]]].
  - unfold build_totals_dashboard in Hin. apply in_flat_map in Hin.
    destruct Hin as [u [Hu Hin]]. apply in_unit_types in Hu.
    destruct (is_empty (unit_df raw u)) eqn:Em; [destruct Hin|].
    apply in_app_or in Hin. destruct Hin as [Hin|Hin].
    + apply in_flat_map in Hin. destruct Hin as [[[bc bn] grp] [Hkg Hin]].
      destruct (unit_group_is_grain (fun r => (r_Division r, r_BU_Name r)) GBU
                  bu_key_grain raw u _ Hkg) as [r0 [Hr [U [E G]]]].
      cbn [fst snd] in E, G. injection E as -> ->. subst grp u.
      exists GBU, r0. split; [exact Hr|]. split; [exact Hu|].
      cbn [fst snd] in Hin. destruct Hin as [<-|[<-|[]]].
      * split; [left; reflexivity|]. split; [labels_of_group|metric_of_group].
      * split; [right; split; [reflexivity|discriminate]|].
        split; [labels_of_group|metric_of_group].
    + destruct (unit_df_row raw u Em) as [r0 [Hr U]]. subst u.
      rewrite <- (grain_of_total raw r0) in Hin.
      exists GTotal, r0. split; [exact Hr|]. split; [exact Hu|].
      cbn [fst snd] in Hin. destruct Hin as [<-|[<-|[]]].
      * split; [left; reflexivity|]. split; [labels_of_group|metric_of_group].
      * split; [right; split; [reflexivity|discriminate]|].
        split; [labels_of_group|metric_of_group].
  - unfold build_prod_fam_dashboard in Hin. apply in_flat_map in Hin.
    destruct Hin as [u [Hu Hin]]. apply in_unit_types in Hu.
    destruct (is_empty (unit_df raw u)) eqn:Em; [destruct Hin|].
    apply in_map_iff in Hin. destruct Hin as [[[[bc bn] pf] grp] [<- Hkg]].
    destruct (unit_group_is_grain
                (fun r => (r_Division r, r_BU_Name r, r_Prod_Fam r)) GProdFam
                prod_fam_key_grain raw u _ Hkg) as [r0 [Hr [U [E G]]]].
    cbn [fst snd] in E, G. injection E as -> -> ->. subst grp u.
    exists GProdFam, r0. split; [exact Hr|]. split; [exact Hu|].
    split; [left; reflexivity|]. split; [labels_of_group|metric_of_group].
  - unfold build_prod_fam_wape_dashboard in Hin. apply in_flat_map in Hin.
    destruct Hin as [u [Hu Hin]]. apply in_unit_types in Hu.
    destruct (is_empty (unit_df raw u)) eqn:Em; [destruct Hin|].
    apply in_map_iff in Hin. destruct Hin as [[[[bc bn] pf] grp] [<- Hkg]].
    destruct (unit_group_is_grain
                (fun r => (r_Division r, r_BU_Name r, r_Prod_Fam r)) GProdFam
                prod_fam_key_grain raw u _ Hkg) as [r0 [Hr [U [E G]]]].
    cbn [fst snd] in E, G. injection E as -> -> ->. subst grp u.
    exists GProdFam, r0. split; [exact Hr|]. split; [exact Hu|].
    split; [right; split; [reflexivity|discriminate]|].
    split; [labels_of_group|metric_of_group].
  - unfold build_marketing_manager_dashboard in Hin. apply in_flat_map in Hin.
    destruct Hin as [u [Hu Hin]]. apply in_unit_types in Hu.
    destruct (is_empty (unit_df raw u)) eqn:Em; [destruct Hin|].
    apply in_flat_map in Hin. destruct Hin as [[[[bc bn] mm] grp] [Hkg Hin]].
    destruct (unit_group_is_grain
                (fun r => (r_Division r, r_BU_Name r, r_Marketing_Manager r))
                GManager manager_key_grain raw u _ Hkg)
      as [r0 [Hr [U [E G]]]].
    cbn [fst snd] in E, G. injection E as -> -> ->. subst grp u.
    exists GManager, r0. split; [exact Hr|]. split; [exact Hu|].
    cbn [fst snd] in Hin. destruct Hin as [<-|[<-|[]]].
    + split; [left; reflexivity|]. split; [labels_of_group|metric_of_group].
    + split; [right; split; [reflexivity|discriminate]|].
      split; [labels_of_group|metric_of_group].
  - unfold build_product_dashboard in Hin. apply in_flat_map in Hin.
    destruct Hin as [u [Hu Hin]]. apply in_unit_types in Hu.
    destruct (is_empty (unit_df raw u)) eqn:Em; [destruct Hin|].
    apply in_map_iff in Hin. destruct Hin as [[[[[bc bn] p] mm] grp] [<- Hkg]].
    destruct (unit_group_is_grain
                (fun r => (r_Division r, r_BU_Name r, r_Product r,
                           r_Marketing_Manager r))
                GProduct product_key_grain raw u _ Hkg)
      as [r0 [Hr [U [E G]]]].
    cbn [fst snd] in E, G. injection E as -> -> -> ->. subst grp u.
    exists GProduct, r0. split; [exact Hr|]. split; [exact Hu|].
    split; [left; reflexivity|]. split; [labels_of_group|metric_of_group].
Qed.

Ltac in_builder r Hr Hu :=
  apply in_flat_map; exists (r_Units r);
  split; [now apply in_unit_types|];
  rewrite (unit_df_has_row _ r Hr).

Ltac same_labels :=
  unfold labelled;
  cbn [fst snd dr_Units dr_Scope dr_BU_Code dr_BU_Name dr_Prod_Fam dr_Product
       dr_Marketing_Manager];
  rewrite ?shown_key_group_label;
  repeat match goal with
         | S : same_cell ?a ?b = true |- _ =>
             apply same_cell_shown in S; rewrite <- ?S; clear S
         end;
  repeat split; reflexivity.

Lemma grains_have_records (raw : list raw_row) (g : grain) (r : raw_row)
    (metric : string) :
  In r raw -> known_unit (r_Units r) -> reported g metric ->
  exists rec,
    In rec (dashboards raw) /\ dr_Metric rec = metric
    /\ labelled g r rec /\ holds_metric rec (grain_of g raw r).
Proof.
  intros Hr Hu Hm. unfold dashboards. destruct g.
  - (* total *)
    destruct Hm as [->|[-> _]]; eexists; (split; [|split; [|split]]).
    + apply in_or_app. left. unfold build_totals_dashboard.
      in_builder r Hr Hu. apply in_or_app. right. left. reflexivity.
    + reflexivity.
    + labels_of_group.
    + rewrite grain_of_total. metric_of_group.
    + apply in_or_app. left. unfold build_totals_dashboard.
      in_builder r Hr Hu. apply in_or_app. right. right. left. reflexivity.
    + reflexivity.
    + labels_of_group.
    + rewrite grain_of_total. metric_of_group.
  - (* BU *)
    destruct (grain_has_unit_group cells2_refl cells2_sym cells2_trans
                (fun r => (r_Division r, r_BU_Name r)) GBU bu_key_grain raw r Hr)
      as [[[bc bn] grp] [Hkg [S G]]].
    cbn [fst snd] in S, G. subst grp.
    apply andb_true_iff in S. destruct S as [S1 S2].
    change (same_cell (r_Division r) bc = true) in S1.
    change (same_cell (r_BU_Name r) bn = true) in S2.
    destruct Hm as [->|[-> _]]; eexists; (split; [|split; [|split]]).
    + apply in_or_app. left. unfold build_totals_dashboard.
      in_builder r Hr Hu. apply in_or_app. left.
      apply in_flat_map. eexists. split; [exact Hkg|]. left. reflexivity.
    + reflexivity.
    + same_labels.
    + metric_of_group.
    + apply in_or_app. left. unfold build_totals_dashboard.
      in_builder r Hr Hu. apply in_or_app. left.
      apply in_flat_map. eexists. split; [exact Hkg|]. right. left. reflexivity.
    + reflexivity.
    + same_labels.
    + metric_of_group.
  - (* product family *)
    destruct (grain_has_unit_group cells3_refl cells3_sym cells3_trans
                (fun r => (r_Division r, r_BU_Name r, r_Prod_Fam r)) GProdFam
                prod_fam_key_grain raw r Hr)
      as [[[[bc bn] pf] grp] [Hkg [S G]]].
    cbn [fst snd] in S, G. subst grp.
    apply andb_true_iff in S. destruct S as [S S3].
    apply andb_true_iff in S. destruct S as [S1 S2].
    change (same_cell (r_Division r) bc = true) in S1.
    change (same_cell (r_BU_Name r) bn = true) in S2.
    change (same_cell (r_Prod_Fam r) pf = true) in S3.
    destruct Hm as [->|[-> _]]; eexists; (split; [|split; [|split]]).
    + apply in_or_app. right. apply in_or_app. left.
      unfold build_prod_fam_dashboard. in_builder r Hr Hu.
      apply in_map_iff. eexists. split; [reflexivity|exact Hkg].
    + reflexivity.
    + same_labels.
    + metric_of_group.
    + apply in_or_app. right. apply in_or_app. right. apply in_or_app. left.
      unfold build_prod_fam_wape_dashboard. in_builder r Hr Hu.
      apply in_map_iff. eexists. split; [reflexivity|exact Hkg].
    + reflexivity.
    + same_labels.
    + metric_of_group.
  - (* marketing manager *)
    destruct (grain_has_unit_group cells3_refl cells3_sym cells3_trans
                (fun r => (r_Division r, r_BU_Name r, r_Marketing_Manager r))
                GManager manager_key_grain raw r Hr)
      as [[[[bc bn] mm] grp] [Hkg [S G]]].
    cbn [fst snd] in S, G. subst grp.
    apply andb_true_iff in S. destruct S as [S S3].
    apply andb_true_iff in S. destruct S as [S1 S2].
    change (same_cell (r_Division r) bc = true) in S1.
    change (same_cell (r_BU_Name r) bn = true) in S2.
    change (same_cell (r_Marketing_Manager r) mm = true) in S3.
    destruct Hm as [->|[-> _]]; eexists; (split; [|split; [|split]]).
    + do 3 (apply in_or_app; right). apply in_or_app. left.
      unfold build_marketing_manager_dashboard. in_builder r Hr Hu.
      apply in_flat_map. eexists. split; [exact Hkg|]. left. reflexivity.
    + reflexivity.
    + same_labels.
    + metric_of_group.
    + do 3 (apply in_or_app; right). apply in_or_app. left.
      unfold build_marketing_manager_dashboard. in_builder r Hr Hu.
      apply in_flat_map. eexists. split; [exact Hkg|]. right. left. reflexivity.
    + reflexivity.
    + same_labels.
    + metric_of_group.
  - (* product *)
    destruct (grain_has_unit_group cells4_refl cells4_sym cells4_trans
                (fun r => (r_Division r, r_BU_Name r, r_Product r,
                           r_Marketing_Manager r))
                GProduct product_key_grain raw r Hr)
      as [[[[[bc bn] p] mm] grp] [Hkg [S G]]].
    cbn [fst snd] in S, G. subst grp.
    apply andb_true_iff in S. destruct S as [S S4].
    apply andb_true_iff in S. destruct S as [S S3].
    apply andb_true_iff in S. destruct S as [S1 S2].
    change (same_cell (r_Division r) bc = true) in S1.
    change (same_cell (r_BU_Name r) bn = true) in S2.
    change (same_cell (r_Product r) p = true) in S3.
    change (same_cell (r_Marketing_Manager r) mm = true) in S4.
    destruct Hm as [->|[-> N]]; [|now elim N].
    eexists. split; [|split; [|split]].
    + do 4 (apply in_or_app; right).
      unfold build_product_dashboard. in_builder r Hr Hu.
      apply in_map_iff. eexists. split; [reflexivity|exact Hkg].
    + reflexivity.
    + same_labels.
    + metric_of_group.
Qed.

(** C1: the five dashboard frames hold the metrics of every grain and of
    no other.  Every record is the record of a grain (the total of a unit
    type, a business unit, a product family, a marketing manager or a
    product) and holds over the reconciled records of that grain, with A
    the sum of their actuals, the accuracy ratio F/A per side, F being the
    side's forecast sum, or the WAPE E/A per side, E being the side's
    absolute-error sum; the value is null exactly when A is zero, whatever F
    and E are, so that no division by zero is reached.  And every grain of
    every reconciled record of a known unit type has its accuracy record,
    and its WAPE record unless it is a product. *)
Theorem dashboard_metric_definitions (raw : list raw_row) :
  (forall rec,
     In rec (dashboards raw) ->
     exists g r,
       In r raw /\ known_unit (r_Units r) /\ reported g (dr_Metric rec)
       /\ labelled g r rec /\ holds_metric rec (grain_of g raw r))
  /\ (forall g r metric,
        In r raw -> known_unit (r_Units r) -> reported g metric ->
        exists rec,
          In rec (dashboards raw) /\ dr_Metric rec = metric
          /\ labelled g r rec /\ holds_metric rec (grain_of g raw r)).
Proof.
  split.
  - apply dashboard_records_are_grains.
  - intros g r metric. apply grains_have_records.
Qed.

(** The sample family, with actuals of 120 and a marketing forecast of
    100: its business unit has an accuracy record that holds 100/120 for
    marketing. *)
Lemma dashboard_metric_definitions_witness :
  exists rec,
    In rec (dashboards [Sample.fam1_row])
    /\ dr_Metric rec = ACC
    /\ labelled GBU Sample.fam1_row rec
    /\ dr_Marketing rec = Some (100 / 120)%Q.
Proof.
  destruct (proj2 (dashboard_metric_definitions [Sample.fam1_row])
              GBU Sample.fam1_row ACC (or_introl eq_refl) (or_introl eq_refl)
              (or_introl eq_refl))
    as [rec [Hin [Hm [Hl Hv]]]].
  exists rec. split; [exact Hin|]. split; [exact Hm|]. split; [exact Hl|].
  destruct Hv as [[_ [_ [V _]]]|[W _]]; [|rewrite Hm in W; discriminate W].
  apply V. vm_compute. discriminate.
Defined.

(** ** The trend aggregator, grain by grain *)

Lemma trend_safe_ratio_unless_zero (num den : Q) :
  ratio_unless_zero (Trend.safe_ratio num den) num den.
Proof.
  unfold ratio_unless_zero, Trend.safe_ratio.
  destruct (Qeq_bool den 0) eqn:E.
  - apply Qeq_bool_iff in E. split; [intros N; contradiction|reflexivity].
  - split; [reflexivity|]. intros Z. apply Qeq_bool_iff in Z. congruence.
Qed.

Lemma same_cell_refl (a : cell) : same_cell a a = true.
Proof. apply cell_same_refl. Qed.

Lemma In_grain_of_self (g : grain) (raw : list raw_row) (r : raw_row) :
  In r raw -> In r (grain_of g raw r).
Proof.
  intros Hr. apply filter_In. split; [exact Hr|].
  rewrite String.eqb_refl. destruct g; cbn; now rewrite ?same_cell_refl.
Qed.

Lemma first_prod_fam_In (rows : list raw_row) :
  rows <> [] ->
  exists x, In x rows /\ Trend.first_prod_fam rows = py_str (r_Prod_Fam x).
Proof.
  destruct rows as [|x l]; [intros N; now elim N|]. intros _.
  exists x. split; [now left|reflexivity].
Qed.

Lemma view_rows_hold (frame : list raw_row) (m : date)
    (u v bc bn pf p mm : string) (t : Trend.trend_row) :
  In t (Trend._view_rows frame m u v bc bn pf p mm) ->
  Trend.month_start t = m /\ Trend.units t = u
  /\ Trend.metric_name t = "midmark_fcast_acc"
  /\ Trend.view_level t = v /\ Trend.bu_code t = bc /\ Trend.bu_name t = bn
  /\ Trend.prod_fam t = pf /\ Trend.product t = p
  /\ Trend.marketing_manager t = mm
  /\ holds_trend_metric t frame.
Proof.
  unfold Trend._view_rows. cbv zeta. cbn [In].
  intros [<-|[<-|[]]];
    cbn [Trend.month_start Trend.units Trend.metric_name Trend.view_level
         Trend.bu_code Trend.bu_name Trend.prod_fam Trend.product
         Trend.marketing_manager];
    do 9 (split; [reflexivity|]);
    unfold holds_trend_metric;
    cbn [Trend.actuals_sum Trend.model_side Trend.forecast_sum
         Trend.abs_error_sum Trend.metric_value];
    (split; [reflexivity|]); (split; [|apply trend_safe_ratio_unless_zero]).
  - left. repeat split; reflexivity.
  - right. repeat split; reflexivity.
Qed.

Lemma view_rows_sides (frame : list raw_row) (m : date)
    (u v bc bn pf p mm side : string) :
  side = "stats_model" \/ side = "marketing" ->
  exists t,
    In t (Trend._view_rows frame m u v bc bn pf p mm)
    /\ Trend.model_side t = side.
Proof.
  unfold Trend._view_rows. cbv zeta.
  intros [->| ->]; eexists.
  - split; [left; reflexivity|reflexivity].
  - split; [right; left; reflexivity|reflexivity].
Qed.

Lemma grain_of_nonempty (g : grain) (raw : list raw_row) (r : raw_row) :
  In r raw -> grain_of g raw r <> [].
Proof.
  intros Hr E. pose proof (In_grain_of_self g raw r Hr) as H.
  rewrite E in H. destruct H.
Qed.

Lemma trend_rows_are_grains (raw : list raw_row) (m : date) (t : Trend.trend_row) :
  In t (Trend.build_month_trend_rows raw m) ->
  exists g r,
    In r raw /\ known_unit (r_Units r) /\ trend_grain g
    /\ trend_labelled g r (grain_of g raw r) m t
    /\ holds_trend_metric t (grain_of g raw r).
Proof.
  unfold Trend.build_month_trend_rows. rewrite in_flat_map.
  intros [u [Hu Hin]]. apply in_unit_types in Hu.
  destruct (is_empty (unit_df raw u)) eqn:Em; [destruct Hin|].
  rewrite !in_app_iff, !in_flat_map in Hin.
  destruct Hin as [Hin|[[kg [Hkg Hin]]|[[kg [Hkg Hin]]|[kg [Hkg Hin]]]]].
  - destruct (unit_df_row raw u Em) as [r0 [Hr U]]. subst u.
    rewrite <- (grain_of_total raw r0) in Hin.
    apply view_rows_hold in Hin.
    destruct Hin as [H1 [H2 [H3 [H4 [H5 [H6 [H7 [H8 [H9 H10]]]]]]]]].
    exists GTotal, r0. split; [exact Hr|]. split; [exact Hu|].
    split; [discriminate|]. split; [|exact H10].
    unfold trend_labelled. repeat split; assumption.
  - destruct kg as [[bc bn] grp].
    destruct (unit_group_is_grain (fun r => (r_Division r, r_BU_Name r)) GBU
                bu_key_grain raw u _ Hkg) as [r0 [Hr [U [E G]]]].
    cbn [fst snd] in E, G, Hin. injection E as -> ->. subst grp u.
    apply view_rows_hold in Hin.
    destruct Hin as [H1 [H2 [H3 [H4 [H5 [H6 [H7 [H8 [H9 H10]]]]]]]]].
    exists GBU, r0. split; [exact Hr|]. split; [exact Hu|].
    split; [discriminate|]. split; [|exact H10].
    unfold trend_labelled. rewrite <- !shown_key_group_label.
    repeat split; assumption.
  - destruct kg as [[[bc bn] pf] grp].
    destruct (unit_group_is_grain
                (fun r => (r_Division r, r_BU_Name r, r_Prod_Fam r)) GProdFam
                prod_fam_key_grain raw u _ Hkg) as [r0 [Hr [U [E G]]]].
    cbn [fst snd] in E, G, Hin. injection E as -> -> ->. subst grp u.
    apply view_rows_hold in Hin.
    destruct Hin as [H1 [H2 [H3 [H4 [H5 [H6 [H7 [H8 [H9 H10]]]]]]]]].
    exists GProdFam, r0. split; [exact Hr|]. split; [exact Hu|].
    split; [discriminate|]. split; [|exact H10].
    unfold trend_labelled. rewrite <- !shown_key_group_label.
    repeat split; assumption.
  - destruct kg as [[[[bc bn] p] mm] grp].
    destruct (unit_group_is_grain
                (fun r => (r_Division r, r_BU_Name r, r_Product r,
                           r_Marketing_Manager r))
                GProduct product_key_grain raw u _ Hkg)
      as [r0 [Hr [U [E G]]]].
    cbn [fst snd] in E, G, Hin. injection E as -> -> -> ->. subst grp u.
    apply view_rows_hold in Hin.
    destruct Hin as [H1 [H2 [H3 [H4 [H5 [H6 [H7 [H8 [H9 H10]]]]]]]]].
    exists GProduct, r0. split; [exact Hr|]. split; [exact Hu|].
    split; [discriminate|]. split; [|exact H10].
    unfold trend_labelled. rewrite <- !shown_key_group_label.
    split; [assumption|]. split; [assumption|]. split; [assumption|].
    split; [assumption|]. split; [assumption|]. split; [assumption|].
    split; [|split; assumption].
    destruct (first_prod_fam_In _ (grain_of_nonempty GProduct raw r0 Hr))
      as [x [Hx Ex]].
    exists x. split; [exact Hx|]. now rewrite H7.
Qed.

Ltac in_trend_builder r Hr Hu :=
  unfold Trend.build_month_trend_rows;
  apply in_flat_map; exists (r_Units r);
  split; [now apply in_unit_types|];
  rewrite (unit_df_has_row _ r Hr).

Lemma grains_have_trend_rows (raw : list raw_row) (m : date) (g : grain)
    (r : raw_row) (side : string) :
  In r raw -> known_unit (r_Units r) -> trend_grain g ->
  side = "stats_model" \/ side = "marketing" ->
  exists t,
    In t (Trend.build_month_trend_rows raw m)
    /\ Trend.model_side t = side
    /\ trend_labelled g r (grain_of g raw r) m t
    /\ holds_trend_metric t (grain_of g raw r).
Proof.
  intros Hr Hu Hg Hs. destruct g.
  - destruct (view_rows_sides (unit_df raw (r_Units r)) m (r_Units r) "total"
                "ALL" "Total" "" "" "" side Hs) as [t [Ht Es]].
    exists t. split; [|split; [exact Es|]].
    + in_trend_builder r Hr Hu. apply in_or_app. left. exact Ht.
    + rewrite grain_of_total. apply view_rows_hold in Ht.
      destruct Ht as [H1 [H2 [H3 [H4 [H5 [H6 [H7 [H8 [H9 H10]]]]]]]]].
      split; [|exact H10]. unfold trend_labelled. repeat split; assumption.
  - destruct (grain_has_unit_group cells2_refl cells2_sym cells2_trans
                (fun r => (r_Division r, r_BU_Name r)) GBU bu_key_grain raw r Hr)
      as [[[bc bn] grp] [Hkg [S G]]].
    cbn [fst snd] in S, G. subst grp.
    apply andb_true_iff in S. destruct S as [S1 S2].
    change (same_cell (r_Division r) bc = true) in S1.
    change (same_cell (r_BU_Name r) bn = true) in S2.
    destruct (view_rows_sides (grain_of GBU raw r) m (r_Units r) "bu"
                (py_str (group_label bc)) (py_str (group_label bn)) "" "" ""
                side Hs) as [t [Ht Es]].
    exists t. split; [|split; [exact Es|]].
    + in_trend_builder r Hr Hu. apply in_or_app. right. apply in_or_app. left.
      apply in_flat_map. eexists. split; [exact Hkg|]. exact Ht.
    + apply view_rows_hold in Ht.
      destruct Ht as [H1 [H2 [H3 [H4 [H5 [H6 [H7 [H8 [H9 H10]]]]]]]]].
      split; [|exact H10]. unfold trend_labelled.
      apply same_cell_shown in S1, S2. rewrite S1, S2, <- !shown_key_group_label.
      repeat split; assumption.
  - destruct (grain_has_unit_group cells3_refl cells3_sym cells3_trans
                (fun r => (r_Division r, r_BU_Name r, r_Prod_Fam r)) GProdFam
                prod_fam_key_grain raw r Hr)
      as [[[[bc bn] pf] grp] [Hkg [S G]]].
    cbn [fst snd] in S, G. subst grp.
    apply andb_true_iff in S. destruct S as [S S3].
    apply andb_true_iff in S. destruct S as [S1 S2].
    change (same_cell (r_Division r) bc = true) in S1.
    change (same_cell (r_BU_Name r) bn = true) in S2.
    change (same_cell (r_Prod_Fam r) pf = true) in S3.
    destruct (view_rows_sides (grain_of GProdFam raw r) m (r_Units r) "prod_fam"
                (py_str (group_label bc)) (py_str (group_label bn))
                (py_str (group_label pf)) "" "" side Hs) as [t [Ht Es]].
    exists t. split; [|split; [exact Es|]].
    + in_trend_builder r Hr Hu. do 2 (apply in_or_app; right).
      apply in_or_app. left.
      apply in_flat_map. eexists. split; [exact Hkg|]. exact Ht.
    + apply view_rows_hold in Ht.
      destruct Ht as [H1 [H2 [H3 [H4 [H5 [H6 [H7 [H8 [H9 H10]]]]]]]]].
      split; [|exact H10]. unfold trend_labelled.
      apply same_cell_shown in S1, S2, S3.
      rewrite S1, S2, S3, <- !shown_key_group_label.
      repeat split; assumption.
  - now elim Hg.
  - destruct (grain_has_unit_group cells4_refl cells4_sym cells4_trans
                (fun r => (r_Division r, r_BU_Name r, r_Product r,
                           r_Marketing_Manager r))
                GProduct product_key_grain raw r Hr)
      as [[[[[bc bn] p] mm] grp] [Hkg [S G]]].
    cbn [fst snd] in S, G. subst grp.
    apply andb_true_iff in S. destruct S as [S S4].
    apply andb_true_iff in S. destruct S as [S S3].
    apply andb_true_iff in S. destruct S as [S1 S2].
    change (same_cell (r_Division r) bc = true) in S1.
    change (same_cell (r_BU_Name r) bn = true) in S2.
    change (same_cell (r_Product r) p = true) in S3.
    change (same_cell (r_Marketing_Manager r) mm = true) in S4.
    destruct (view_rows_sides (grain_of GProduct raw r) m (r_Units r) "product"
                (py_str (group_label bc)) (py_str (group_label bn))
                (Trend.first_prod_fam (grain_of GProduct raw r))
                (py_str (group_label p)) (py_str (group_label mm)) side Hs)
      as [t [Ht Es]].
    exists t. split; [|split; [exact Es|]].
    + in_trend_builder r Hr Hu. do 3 (apply in_or_app; right).
      apply in_flat_map. eexists. split; [exact Hkg|]. exact Ht.
    + apply view_rows_hold in Ht.
      destruct Ht as [H1 [H2 [H3 [H4 [H5 [H6 [H7 [H8 [H9 H10]]]]]]]]].
      split; [|exact H10]. unfold trend_labelled.
      apply same_cell_shown in S1, S2, S3, S4.
      rewrite S1, S2, S3, S4, <- !shown_key_group_label.
      split; [assumption|]. split; [assumption|]. split; [assumption|].
      split; [assumption|]. split; [assumption|]. split; [assumption|].
      split; [|split; assumption].
      destruct (first_prod_fam_In _ (grain_of_nonempty GProduct raw r Hr))
        as [x [Hx Ex]].
      exists x. split; [exact Hx|]. now rewrite H7.
Qed.

(** C4 (amended): the per-month metric rows of the trend aggregator are
    the rows of the grains of the month, two for each grain, one for each
    forecasting side.  Every row is the row of a grain (the total of a unit
    type, a business unit, a product family or a product; the aggregator
    has no grain by manager) and holds, over the reconciled records of that
    grain, the sum of their actuals, the forecast sum of its side and
    sum(actuals)/sum(forecast), the reciprocal of the dashboard's ratio; the
    value is null exactly when that forecast sum is zero.  And every such
    grain of every reconciled record of a known unit type has its row for
    either side. *)
Theorem trend_metric_is_actuals_over_forecast (raw : list raw_row) (m : date) :
  (forall t,
     In t (Trend.build_month_trend_rows raw m) ->
     exists g r,
       In r raw /\ known_unit (r_Units r) /\ trend_grain g
       /\ trend_labelled g r (grain_of g raw r) m t
       /\ holds_trend_metric t (grain_of g raw r))
  /\ (forall g r side,
        In r raw -> known_unit (r_Units r) -> trend_grain g ->
        side = "stats_model" \/ side = "marketing" ->
        exists t,
          In t (Trend.build_month_trend_rows raw m)
          /\ Trend.model_side t = side
          /\ trend_labelled g r (grain_of g raw r) m t
          /\ holds_trend_metric t (grain_of g raw r)).
Proof.
  split.
  - apply trend_rows_are_grains.
  - intros g r side. apply grains_have_trend_rows.
Qed.

(** The sample family, with actuals of 120 and a marketing forecast of
    100: the marketing row of its product holds 120/100. *)
Lemma trend_metric_is_actuals_over_forecast_witness :
  exists t,
    In t (Trend.build_month_trend_rows [Sample.fam1_row] Sample.march)
    /\ Trend.model_side t = "marketing"
    /\ Trend.view_level t = "product"
    /\ Trend.metric_value t = Some (120 / 100)%Q.
Proof.
  destruct (proj2 (trend_metric_is_actuals_over_forecast [Sample.fam1_row]
                     Sample.march)
              GProduct Sample.fam1_row "marketing" (or_introl eq_refl)
              (or_introl eq_refl) ltac:(discriminate) (or_intror eq_refl))
    as [t [Hin [Hs [Hl Hv]]]].
  exists t. split; [exact Hin|]. split; [exact Hs|].
  split; [apply Hl|].
  destruct Hv as [Ha [[[S _]|[_ [Hf _]]] [V _]]];
    [rewrite Hs in S; discriminate S|].
  rewrite Ha, Hf in V. apply V. vm_compute. discriminate.
Defined.

(** ** The product view of the trend report *)

Lemma latest_anchor_rows (trend_df : list Trend.trend_row) (anchor : date) :
  Trend.latest trend_df anchor = anchor_product_rows trend_df anchor.
Proof.
  unfold Trend.latest, Trend.product_all, anchor_product_rows.
  rewrite filter_filter_and. apply filter_ext. intros t.
  unfold date_eqb. btauto.
Qed.

Lemma latest_rank_entries (trend_df : list Trend.trend_row) (anchor : date) :
  Trend.latest_rank trend_df anchor
  = sort_by Trend.rank_leb (anchor_entries trend_df anchor).
Proof.
  unfold Trend.latest_rank, anchor_entries. now rewrite latest_anchor_rows.
Qed.

Lemma filter_length_insert_by {A : Type} (p : A -> bool) (leb : A -> A -> bool)
    (a : A) (l : list A) :
  List.length (filter p (insert_by leb a l)) = List.length (filter p (a :: l)).
Proof.
  induction l as [|y l IH]; [reflexivity|].
  cbn [insert_by]. destruct (leb a y); [reflexivity|].
  cbn [filter] in *. destruct (p y), (p a); cbn [List.length] in *; lia.
Qed.

Lemma filter_length_sort_by {A : Type} (p : A -> bool) (leb : A -> A -> bool)
    (l : list A) :
  List.length (filter p (sort_by leb l)) = List.length (filter p l).
Proof.
  unfold sort_by. induction l as [|a l IH]; [reflexivity|].
  cbn [fold_right]. rewrite filter_length_insert_by.
  cbn [filter]. destruct (p a); cbn [List.length]; now rewrite IH.
Qed.

Lemma filter_none {A : Type} (p : A -> bool) (l : list A) :
  (forall y, In y l -> p y = false) -> filter p l = [].
Proof.
  induction l as [|a l IH]; [reflexivity|]. intros Hp. cbn [filter].
  rewrite (Hp a (or_introl eq_refl)). apply IH. intros y Hy. apply Hp. now right.
Qed.

(** Lists without two entries of the same key. *)
Section Distinct.

Context {K : Type} `{GroupKey K}.
Hypothesis same_sym : forall a b : K, same_key a b = same_key b a.

Lemma distinct_filter (p : K -> bool) (l : list K) :
  ForallOrdPairs (fun a b : K => same_key a b = false) l -> ForallOrdPairs (fun a b : K => same_key a b = false) (filter p l).
Proof.
  induction 1 as [|a l Ha Hl IH]; cbn [filter]; [constructor|].
  destruct (p a); [|exact IH]. constructor; [|exact IH].
  rewrite Forall_forall in *. intros x Hx. apply filter_In in Hx. apply Ha, Hx.
Qed.

Lemma distinct_dedup (l : list K) : ForallOrdPairs (fun a b : K => same_key a b = false) (dedup l).
Proof.
  induction l as [|k l IH]; cbn [dedup]; constructor.
  - apply Forall_forall. intros x Hx. apply filter_In in Hx.
    destruct Hx as [_ Hx]. now apply negb_true_iff in Hx.
  - now apply distinct_filter.
Qed.

Lemma distinct_insert_by (leb : K -> K -> bool) (a : K) (l : list K) :
  Forall (fun b => same_key a b = false) l -> ForallOrdPairs (fun a b : K => same_key a b = false) l ->
  ForallOrdPairs (fun a b : K => same_key a b = false) (insert_by leb a l).
Proof.
  intros Ha Hl. induction Hl as [|y l Hy Hl IH]; cbn [insert_by].
  - constructor; constructor.
  - destruct (leb a y).
    + constructor; [exact Ha|]. now constructor.
    + inversion Ha as [|? ? Hay Ha']; subst. constructor.
      * apply Forall_forall. intros x Hx. apply In_insert_by in Hx.
        destruct Hx as [->|Hx]; [now rewrite same_sym|].
        rewrite Forall_forall in Hy. now apply Hy.
      * now apply IH.
Qed.

Lemma distinct_sort_by (leb : K -> K -> bool) (l : list K) :
  ForallOrdPairs (fun a b : K => same_key a b = false) l -> ForallOrdPairs (fun a b : K => same_key a b = false) (sort_by leb l).
Proof.
  unfold sort_by. induction 1 as [|a l Ha Hl IH]; cbn [fold_right]; [constructor|].
  apply distinct_insert_by; [|exact IH].
  apply Forall_forall. intros x Hx. apply In_sort_by in Hx.
  rewrite Forall_forall in Ha. now apply Ha.
Qed.

End Distinct.

Lemma rank_key_same_sym (x y : Trend.rank_key) : same_key x y = same_key y x.
Proof.
  destruct x as [[u p] a], y as [[u' p'] a']. simpl.
  now rewrite (String.eqb_sym u u'), (String.eqb_sym p p'), (Qeq_bool_comm a a').
Qed.

Lemma comes_before_irrefl (x : Trend.rank_key) : comes_before x x = false.
Proof.
  unfold comes_before, String.ltb.
  assert (L : Qle_bool (Trend.rk_actuals x) (Trend.rk_actuals x) = true)
    by (apply Qle_bool_iff, Qle_refl).
  rewrite L.
  pose proof (String.compare_antisym (Trend.rk_product x) (Trend.rk_product x)) as C.
  destruct (String.compare (Trend.rk_product x) (Trend.rk_product x));
    try discriminate C.
  btauto.
Qed.

(** Of two distinct entries of one unit type, the one that the sort puts
    first comes before the other, and not the other way round. *)
Lemma before_of_leb (a y : Trend.rank_key) :
  Trend.rank_leb a y = true -> same_key a y = false ->
  Trend.rk_units a = Trend.rk_units y ->
  comes_before a y = true /\ comes_before y a = false.
Proof.
  destruct a as [[ua pa] aa], y as [[uy py] ay].
  unfold Trend.rank_leb, comes_before, Trend.rk_units, Trend.rk_product,
    Trend.rk_actuals. cbn [fst snd same_key prod_GroupKey string_GroupKey Trend.Q_GroupKey].
  intros L S U. subst uy. rewrite String.eqb_refl in *. cbn [andb] in *.
  destruct (Qeq_bool aa ay) eqn:E.
  - rewrite (Qeq_bool_comm ay aa), E.
    rewrite andb_true_r in S.
    assert (Lay : Qle_bool aa ay = true).
    { apply Qle_bool_iff. apply Qeq_bool_iff in E. rewrite E. apply Qle_refl. }
    assert (Lya : Qle_bool ay aa = true).
    { apply Qle_bool_iff. apply Qeq_bool_iff in E. rewrite E. apply Qle_refl. }
    rewrite Lay, Lya. cbn [negb orb andb].
    unfold String.leb in L. unfold String.ltb.
    rewrite (String.compare_antisym py pa).
    destruct (String.compare pa py) eqn:C; cbn [CompOpp].
    + apply String.compare_eq_iff in C. subst.
      rewrite String.eqb_refl in S. discriminate.
    + split; reflexivity.
    + discriminate.
  - rewrite (Qeq_bool_comm ay aa), E. rewrite L. cbn [negb orb andb].
    destruct (Qle_bool aa ay) eqn:Lay; [|split; reflexivity].
    exfalso. apply Qle_bool_iff in L, Lay.
    pose proof (Qle_antisym _ _ Lay L) as Q. apply Qeq_bool_iff in Q. congruence.
Qed.

(** The rank that [cumcount] gives an entry of the sorted frame is one more
    than the number of entries that come before it. *)
Lemma cumcount_sorted_rank (l : list Trend.rank_key) :
  sorted_by Trend.rank_leb l ->
  ForallOrdPairs (fun a b : Trend.rank_key => same_key a b = false) l ->
  forall seen x r,
    In (x, r) (Trend.cumcount_rank seen l) ->
    r = (List.length (filter (String.eqb (Trend.rk_units x)) seen) + 1
         + List.length (filter (fun y => comes_before y x) l))%nat.
Proof.
  unfold sorted_by. induction 1 as [|a l Hs IH Ha]; intros D seen x r;
    cbn [Trend.cumcount_rank]; [intros []|].
  inversion D as [|? ? Da Dl]; subst.
  rewrite Forall_forall in Ha, Da.
  intros [E|Hx].
  - inversion E; subst. cbn [filter]. rewrite comes_before_irrefl.
    rewrite (filter_none (fun y => comes_before y x) l); [cbn [List.length]; lia|].
    intros y Hy.
    destruct (String.eqb_spec (Trend.rk_units y) (Trend.rk_units x)) as [U|U].
    + symmetry in U. apply (before_of_leb x y (Ha y Hy) (Da y Hy) U).
    + unfold comes_before. apply String.eqb_neq in U. now rewrite U.
  - pose proof (cumcount_rank_In _ _ _ _ Hx) as Hin.
    rewrite (IH Dl _ _ _ Hx). cbn [filter].
    destruct (String.eqb_spec (Trend.rk_units x) (Trend.rk_units a)) as [U|U].
    + symmetry in U.
      rewrite (proj1 (before_of_leb a x (Ha x Hin) (Da x Hin) U)).
      cbn [List.length]. lia.
    + assert (C : comes_before a x = false).
      { unfold comes_before.
        destruct (String.eqb_spec (Trend.rk_units a) (Trend.rk_units x)) as [U'|_];
          [now symmetry in U'|reflexivity]. }
      rewrite C. lia.
Qed.

Lemma anchor_ranking_rank (trend_df : list Trend.trend_row) (anchor : date)
    (x : Trend.rank_key) (r : nat) :
  In (x, r) (anchor_ranking trend_df anchor) ->
  In x (anchor_entries trend_df anchor) /\ r = anchor_rank trend_df anchor x.
Proof.
  unfold anchor_ranking. rewrite latest_rank_entries. intros Hx. split.
  - apply cumcount_rank_In in Hx. now apply In_sort_by in Hx.
  - apply cumcount_sorted_rank in Hx.
    + rewrite Hx, filter_length_sort_by. unfold anchor_rank. cbn [filter List.length]. lia.
    + apply sort_by_sorted; [apply rank_leb_total|apply rank_leb_trans].
    + apply distinct_sort_by; [apply rank_key_same_sym|].
      unfold anchor_entries. apply distinct_dedup.
Qed.

(** The keys that [build_views] selects are those with an entry of rank at
    most N. *)
Lemma top_keys_selected (trend_df : list Trend.trend_row) (anchor : date)
    (n : Z) (u p : string) :
  In (u, p) (Trend.top_keys trend_df anchor n) <-> selected trend_df anchor n u p.
Proof.
  rewrite In_top_keys. unfold selected. split.
  - intros [x [r [Hx [L E]]]]. inversion E; subst.
    apply anchor_ranking_rank in Hx. destruct Hx as [Hx ->].
    exists x. auto.
  - intros [x [Hx [<- [<- L]]]].
    destruct (cumcount_rank_covers [] (Trend.latest_rank trend_df anchor) x) as [r Hr].
    { rewrite latest_rank_entries. now apply In_sort_by. }
    exists x, r. split; [exact Hr|]. split; [|reflexivity].
    apply anchor_ranking_rank in Hr. destruct Hr as [_ ->]. exact L.
Qed.

Lemma date_eqb_eq (a b : date) : date_eqb a b = true <-> a = b.
Proof.
  destruct a as [y m d], b as [y' m' d']. unfold date_eqb. cbn [d_year d_month d_day].
  rewrite !andb_true_iff, !Z.eqb_eq. split.
  - intros [[-> ->] ->]. reflexivity.
  - intros E. inversion E. auto.
Qed.

Lemma date_same_refl (a : date) : same_key a a = true.
Proof. now apply date_eqb_eq. Qed.

Lemma date_same_sym (a b : date) : same_key a b = same_key b a.
Proof.
  apply bool_eq_iff. change (date_eqb a b = true <-> date_eqb b a = true).
  rewrite !date_eqb_eq. split; congruence.
Qed.

Lemma date_same_trans (a b c : date) :
  same_key a b = true -> same_key b c = true -> same_key a c = true.
Proof.
  change (date_eqb a b = true -> date_eqb b c = true -> date_eqb a c = true).
  rewrite !date_eqb_eq. congruence.
Qed.

Lemma string_same_refl (a : string) : same_key a a = true.
Proof. apply String.eqb_refl. Qed.

Lemma string_same_sym (a b : string) : same_key a b = same_key b a.
Proof. apply String.eqb_sym. Qed.

Lemma first_notna_some (l : list (option Q)) (v : Q) :
  TrendViews.first_notna l = Some v -> In (Some v) l.
Proof.
  induction l as [|[x|] l IH]; cbn [TrendViews.first_notna]; [discriminate| |].
  - intros E. left. exact E.
  - intros E. right. now apply IH.
Qed.

Lemma first_notna_of (l : list (option Q)) (v : Q) :
  In (Some v) l -> exists v', TrendViews.first_notna l = Some v'.
Proof.
  induction l as [|[x|] l IH]; cbn [TrendViews.first_notna]; [intros []| |].
  - intros _. now exists x.
  - intros [E|Hv]; [discriminate|]. now apply IH.
Qed.

Section PivotRows.

Context {I : Type} `{GroupKey I}.
Hypothesis same_refl : forall a : I, same_key a a = true.
Hypothesis same_sym : forall a b : I, same_key a b = same_key b a.
Hypothesis same_trans :
  forall a b c : I, same_key a b = true -> same_key b c = true -> same_key a c = true.

Variable index : Trend.trend_row -> I.

Lemma dedup_has_same (l : list I) (x : I) :
  In x l -> exists y, In y (dedup l) /\ same_key y x = true.
Proof.
  induction l as [|k l IH]; [intros []|].
  intros [->|Hx].
  - exists x. split; [now left|apply same_refl].
  - destruct (IH Hx) as [y [Hy S]].
    destruct (same_key k y) eqn:E.
    + exists k. split; [now left|]. now apply (same_trans k y x).
    + exists y. split; [|exact S].
      cbn [dedup]. right. apply filter_In. split; [exact Hy|]. now rewrite E.
Qed.

(** A group that the pivot keeps holds a row with a metric value. *)
Lemma agged_row (frame : list Trend.trend_row) (e : I * string * Q) :
  In e (TrendViews.agged index frame) ->
  exists t,
    In t frame
    /\ same_key (index t) (fst (fst e)) = true
    /\ Trend.model_side t = snd (fst e)
    /\ Trend.metric_value t = Some (snd e).
Proof.
  unfold TrendViews.agged. rewrite in_flat_map. intros [kg [Hkg He]].
  destruct (TrendViews.first_notna (map Trend.metric_value (snd kg))) as [v|] eqn:F;
    [|destruct He].
  destruct He as [<-|[]]. cbn [fst snd].
  apply first_notna_some, in_map_iff in F. destruct F as [t [Mt Ht]].
  rewrite (In_groupby _ _ _ Hkg) in Ht. apply filter_In in Ht.
  destruct Ht as [Ht S]. cbn [same_key prod_GroupKey fst snd] in S.
  apply andb_true_iff in S. destruct S as [S1 S2].
  exists t. split; [exact Ht|]. split; [exact S1|]. split; [|exact Mt].
  now apply String.eqb_eq in S2.
Qed.

(** A row with a metric value has its group in the pivot. *)
Lemma agged_of_row (frame : list Trend.trend_row) (t : Trend.trend_row) (v : Q) :
  In t frame -> Trend.metric_value t = Some v ->
  exists e,
    In e (TrendViews.agged index frame)
    /\ same_key (index t) (fst (fst e)) = true
    /\ snd (fst e) = Trend.model_side t.
Proof.
  intros Ht Mt.
  destruct (groupby_group_of_row
              (pair_same_refl same_refl string_same_refl)
              (pair_same_sym same_sym string_same_sym)
              (pair_same_trans same_trans string_same_trans)
              (fun t => (index t, Trend.model_side t)) frame t Ht)
    as [[[i side] grp] [Hkg [S G]]].
  cbn [fst snd] in S, G.
  cbn [same_key prod_GroupKey fst snd] in S.
  apply andb_true_iff in S. destruct S as [S1 S2].
  change ((Trend.model_side t =? side) = true) in S2. apply String.eqb_eq in S2.
  destruct (first_notna_of (map Trend.metric_value grp) v) as [v' F].
  { apply in_map_iff. exists t. split; [exact Mt|]. rewrite G.
    apply filter_In. split; [exact Ht|].
    apply (pair_same_refl same_refl string_same_refl). }
  exists (i, side, v'). split; [|split; [exact S1|now symmetry]].
  unfold TrendViews.agged. apply in_flat_map. exists (i, side, grp).
  split; [exact Hkg|]. cbn [fst snd]. rewrite F. now left.
Qed.

(** The rows of the wide view are the indexes of the groups kept. *)
Lemma pivot_row_index (frame : list Trend.trend_row)
    (rows : list (TrendViews.wide_row I)) (w : TrendViews.wide_row I) :
  TrendViews.pivot_wide index frame = Driver.Returned rows ->
  In w rows ->
  exists e, In e (TrendViews.agged index frame)
            /\ TrendViews.w_index w = fst (fst e).
Proof.
  unfold TrendViews.pivot_wide.
  destruct (negb (TrendViews.has_column (TrendViews.agged index frame) "stats_model"));
    [discriminate|].
  destruct (negb (TrendViews.has_column (TrendViews.agged index frame) "marketing"));
    [discriminate|].
  intros E Hw. inversion E; subst rows. clear E.
  apply in_map_iff in Hw. destruct Hw as [i [<- Hi]].
  apply In_dedup_incl, in_map_iff in Hi. destruct Hi as [e [<- He]].
  exists e. split; [exact He|reflexivity].
Qed.

Lemma pivot_index_row (frame : list Trend.trend_row)
    (rows : list (TrendViews.wide_row I)) (e : I * string * Q) :
  TrendViews.pivot_wide index frame = Driver.Returned rows ->
  In e (TrendViews.agged index frame) ->
  exists w, In w rows /\ same_key (TrendViews.w_index w) (fst (fst e)) = true.
Proof.
  unfold TrendViews.pivot_wide.
  destruct (negb (TrendViews.has_column (TrendViews.agged index frame) "stats_model"));
    [discriminate|].
  destruct (negb (TrendViews.has_column (TrendViews.agged index frame) "marketing"));
    [discriminate|].
  intros E He. inversion E; subst rows. clear E.
  destruct (dedup_has_same
              (map (fun e => fst (fst e)) (TrendViews.agged index frame))
              (fst (fst e)))
    as [i [Hi S]].
  { apply in_map_iff. now exists e. }
  eexists. split.
  - apply in_map_iff. exists i. split; [reflexivity|exact Hi].
  - exact S.
Qed.

(** The view has a row for an index exactly when the frame has a row of
    that index with a metric value. *)
Lemma pivot_wide_rows (frame : list Trend.trend_row)
    (rows : list (TrendViews.wide_row I)) :
  TrendViews.pivot_wide index frame = Driver.Returned rows ->
  (forall w, In w rows ->
     exists t, In t frame
               /\ same_key (index t) (TrendViews.w_index w) = true
               /\ Trend.metric_value t <> None)
  /\ (forall t, In t frame -> Trend.metric_value t <> None ->
        exists w, In w rows /\ same_key (index t) (TrendViews.w_index w) = true).
Proof.
  intros P. split.
  - intros w Hw. destruct (pivot_row_index _ _ _ P Hw) as [e [He Ew]].
    destruct (agged_row _ _ He) as [t [Ht [S [_ Mt]]]].
    exists t. split; [exact Ht|]. split; [now rewrite Ew|]. now rewrite Mt.
  - intros t Ht Mt. destruct (Trend.metric_value t) as [v|] eqn:Mv; [|congruence].
    destruct (agged_of_row _ _ _ Ht Mv) as [e [He [S _]]].
    destruct (pivot_index_row _ _ _ P He) as [w [Hw Sw]].
    exists w. split; [exact Hw|].
    rewrite same_sym in Sw. now apply (same_trans _ (fst (fst e))).
Qed.

End PivotRows.

Lemma Q_same_trans (a b c : Q) :
  same_key a b = true -> same_key b c = true -> same_key a c = true.
Proof. apply Qeq_bool_trans. Qed.

Lemma product_index_refl (a : TrendViews.product_index_type) : same_key a a = true.
Proof.
  apply pair_same_refl; [|apply Qeq_bool_refl].
  repeat (apply pair_same_refl; [|apply String.eqb_refl]).
  apply date_same_refl.
Qed.

Lemma product_index_sym (a b : TrendViews.product_index_type) :
  same_key a b = same_key b a.
Proof.
  apply pair_same_sym; [|apply Qeq_bool_comm].
  repeat (apply pair_same_sym; [|apply String.eqb_sym]).
  apply date_same_sym.
Qed.

Lemma product_index_trans (a b c : TrendViews.product_index_type) :
  same_key a b = true -> same_key b c = true -> same_key a c = true.
Proof.
  apply pair_same_trans; [|apply Q_same_trans].
  repeat (apply pair_same_trans; [|apply string_same_trans]).
  apply date_same_trans.
Qed.

(** Rows of one product index are rows of one month, unit type and
    product. *)
Lemma product_index_same (t : Trend.trend_row) (i : TrendViews.product_index_type) :
  same_key (TrendViews.product_index t) i = true ->
  TrendViews.pi_month_start i = Trend.month_start t
  /\ TrendViews.pi_units i = Trend.units t
  /\ TrendViews.pi_product i = Trend.product t.
Proof.
  destruct i as [[[[[[[m u] bc] bn] pf] p] mm] a].
  unfold TrendViews.product_index.
  cbn [same_key prod_GroupKey fst snd TrendViews.pi_month_start
       TrendViews.pi_units TrendViews.pi_product].
  rewrite !andb_true_iff. intros [[[[[[[Sm Su] _] _] _] Sp] _] _].
  apply date_eqb_eq in Sm. apply String.eqb_eq in Su, Sp. auto.
Qed.

(** C9 (amended): when [build_views] returns the views, the product view
    holds the products selected from the anchor month alone.  The distinct
    (unit type, product, actuals) entries of the anchor month's product rows
    are ranked within their unit type, an entry's rank being one more than
    the number of entries with more actuals, or with the same actuals and a
    smaller product key; the unit types and products with an entry of rank
    at most N are selected.  Every row of the product view is the month,
    unit type and product of a product row of the trend frame with a metric
    value, and its product is selected; and every product row of a selected
    product that has a metric value, of whatever month, has its row in the
    view.  A product that is not selected has no row in any month, and a
    month in which a selected product has no metric value on either side is
    not in the view. *)
Theorem top_n_from_anchor_month_only (trend_df : list Trend.trend_row)
    (anchor_month : date) (n : Z) (v : TrendViews.views) :
  TrendViews.build_views trend_df anchor_month n = Driver.Returned v ->
  (forall w,
      In w (TrendViews.product_top_wide v) ->
      selected trend_df anchor_month n
               (TrendViews.pi_units (TrendViews.w_index w))
               (TrendViews.pi_product (TrendViews.w_index w))
      /\ exists t,
           In t trend_df
           /\ Trend.view_level t = "product"
           /\ Trend.month_start t = TrendViews.pi_month_start (TrendViews.w_index w)
           /\ Trend.units t = TrendViews.pi_units (TrendViews.w_index w)
           /\ Trend.product t = TrendViews.pi_product (TrendViews.w_index w)
           /\ Trend.metric_value t <> None)
  /\ (forall t,
        In t trend_df ->
        Trend.view_level t = "product" ->
        selected trend_df anchor_month n (Trend.units t) (Trend.product t) ->
        Trend.metric_value t <> None ->
        exists w,
          In w (TrendViews.product_top_wide v)
          /\ TrendViews.pi_month_start (TrendViews.w_index w) = Trend.month_start t
          /\ TrendViews.pi_units (TrendViews.w_index w) = Trend.units t
          /\ TrendViews.pi_product (TrendViews.w_index w) = Trend.product t).
Proof.
  unfold TrendViews.build_views.
  destruct (TrendViews.pivot_wide TrendViews.totals_index _); [|discriminate].
  destruct (TrendViews.pivot_wide TrendViews.bu_index _); [|discriminate].
  destruct (TrendViews.pivot_wide TrendViews.prod_fam_index _); [|discriminate].
  destruct (TrendViews.pivot_wide TrendViews.product_index _) as [rows|] eqn:P;
    [|discriminate].
  intros E. inversion E; subst v. clear E. cbn [TrendViews.product_top_wide].
  destruct (pivot_wide_rows product_index_refl product_index_sym
              product_index_trans TrendViews.product_index _ _ P) as [Snd Cmp].
  split.
  - intros w Hw. destruct (Snd w Hw) as [t [Ht [S Mt]]].
    apply In_product_top in Ht. destruct Ht as [Ht Hk].
    unfold Trend.product_all in Ht. apply filter_In in Ht.
    destruct Ht as [Ht L]. apply String.eqb_eq in L.
    apply top_keys_selected in Hk.
    apply product_index_same in S. destruct S as [Sm [Su Sp]].
    rewrite Su, Sp. split; [exact Hk|].
    exists t. rewrite Sm. auto 8.
  - intros t Ht L Sel Mt.
    destruct (Cmp t) as [w [Hw S]]; [|exact Mt|].
    + apply In_product_top. split.
      * unfold Trend.product_all. apply filter_In. split; [exact Ht|].
        now apply String.eqb_eq.
      * now apply top_keys_selected.
    + exists w. split; [exact Hw|]. now apply product_index_same.
Qed.

Lemma top_n_from_anchor_month_only_witness :
  exists v,
    TrendViews.build_views Window.trend_df Sample.march 1 = Driver.Returned v
    /\ map (fun w => (TrendViews.pi_month_start (TrendViews.w_index w),
                      TrendViews.pi_product (TrendViews.w_index w)))
           (TrendViews.product_top_wide v)
       = [(Sample.february, "Y"); (Sample.march, "Y")]
    /\ selected Window.trend_df Sample.march 1 "quantity" "Y"
    /\ ~ selected Window.trend_df Sample.march 1 "quantity" "X".
Proof.
  destruct (TrendViews.build_views Window.trend_df Sample.march 1) as [v|e] eqn:B;
    [|vm_compute in B; discriminate B].
  exists v.
  destruct (top_n_from_anchor_month_only Window.trend_df Sample.march 1 v B)
    as [Snd Cmp].
  vm_compute in B. inversion B; subst v. clear B.
  split; [reflexivity|]. split; [vm_compute; reflexivity|]. split.
  - match goal with
    | Snd : forall w, In w (TrendViews.product_top_wide ?V) -> _ |- _ =>
        assert (Hw : exists w, In w (TrendViews.product_top_wide V)
                               /\ TrendViews.pi_units (TrendViews.w_index w) = "quantity"
                               /\ TrendViews.pi_product (TrendViews.w_index w) = "Y")
    end.
    { eexists. split; [cbn; left; reflexivity|]. split; reflexivity. }
    destruct Hw as [w [Hw [Eu Ep]]]. destruct (Snd w Hw) as [S _].
    rewrite Eu, Ep in S. exact S.
  - intros Sel.
    destruct (Cmp (Trend.mkTrend Sample.march "quantity" "product" "D100" "Medical"
                                 "Family 1" "X" "Pat" "midmark_fcast_acc" 5
                                 "stats_model" (Some (5 # 4)) 4 1))
      as [w [Hw [_ [_ Pw]]]].
    + vm_compute. tauto.
    + reflexivity.
    + exact Sel.
    + discriminate.
    + cbn in Hw. destruct Hw as [<-|[<-|[]]]; discriminate Pw.
Defined.

(** C9 (as stated, refuted): a selected product does not appear in every
    month where it has rows.  Product X is the one product of March 2024,
    the anchor month, and is selected with N = 1; in February it has its
    product rows, with actuals of 5 and no forecast on either side, so both
    metric values are null and the view has no row for it in February. *)
Lemma selected_product_month_not_in_view :
  exists v t,
    TrendViews.build_views Window.dormant_trend_df Sample.march 1 = Driver.Returned v
    /\ In t Window.dormant_trend_df
    /\ Trend.view_level t = "product"
    /\ Trend.month_start t = Sample.february
    /\ selected Window.dormant_trend_df Sample.march 1 (Trend.units t) (Trend.product t)
    /\ forall w, In w (TrendViews.product_top_wide v) ->
                 TrendViews.pi_month_start (TrendViews.w_index w)
                 <> Trend.month_start t.
Proof.
  eexists. exists (Trend.mkTrend Sample.february "quantity" "product" "D100" "Medical"
                                 "Family 1" "X" "Pat" "midmark_fcast_acc" 5
                                 "stats_model" None 0 5).
  split; [vm_compute; reflexivity|].
  split; [vm_compute; tauto|].
  split; [reflexivity|]. split; [reflexivity|]. split.
  - exists ("quantity", "X", 10%Q). split; [vm_compute; tauto|].
    split; [reflexivity|]. split; [reflexivity|]. vm_compute. discriminate.
  - intros w [<-|[]]. cbn. discriminate.
Qed.

(** ** Ratios of the two reports *)

(** X19: the two reports divide the same two sums in opposite directions.
    For every grain that both have (all but the manager grain), over the
    reconciled records of the grain with A the sum of their actuals and F
    the forecast sum of a side, the dashboards have an Accuracy record that
    holds F/A for the side, null exactly when A is zero, and the trend
    aggregator has a row of the side that holds A/F, null exactly when F is
    zero.  So with zero actuals and a nonzero forecast the dashboard is
    null while the trend row holds 0/F, and the other way round. *)
Theorem trend_and_dashboard_reciprocal (raw : list raw_row) (m : date)
    (g : grain) (r : raw_row) :
  In r raw -> known_unit (r_Units r) -> trend_grain g ->
  let rows := grain_of g raw r in
  let A := qsum (map r_Actuals rows) in
  let Fs := qsum (map r_Stats_Model_Fcast rows) in
  let Fm := qsum (map r_Marketing_Fcast rows) in
  exists rec ts tm,
    (In rec (dashboards raw) /\ dr_Metric rec = ACC /\ labelled g r rec)
    /\ (In ts (Trend.build_month_trend_rows raw m)
        /\ Trend.model_side ts = "stats_model" /\ trend_labelled g r rows m ts)
    /\ (In tm (Trend.build_month_trend_rows raw m)
        /\ Trend.model_side tm = "marketing" /\ trend_labelled g r rows m tm)
    /\ ratio_unless_zero (dr_Stats_Model rec) Fs A
    /\ ratio_unless_zero (Trend.metric_value ts) A Fs
    /\ ratio_unless_zero (dr_Marketing rec) Fm A
    /\ ratio_unless_zero (Trend.metric_value tm) A Fm.
Proof.
  intros Hr Hu Hg rows A Fs Fm.
  destruct (grains_have_records raw g r ACC Hr Hu (or_introl eq_refl))
    as [rec [Hrec [Mrec [Lrec Vrec]]]].
  destruct (grains_have_trend_rows raw m g r "stats_model" Hr Hu Hg
              (or_introl eq_refl)) as [ts [Hts [Sts [Lts Vts]]]].
  destruct (grains_have_trend_rows raw m g r "marketing" Hr Hu Hg
              (or_intror eq_refl)) as [tm [Htm [Stm [Ltm Vtm]]]].
  exists rec, ts, tm.
  destruct Vrec as [[_ [Ds Dm]]|[W _]];
    [|rewrite Mrec in W; discriminate W].
  destruct Vts as [Ats [[[_ [Fts _]]|[X _]] Rts]];
    [|rewrite Sts in X; discriminate X].
  destruct Vtm as [Atm [[[X _]|[_ [Ftm _]]] Rtm]];
    [rewrite Stm in X; discriminate X|].
  rewrite Ats, Fts in Rts. rewrite Atm, Ftm in Rtm.
  split; [auto|]. split; [auto|]. split; [auto|].
  split; [exact Ds|]. split; [exact Rts|]. split; [exact Dm|exact Rtm].
Qed.

Lemma trend_and_dashboard_reciprocal_witness :
  exists rec ts,
    In rec (dashboards Sample.reconciled_df)
    /\ In ts (Trend.build_month_trend_rows Sample.reconciled_df Sample.march)
    /\ (exists d, dr_Stats_Model rec = Some d /\ (d == 0)%Q)
    /\ Trend.metric_value ts = None.
Proof.
  destruct (trend_and_dashboard_reciprocal Sample.reconciled_df Sample.march
              GTotal Sample.fam1_row)
    as [rec [ts [tm [[Hrec _] [[Hts _] [_ [Ds [Ts _]]]]]]]].
  - rewrite sample_reconciled. now left.
  - left. reflexivity.
  - discriminate.
  - exists rec, ts. split; [exact Hrec|]. split; [exact Hts|].
    split.
    + eexists. split; [apply (proj1 Ds); vm_compute; discriminate|].
      vm_compute. reflexivity.
    + apply (proj2 Ts). vm_compute. reflexivity.
Defined.
